(** * You_TweeT backend: request handlers over a document store

    A shallow embedding of the user, video and subscription controllers.
    A handler is a computation over the three collections that either
    returns the response it sends or throws a JavaScript error; writes made
    before a throw stay in the store, as nothing in the controllers opens a
    transaction. *)

From Stdlib Require Import String Ascii List Bool NArith ZArith Lia.
From ExtLib Require Import Structures.Monad Structures.MonadState Structures.MonadExc.
Import ListNotations.
Import MonadNotation.
Local Open Scope string_scope.
Local Open Scope N_scope.
Local Open Scope monad_scope.

Set Implicit Arguments.

(** ** JavaScript strings

    A string is a sequence of code units below 256 (the Latin-1 range). *)

Module Js.

(** WhiteSpace and LineTerminator code points below 256: TAB, LF, VT, FF,
    CR, SP and NBSP. *)
Definition isWhiteSpace (c : ascii) : bool :=
  let n := N_of_ascii c in
  ((9 <=? n) && (n <=? 13)) || (n =? 32) || (n =? 160).

Fixpoint trimStart (s : string) : string :=
  match s with
  | EmptyString => EmptyString
  | String c r => if isWhiteSpace c then trimStart r else s
  end.

Fixpoint trimEnd (s : string) : string :=
  match s with
  | EmptyString => EmptyString
  | String c r =>
      match trimEnd r with
      | EmptyString => if isWhiteSpace c then EmptyString else String c EmptyString
      | r' => String c r'
      end
  end.

(** [String.prototype.trim]. *)
Definition trim (s : string) : string := trimEnd (trimStart s).

Definition lowerChar (c : ascii) : ascii :=
  let n := N_of_ascii c in
  if ((65 <=? n) && (n <=? 90))
     || ((192 <=? n) && (n <=? 222) && negb (n =? 215))
  then ascii_of_N (n + 32)
  else c.

(** [String.prototype.toLowerCase]. *)
Fixpoint toLowerCase (s : string) : string :=
  match s with
  | EmptyString => EmptyString
  | String c r => String (lowerChar c) (toLowerCase r)
  end.

(** Truthiness of a value that is a string or [undefined]. *)
Definition truthy (v : option string) : bool :=
  match v with
  | Some s => negb (s =? "")%string
  | None => false
  end.

(** [Array.prototype.includes] on an array of strings. *)
Definition includes (l : list string) (s : string) : bool :=
  existsb (String.eqb s) l.

Fixpoint allWhiteSpace (s : string) : bool :=
  match s with
  | EmptyString => true
  | String c r => isWhiteSpace c && allWhiteSpace r
  end.

End Js.

(** ** Documents *)

(** A 96-bit object id. *)
Definition ObjectId := N.

Module User.
(** Modelled from the spec: user.model.js is not among the sources; the
    fields are those of section 3 (Data model) and of the documents the
    controllers build. *)
Record t := mk
  { _id : ObjectId;
    username : string;
    email : string;
    password : string;
    fullName : string;
    avatar : string;
    coverImage : option string;
    refreshToken : option string;
    watchHistory : list ObjectId }.

Definition set_refreshToken (tok : option string) (u : t) : t :=
  mk (_id u) (username u) (email u) (password u) (fullName u) (avatar u)
     (coverImage u) tok (watchHistory u).

Definition set_watchHistory (h : list ObjectId) (u : t) : t :=
  mk (_id u) (username u) (email u) (password u) (fullName u) (avatar u)
     (coverImage u) (refreshToken u) h.
End User.

Module Video.
(** Modelled from the spec: video.model.js is not among the sources. *)
Record t := mk
  { _id : ObjectId;
    title : string;
    description : string;
    duration : N;
    thumbnail : string;
    videoFile : string;
    owner : ObjectId;
    views : N;
    isPublished : bool }.

Definition set_views (n : N) (v : t) : t :=
  mk (_id v) (title v) (description v) (duration v) (thumbnail v)
     (videoFile v) (owner v) n (isPublished v).
End Video.

Module Subscription.
(** Modelled from the spec: subscription.model.js is not among the
    sources; an edge carries the two references of section 3. *)
Record t := mk
  { _id : ObjectId;
    subscriber : ObjectId;
    channel : ObjectId }.
End Subscription.

(** The three collections in their natural (insertion) order, and the
    supply of fresh object ids. *)
Record DB := mkDB
  { users : list User.t;
    videos : list Video.t;
    subscriptions : list Subscription.t;
    next_id : ObjectId }.

Definition set_users (l : list User.t) (db : DB) : DB :=
  mkDB l (videos db) (subscriptions db) (next_id db).
Definition set_videos (l : list Video.t) (db : DB) : DB :=
  mkDB (users db) l (subscriptions db) (next_id db).
Definition set_subscriptions (l : list Subscription.t) (db : DB) : DB :=
  mkDB (users db) (videos db) l (next_id db).

(** ** Errors and responses *)

Inductive JsError :=
| ApiError (statusCode : N) (message : string)
| JsonWebTokenError (message : string)
| TypeError (message : string)
| ReferenceError (message : string)
| MongooseError (message : string).

Definition error_message (e : JsError) : string :=
  match e with
  | ApiError _ m | JsonWebTokenError m | TypeError m
  | ReferenceError m | MongooseError m => m
  end.

(** [error instanceof jwt.JsonWebTokenError]. *)
Definition instanceof_JsonWebTokenError (e : JsError) : bool :=
  match e with
  | JsonWebTokenError _ => true
  | _ => false
  end.

(** A user document after [.select("-password -refreshToken")]. *)
Record UserView := mkUserView
  { uv_id : ObjectId;
    uv_username : string;
    uv_email : string;
    uv_fullName : string;
    uv_avatar : string;
    uv_coverImage : option string;
    uv_watchHistory : list ObjectId }.

Definition select_public (u : User.t) : UserView :=
  mkUserView (User._id u) (User.username u) (User.email u) (User.fullName u)
             (User.avatar u) (User.coverImage u) (User.watchHistory u).

(** The owner subdocument of [populate("owner", ["username", "avatar"])]. *)
Record OwnerCard := mkOwnerCard
  { oc_id : ObjectId; oc_username : string; oc_avatar : string }.

Record PopulatedVideo := mkPopulatedVideo
  { pv_video : Video.t; pv_owner : option OwnerCard }.

(** The owner projection of the watch-history pipeline. *)
Record OwnerProfile := mkOwnerProfile
  { op_id : ObjectId; op_username : string; op_email : string;
    op_fullName : string; op_avatar : string }.

Record HistoryEntry := mkHistoryEntry
  { he_video : Video.t; he_owner : list OwnerProfile }.

Record ChannelProfile := mkChannelProfile
  { cp_user : UserView;
    subscribers : list Subscription.t;
    subscribedTo : list Subscription.t;
    subscribersCount : N;
    subscribedToCount : N;
    isSubscribed : bool }.

Record PageResult := mkPageResult
  { docs : list PopulatedVideo;
    totalDocs : N;
    totalPages : N;
    page : N }.

Inductive Payload :=
| PBool (b : bool)
| PUser (u : UserView)
| PTokens (accessToken refreshToken : string)
| PLogin (loggedInUser : option UserView) (accessToken refreshToken : string)
| PVideo (v : PopulatedVideo)
| PVideoPage (videos : list PopulatedVideo) (totalVideos totalPages currentPage : N)
| PSubscription (s : Subscription.t)
| PChannel (c : ChannelProfile)
| PHistory (l : list HistoryEntry).

(** Modelled from the spec: the ApiResponse class of utils/ is not among
    the sources.  Section 6 gives the envelope; every call site passes
    (statusCode, message, data), and an argument past the third has no
    field of the envelope to land in as data. *)
Record ApiResponse := mkApiResponse
  { statusCode : N;
    message : string;
    data : option Payload }.

Record Cookie := mkCookie
  { c_name : string; c_value : string; c_secure : bool }.

(** What a handler hands to [res]: the HTTP status, the cookies set and the
    JSON body. *)
Record Response := mkResponse
  { status : N;
    cookies : list Cookie;
    json : ApiResponse }.

(** A response is a success response when its HTTP status is below 400. *)
Definition is_success (r : Response) : bool := status r <? 400.

(** ** The handler monad *)

Inductive Outcome (A : Type) :=
| Returned (a : A)
| Thrown (e : JsError).
Arguments Returned {A} a.
Arguments Thrown {A} e.

Definition Handler (A : Type) : Type := DB -> Outcome A * DB.

Definition hret {A} (a : A) : Handler A := fun db => (Returned a, db).

Definition hbind {A B} (m : Handler A) (k : A -> Handler B) : Handler B :=
  fun db =>
    match m db with
    | (Returned a, db') => k a db'
    | (Thrown e, db') => (Thrown e, db')
    end.

Definition throw {A} (e : JsError) : Handler A := fun db => (Thrown e, db).

(** [try { m } catch (error) { h error }]. *)
Definition try_catch {A} (m : Handler A) (h : JsError -> Handler A) : Handler A :=
  fun db =>
    match m db with
    | (Returned a, db') => (Returned a, db')
    | (Thrown e, db') => h e db'
    end.

#[global] Instance Monad_Handler : Monad Handler :=
  { ret := @hret; bind := @hbind }.

#[global] Instance MonadExc_Handler : MonadExc JsError Handler :=
  { raise := @throw; catch := @try_catch }.

#[global] Instance MonadState_Handler : MonadState DB Handler :=
  { get := fun db => (Returned db, db);
    put := fun db' _ => (Returned tt, db') }.

(** ** Collection primitives *)

Section Collections.
Variable A : Type.

(** Apply [f] to the first element that satisfies [p]. *)
Fixpoint update_first (p : A -> bool) (f : A -> A) (l : list A) : list A :=
  match l with
  | [] => []
  | x :: r => if p x then f x :: r else x :: update_first p f r
  end.

(** Drop the first element that satisfies [p]. *)
Fixpoint remove_first (p : A -> bool) (l : list A) : list A :=
  match l with
  | [] => []
  | x :: r => if p x then r else x :: remove_first p r
  end.
End Collections.

Definition has_user_id (id : ObjectId) (u : User.t) : bool := User._id u =? id.
Definition has_video_id (id : ObjectId) (v : Video.t) : bool := Video._id v =? id.
Definition has_subscription_id (id : ObjectId) (s : Subscription.t) : bool :=
  Subscription._id s =? id.

(** [User.findById(id)]. *)
Definition User_findById (id : ObjectId) : Handler (option User.t) :=
  db <- get ;; ret (find (has_user_id id) (users db)).

(** [user.save()] on a document that was loaded from the collection. *)
Definition User_save (u : User.t) : Handler unit :=
  db <- get ;;
  put (set_users (update_first (has_user_id (User._id u)) (fun _ => u) (users db)) db).

(** A filter field against a stored string; an [undefined] filter value
    matches no document, every stored field being a string. *)
Definition field_matches (q : option string) (stored : string) : bool :=
  match q with
  | Some s => (s =? stored)%string
  | None => false
  end.

(** [User.findOne({ $or: [{ username }, { email }] })]. *)
Definition User_findOne_username_or_email (uname mail : option string)
  : Handler (option User.t) :=
  db <- get ;;
  ret (find (fun u => field_matches uname (User.username u)
                      || field_matches mail (User.email u))
            (users db)).

(** [Video.findByIdAndUpdate(id, { $inc: { views: 1 } }, { new: true })]. *)
Definition Video_findByIdAndUpdate_inc_views (id : ObjectId)
  : Handler (option Video.t) :=
  db <- get ;;
  let bump := fun v => Video.set_views (Video.views v + 1) v in
  match find (has_video_id id) (videos db) with
  | None => ret None
  | Some v =>
      put (set_videos (update_first (has_video_id id) bump (videos db)) db) ;;
      ret (Some (bump v))
  end.

(** [.populate("owner", ["username", "avatar"])]. *)
Definition populate_owner (v : Video.t) : Handler PopulatedVideo :=
  db <- get ;;
  ret (mkPopulatedVideo v
         (option_map (fun u => mkOwnerCard (User._id u) (User.username u) (User.avatar u))
                     (find (has_user_id (Video.owner v)) (users db)))).

(** [Subscription.findOne({ subscriber, channel })]. *)
Definition Subscription_findOne (sub chan : ObjectId)
  : Handler (option Subscription.t) :=
  db <- get ;;
  ret (find (fun s => (Subscription.subscriber s =? sub)
                      && (Subscription.channel s =? chan))
            (subscriptions db)).

(** [Subscription.findByIdAndDelete(id)]. *)
Definition Subscription_findByIdAndDelete (id : ObjectId) : Handler unit :=
  db <- get ;;
  put (set_subscriptions (remove_first (has_subscription_id id) (subscriptions db)) db).

(** [Subscription.create({ subscriber, channel })]. *)
Definition Subscription_create (sub chan : ObjectId) : Handler Subscription.t :=
  db <- get ;;
  let s := Subscription.mk (next_id db) sub chan in
  put (mkDB (users db) (videos db) (subscriptions db ++ [s]) (next_id db + 1)) ;;
  ret s.

(** An edge from [sub] to [chan] is stored. *)
Definition has_edge (sub chan : ObjectId) (db : DB) : bool :=
  existsb (fun s => (Subscription.subscriber s =? sub)
                    && (Subscription.channel s =? chan))
          (subscriptions db).

(** Modelled from the spec: the schema of user.model.js is not among the
    sources.  Section 3 lists username, email, password, fullName and
    avatar as the fields of a user, coverImage as optional, and username
    and email as unique; a required string is rejected when it is undefined
    or empty. *)
Definition required (v : option string) : option string :=
  match v with
  | Some s => if (s =? "")%string then None else Some s
  | None => None
  end.

Record UserInput := mkUserInput
  { in_username : string;
    in_fullName : option string;
    in_email : option string;
    in_password : option string;
    in_avatar : option string;
    in_coverImage : option string }.

Section UserCreate.
(** The pre-save hook that hashes the password. *)
Variable hashPassword : string -> string.

(** [User.create(doc)]. *)
Definition User_create (doc : UserInput) : Handler User.t :=
  db <- get ;;
  match required (Some (in_username doc)), required (in_fullName doc),
        required (in_email doc), required (in_password doc),
        required (in_avatar doc) with
  | Some uname, Some fname, Some mail, Some pw, Some av =>
      if existsb (fun u => (User.username u =? uname)%string
                           || (User.email u =? mail)%string) (users db)
      then raise (MongooseError "E11000 duplicate key error")
      else
        let u := User.mk (next_id db) uname mail (hashPassword pw) fname av
                         (in_coverImage doc) None [] in
        put (mkDB (users db ++ [u]) (videos db) (subscriptions db) (next_id db + 1)) ;;
        ret u
  | _, _, _, _, _ => raise (MongooseError "User validation failed")
  end.
End UserCreate.

(** ** Requests *)

Record File := mkFile { path : string }.

Record Files := mkFiles
  { f_avatar : option (list File);
    f_coverImage : option (list File) }.

Record RegisterRequest := mkRegisterRequest
  { body_username : option string;
    body_email : option string;
    body_password : option string;
    body_fullName : option string;
    files : option Files }.

Record RefreshRequest := mkRefreshRequest
  { cookies_refreshToken : option string;
    body_refreshToken : option string }.

Record VideosQuery := mkVideosQuery
  { q_page : option string;
    q_limit : option string;
    q_sortBy : option string;
    q_sortType : option string;
    q_query : option string;
    q_userId : option string }.

Record UploadResult := mkUploadResult { url : string; upload_duration : N }.

Record SearchQuery := mkSearchQuery
  { sq_regex : string;           (* $regex on title or description, option i *)
    sq_owner : option ObjectId }.

Record PageOptions := mkPageOptions
  { po_page : option Z;          (* None is NaN *)
    po_limit : option Z;
    po_sort : string * Z }.

(** ** [parseInt(s, 10)] *)

Definition digit_of (c : ascii) : option Z :=
  let n := N_of_ascii c in
  if (48 <=? n) && (n <=? 57) then Some (Z.of_N (n - 48)) else None.

Fixpoint parse_digits (acc : option Z) (s : string) : option Z :=
  match s with
  | EmptyString => acc
  | String c r =>
      match digit_of c with
      | Some d =>
          parse_digits (Some (match acc with Some a => 10 * a + d | None => d end)%Z) r
      | None => acc
      end
  end.

Definition parseInt (s : string) : option Z :=
  match Js.trimStart s with
  | String "-" r => option_map Z.opp (parse_digits None r)
  | String "+" r => parse_digits None r
  | t => parse_digits None t
  end.

(** ** The string form of an object id *)

Definition is_lower_hex (c : ascii) : bool :=
  let n := N_of_ascii c in
  ((48 <=? n) && (n <=? 57)) || ((97 <=? n) && (n <=? 102)).

Fixpoint all_lower_hex (s : string) : bool :=
  match s with
  | EmptyString => true
  | String c r => is_lower_hex c && all_lower_hex r
  end.

(** The spelling that [ObjectId.prototype.toString] produces: 24 hexadecimal
    digits in lower case. *)
Definition canonical_id (s : string) : bool :=
  (String.length s =? 24)%nat && all_lower_hex s.

(** ** Aggregation values *)

(** The values that meet in the [$in] of the channel-profile pipeline: an
    object id, [null] (an absent requester), or a subscription document. *)
Inductive Bson :=
| BObjectId (o : ObjectId)
| BNull
| BSubscription (s : Subscription.t).

Definition bson_eqb (a b : Bson) : bool :=
  match a, b with
  | BObjectId x, BObjectId y => x =? y
  | BNull, BNull => true
  | BSubscription s, BSubscription t =>
      (Subscription._id s =? Subscription._id t)
      && (Subscription.subscriber s =? Subscription.subscriber t)
      && (Subscription.channel s =? Subscription.channel t)
  | _, _ => false
  end.

(** [{ $in: [v, arr] }]. *)
Definition bson_in (v : Bson) (arr : list Bson) : bool := existsb (bson_eqb v) arr.

Definition bson_of_requester (requester : option ObjectId) : Bson :=
  match requester with
  | Some id => BObjectId id
  | None => BNull
  end.

(** ** Module scope *)

(** The names bound by the import declarations of the video controller. *)
Definition video_controller_imports : list string :=
  ["Video"; "User"; "asyncHandler"; "ApiResponse"; "uploadOnCloudinary";
   "deleteFromCloudinary"; "ApiError"; "isValidObjectId"].

(** Evaluating an identifier: one that no declaration of the module binds
    throws a ReferenceError. *)
Definition resolve_identifier (scope : list string) (name : string) : Handler unit :=
  if Js.includes scope name then ret tt
  else raise (ReferenceError (name ++ " is not defined")).

Definition send (st : N) (cs : list Cookie) (body : ApiResponse) : Handler Response :=
  ret (mkResponse st cs body).

(** [a || b] on values that are strings or [undefined]. *)
Definition js_or (a b : option string) : option string :=
  if Js.truthy a then a else b.

Definition default_to (d : string) (v : option string) : string :=
  match v with
  | Some s => s
  | None => d
  end.

(** [a !== b] for a string against a string or [undefined]. *)
Definition strict_neq (a : string) (b : option string) : bool :=
  match b with
  | Some s => negb (a =? s)%string
  | None => true
  end.

Definition default_coverImage : string :=
  "https://images.unsplash.com/photo-1545486332-9e0999c535b2?q=80&w=1374&auto=format&fit=crop&ixlib=rb-4.0.3&ixid=M3wxMjA3fDB8MHxwaG90by1wYWdlfHx8fGVufDB8fHx8fA%3D%3D".

(** ** The controllers *)

Section Backend.

(** External collaborators and the model methods that are not among the
    sources.  [jwt_verify] is [jwt.verify] under the refresh secret: the
    message of the JsonWebTokenError it throws, or the [_id] claim of the
    decoded token. *)
Variable jwt_verify : string -> string + ObjectId.
Variable generateAccessToken : User.t -> string.
Variable generateRefreshToken : User.t -> string.
Variable isPasswordMatched : User.t -> string -> bool.
Variable hashPassword : string -> string.
Variable uploadOnCloudinary : string -> option UploadResult.
(** Mongoose's cast of a string to an object id; [isValidObjectId] is its
    domain. *)
Variable castObjectId : string -> option ObjectId.
(** [process.env.NODE_ENV === "production"]. *)
Variable production : bool.
(** The pagination plugin of the video model. *)
Variable Video_paginate : DB -> SearchQuery -> PageOptions -> PageResult.

Definition isValidObjectId (s : string) : bool :=
  match castObjectId s with
  | Some _ => true
  | None => false
  end.

Definition generateAccessAndRefreshTokens (userId : ObjectId)
  : Handler (string * string) :=
  catch
    (user <- User_findById userId ;;
     match user with
     | None =>
         raise (TypeError "Cannot read properties of null (reading 'generateAccessToken')")
     | Some user =>
         let accessToken := generateAccessToken user in
         let refreshToken := generateRefreshToken user in
         User_save (User.set_refreshToken (Some refreshToken) user) ;;
         ret (accessToken, refreshToken)
     end)
    (fun _ =>
       raise (ApiError 500 "Something went wrong while generating refresh and access token")).

(** [field?.trim() === ""]. *)
Definition blank_field (field : option string) : bool :=
  match field with
  | Some s => (Js.trim s =? "")%string
  | None => false
  end.

(** [req.files?.avatar[0]?.path]. *)
Definition avatar_path (fs : option Files) : Handler (option string) :=
  match fs with
  | None => ret None
  | Some fs =>
      match f_avatar fs with
      | None => raise (TypeError "Cannot read properties of undefined (reading '0')")
      | Some [] => ret None
      | Some (f :: _) => ret (Some (path f))
      end
  end.

Definition coverImage_path (fs : option Files) : option string :=
  match fs with
  | Some fs =>
      match f_coverImage fs with
      | Some (f :: _) => Some (path f)
      | _ => None
      end
  | None => None
  end.

Definition register (req : RegisterRequest) : Handler Response :=
  let username := body_username req in
  let email := body_email req in
  let password := body_password req in
  let fullName := body_fullName req in
  if existsb blank_field [username; email; password; fullName]
  then raise (ApiError 400 "All fields are required")
  else
    duplicateUser <- User_findOne_username_or_email username email ;;
    match duplicateUser with
    | Some _ => raise (ApiError 400 "Username or email already exists")
    | None =>
        avatarLocalPath <- avatar_path (files req) ;;
        let coverImageLocalPath := coverImage_path (files req) in
        if negb (Js.truthy avatarLocalPath)
        then raise (ApiError 400 "Please provide an avatar")
        else
          let avatar := uploadOnCloudinary (default_to "" avatarLocalPath) in
          let coverImage :=
            if Js.truthy coverImageLocalPath
            then option_map url (uploadOnCloudinary (default_to "" coverImageLocalPath))
            else Some default_coverImage in
          match username with
          | None =>
              raise (TypeError "Cannot read properties of undefined (reading 'toLowerCase')")
          | Some username =>
              user <- User_create hashPassword
                        (mkUserInput (Js.toLowerCase username) fullName email password
                                     (option_map url avatar) coverImage) ;;
              createdUser <- User_findById (User._id user) ;;
              match createdUser with
              | None => raise (ApiError 500 "User not created")
              | Some createdUser =>
                  send 201 []
                       (mkApiResponse 201 "User created"
                                      (Some (PUser (select_public createdUser))))
              end
          end
    end.

Definition login (identifier password : option string) : Handler Response :=
  if negb (Js.truthy identifier) || negb (Js.truthy password)
  then raise (ApiError 400 "All fields are required")
  else
    duplicateUser <- User_findOne_username_or_email identifier identifier ;;
    match duplicateUser with
    | None => raise (ApiError 404 "User not found register first")
    | Some duplicateUser =>
        if negb (isPasswordMatched duplicateUser (default_to "" password))
        then raise (ApiError 400 "Invalid credentials")
        else
          '(accessToken, refreshToken) <-
            generateAccessAndRefreshTokens (User._id duplicateUser) ;;
          loggedInUser <- User_findById (User._id duplicateUser) ;;
          send 200
               [mkCookie "refreshToken" refreshToken production;
                mkCookie "accessToken" accessToken production]
               (mkApiResponse 200 "User Login Successfully"
                  (Some (PLogin (option_map select_public loggedInUser)
                                accessToken refreshToken)))
    end.

Definition refreshAccessToken (req : RefreshRequest) : Handler Response :=
  let incoming := js_or (cookies_refreshToken req) (body_refreshToken req) in
  if negb (Js.truthy incoming)
  then raise (ApiError 401 "unauthorized request")
  else
    let incomingRefreshToken := default_to "" incoming in
    catch
      (match jwt_verify incomingRefreshToken with
       | inl msg => raise (JsonWebTokenError msg)
       | inr decoded_id =>
           foundUser <- User_findById decoded_id ;;
           match foundUser with
           | None => raise (ApiError 401 "Invalid refresh token")
           | Some foundUser =>
               if strict_neq incomingRefreshToken (User.refreshToken foundUser)
               then raise (ApiError 401 "Invalid refresh token")
               else
                 '(accessToken, newRefreshToken) <-
                   generateAccessAndRefreshTokens (User._id foundUser) ;;
                 send 200
                      [mkCookie "accessToken" accessToken production;
                       mkCookie "refreshToken" newRefreshToken production]
                      (mkApiResponse 200 "Access token refreshed"
                         (Some (PTokens accessToken newRefreshToken)))
           end
       end)
      (fun error =>
         let statusCode := if instanceof_JsonWebTokenError error then 403 else 500 in
         raise (ApiError statusCode
                  (default_to "Invalid refresh token"
                     (js_or (Some (error_message error)) None)))).

(** The stages [$lookup], [$lookup], [$addFields] and [$project] of the
    channel-profile pipeline on one matched user. *)
Definition channel_profile (requester : option ObjectId) (db : DB) (u : User.t)
  : ChannelProfile :=
  let subscribers :=
    filter (fun s => Subscription.channel s =? User._id u) (subscriptions db) in
  let subscribedTo :=
    filter (fun s => Subscription.subscriber s =? User._id u) (subscriptions db) in
  mkChannelProfile
    (select_public u)
    subscribers
    subscribedTo
    (N.of_nat (length subscribers))
    (N.of_nat (length subscribedTo))
    (if bson_in (bson_of_requester requester) (map BSubscription subscribedTo)
     then true else false).

Definition getUserChannelProfile (requester : option ObjectId)
           (username : option string) : Handler Response :=
  if negb (Js.truthy (option_map Js.trim username))
  then raise (ApiError 400 "user name is missing")
  else
    db <- get ;;
    let channel :=
      map (channel_profile requester db)
          (filter (fun u => field_matches username (User.username u)) (users db)) in
    match channel with
    | [] => raise (ApiError 404 "channel does not exist")
    | c :: _ => send 200 [] (mkApiResponse 200 "success" (Some (PChannel c)))
    end.

(** The inner [$lookup] of the watch-history pipeline: the owner of a video
    as an array of projected users. *)
Definition history_entry (db : DB) (v : Video.t) : HistoryEntry :=
  mkHistoryEntry v
    (map (fun u => mkOwnerProfile (User._id u) (User.username u) (User.email u)
                                  (User.fullName u) (User.avatar u))
         (filter (has_user_id (Video.owner v)) (users db))).

(** The outer [$lookup]: the videos whose id occurs in [watchHistory]. *)
Definition resolve_history (db : DB) (u : User.t) : list HistoryEntry :=
  map (history_entry db)
      (filter (fun v => existsb (N.eqb (Video._id v)) (User.watchHistory u))
              (videos db)).

(** Without [req.user] the [$match] is on a newly generated object id, which
    no stored document carries. *)
Definition getWatchHistory (requester : option ObjectId) : Handler Response :=
  db <- get ;;
  let userWatchHistory :=
    match requester with
    | Some id => map (resolve_history db) (filter (has_user_id id) (users db))
    | None => []
    end in
  match userWatchHistory with
  | [] => send 404 [] (mkApiResponse 404 "Watch history not found" None)
  | watchHistory :: _ =>
      send 200 [] (mkApiResponse 200 "success" (Some (PHistory watchHistory)))
  end.

(** *** Video controller *)

Definition getAllTheVideos (q : VideosQuery) : Handler Response :=
  let pageNumber := match q_page q with Some s => parseInt s | None => Some 1%Z end in
  let limitNumber := match q_limit q with Some s => parseInt s | None => Some 10%Z end in
  let sortBy := default_to "createdAt" (q_sortBy q) in
  let sortType := default_to "desc" (q_sortType q) in
  let query := default_to "" (q_query q) in
  let userId := q_userId q in
  if negb (Js.includes ["asc"; "desc"] (Js.toLowerCase sortType))
  then raise (ApiError 400 "Invalid sort type")
  else
    let sort := (sortBy, if (Js.toLowerCase sortType =? "asc")%string then 1%Z else (-1)%Z) in
    owner <-
      (if Js.truthy userId
       then
         resolve_identifier video_controller_imports "mongoose" ;;
         ret (castObjectId (default_to "" userId))
       else ret None) ;;
    db <- get ;;
    let result :=
      Video_paginate db (mkSearchQuery query owner)
                     (mkPageOptions pageNumber limitNumber sort) in
    send 200 []
         (mkApiResponse 200 "Videos fetched successfully"
            (Some (PVideoPage (docs result) (totalDocs result)
                              (totalPages result) (page result)))).

(** [user.watchHistory.includes(videoId)] is called with the request string.
    The array compares it with the string form of each stored id, which is
    24 hexadecimal digits in lower case: the test succeeds when [videoId] is
    spelled that way and the id [vid] it casts to is stored.  Any other
    spelling of a stored id (upper-case digits, say) is not found. *)
Definition history_includes (u : User.t) (videoId : string) (vid : ObjectId) : bool :=
  canonical_id videoId && existsb (N.eqb vid) (User.watchHistory u).

Definition getSingleVideo (requester : option ObjectId) (videoId : string)
  : Handler Response :=
  match castObjectId videoId with
  | None => raise (ApiError 400 "Invalid video id")
  | Some vid =>
      catch
        (found <- Video_findByIdAndUpdate_inc_views vid ;;
         match found with
         | None => raise (ApiError 404 "Video not found")
         | Some v =>
             video <- populate_owner v ;;
             match requester with
             | Some userId =>
                 user <- User_findById userId ;;
                 match user with
                 | Some user =>
                     if negb (history_includes user videoId vid)
                     then User_save (User.set_watchHistory
                                       (User.watchHistory user ++ [vid]) user)
                     else ret tt
                 | None => ret tt
                 end
             | None => ret tt
             end ;;
             send 200 [] (mkApiResponse 200 "Video fetched successfully"
                                        (Some (PVideo video)))
         end)
        (fun _ => raise (ApiError 500 "Failed to fetch video"))
  end.

(** *** Subscription controller *)

Definition toggleSubscription (requester : option ObjectId) (channelId : string)
  : Handler Response :=
  match castObjectId channelId with
  | None => raise (ApiError 400 "Invalid channel id")
  | Some channel =>
      match requester with
      | None => raise (TypeError "Cannot read properties of undefined (reading '_id')")
      | Some subscriber =>
          subscription <- Subscription_findOne subscriber channel ;;
          match subscription with
          | Some subscription =>
              Subscription_findByIdAndDelete (Subscription._id subscription) ;;
              send 200 [] (mkApiResponse 200 "Unsubscribed successfully"
                                         (Some (PBool false)))
          | None =>
              newSubscription <- Subscription_create subscriber channel ;;
              send 200 [] (mkApiResponse 200 "Subscribed successfully"
                                         (Some (PSubscription newSubscription)))
          end
      end
  end.

End Backend.

(** ** Sequences of requests *)

(** [n] fetches of the same video by the same requester, one after the
    other; the sequence throws as soon as one fetch does. *)
Fixpoint getSingleVideo_times (castObjectId : string -> option ObjectId)
         (requester : option ObjectId) (videoId : string) (n : nat)
  : Handler unit :=
  match n with
  | O => ret tt
  | S k =>
      getSingleVideo castObjectId requester videoId ;;
      getSingleVideo_times castObjectId requester videoId k
  end.

(** The video after [{ $inc: { views: 1 } }]. *)
Definition bump_views (v : Video.t) : Video.t :=
  Video.set_views (Video.views v + 1) v.

(** The populated owner of a fetched video. *)
Definition owner_card (u : User.t) : OwnerCard :=
  mkOwnerCard (User._id u) (User.username u) (User.avatar u).

(** The users collection after a fetch by [requester] of the video [vid]
    requested under the spelling [videoId]. *)
Definition users_after_view (requester : option ObjectId) (videoId : string)
           (vid : ObjectId) (l : list User.t) : list User.t :=
  match requester with
  | Some uid =>
      match find (has_user_id uid) l with
      | Some u =>
          if history_includes u videoId vid then l
          else update_first (has_user_id (User._id u))
                            (fun _ => User.set_watchHistory (User.watchHistory u ++ [vid]) u)
                            l
      | None => l
      end
  | None => l
  end.

(** The number of times [vid] occurs in a watch history. *)
Definition occurrences (vid : ObjectId) (h : list ObjectId) : nat :=
  count_occ N.eq_dec h vid.

(** The errors of the taxonomy that register can raise on purpose. *)
Definition ValidationError_all_fields : JsError :=
  ApiError 400 "All fields are required".
Definition ConflictError_user_exists : JsError :=
  ApiError 400 "Username or email already exists".

(** No field of the registration body is present and blank. *)
Definition no_blank_field (req : RegisterRequest) : bool :=
  negb (existsb blank_field
          [body_username req; body_email req; body_password req; body_fullName req]).

(** ** A sample deployment *)

Module Sample.

Definition jwt_verify (t : string) : string + ObjectId :=
  if (t =? "refresh.alice.1")%string then inr 1
  else if (t =? "refresh.alice.2")%string then inr 1
  else inl "invalid signature".

Definition generateAccessToken (u : User.t) : string := "access." ++ User.username u.
Definition generateRefreshToken (u : User.t) : string := "refresh." ++ User.username u ++ ".3".
Definition hashPassword (pw : string) : string := "bcrypt:" ++ pw.
Definition uploadOnCloudinary (p : string) : option UploadResult :=
  Some (mkUploadResult ("https://media.example/" ++ p) 0).

Definition hex_digit (c : ascii) : option N :=
  let n := N_of_ascii c in
  if (48 <=? n) && (n <=? 57) then Some (n - 48)
  else if (97 <=? n) && (n <=? 102) then Some (n - 87)
  else if (65 <=? n) && (n <=? 70) then Some (n - 55)
  else None.

Fixpoint hex_value (acc : N) (s : string) : option N :=
  match s with
  | EmptyString => Some acc
  | String c r =>
      match hex_digit c with
      | Some d => hex_value (16 * acc + d) r
      | None => None
      end
  end.

(** The cast of a string of 24 hexadecimal digits. *)
Definition castObjectId (s : string) : option ObjectId :=
  if (String.length s =? 24)%nat then hex_value 0 s else None.

Definition Video_paginate (db : DB) (q : SearchQuery) (o : PageOptions) : PageResult :=
  mkPageResult [] 0 1 1.

Definition alice : User.t :=
  User.mk 1 "alice" "alice@example.org" "bcrypt:pw-a" "Alice A" "https://media.example/a.png"
          None (Some "refresh.alice.2") [].

Definition bob : User.t :=
  User.mk 2 "bob" "bob@example.org" "bcrypt:pw-b" "Bob B" "https://media.example/b.png"
          None None [].

(** An unpublished video of bob. *)
Definition draft : Video.t :=
  Video.mk 16 "Draft" "not yet public" 12 "https://media.example/t.png"
           "https://media.example/v.mp4" 2 0 false.

Definition draft_id : string := "000000000000000000000010".
Definition bob_id : string := "000000000000000000000002".

Definition empty_db : DB := mkDB [] [] [] 1.

(** alice follows bob. *)
Definition db : DB :=
  mkDB [alice; bob] [draft] [Subscription.mk 32 1 2] 33.

Definition avatar_upload : option Files :=
  Some (mkFiles (Some [mkFile "public/temp/a.png"]) None).

Definition signup (uname mail pw fname : option string) : RegisterRequest :=
  mkRegisterRequest uname mail pw fname avatar_upload.

End Sample.

(** Unfolding of the handler combinators. *)
Ltac run :=
  cbv beta iota zeta delta
      [bind ret raise catch get put Monad_Handler MonadExc_Handler
       MonadState_Handler hbind hret throw try_catch send negb default_to
       set_users set_videos set_subscriptions];
  cbn [users videos subscriptions next_id fst snd].

Ltac run_in H :=
  cbv beta iota zeta delta
      [bind ret raise catch get put Monad_Handler MonadExc_Handler
       MonadState_Handler hbind hret throw try_catch send negb default_to
       set_users set_videos set_subscriptions] in H;
  cbn [users videos subscriptions next_id fst snd] in H.

(** * The remaining handlers *)

(** ** [split], [pop] and the public id of a media URL *)

(** [s.split(c)] for a separator of one code unit: never the empty array. *)
Fixpoint split_on (c : ascii) (s : string) : list string :=
  match s with
  | EmptyString => [EmptyString]
  | String a r =>
      if Ascii.eqb a c then EmptyString :: split_on c r
      else
        match split_on c r with
        | h :: t => String a h :: t
        | [] => [String a EmptyString]
        end
  end.

(** [url.split("/").pop().split(".")[0]]. *)
Definition public_id (url : string) : string :=
  hd "" (split_on "." (last (split_on "/" url) "")).

(** [c] occurs in [s]. *)
Fixpoint occurs (c : ascii) (s : string) : bool :=
  match s with
  | EmptyString => false
  | String a r => Ascii.eqb a c || occurs c r
  end.

(** ** Replies *)

(** The envelope with the payload type of the handler that builds it.
    Modelled from the spec: see [ApiResponse]. *)
Record Envelope (D : Type) := mkEnvelope
  { e_statusCode : N;
    e_message : string;
    e_data : option D }.

(** The HTTP status, the cookies cleared (name and [secure] option) and the
    JSON body. *)
Record Reply (D : Type) := mkReply
  { r_status : N;
    r_cleared : list (string * bool);
    r_json : Envelope D }.

(** [res.status(st).json(new ApiResponse(st, msg, d))]. *)
Definition reply {D : Type} (st : N) (msg : string) (d : option D) : Reply D :=
  mkReply st [] (mkEnvelope st msg d).

(** The payload type of the handlers that pass no data. *)
Definition NoData : Type := Empty_set.

(** A user document after [.select("-password")]. *)
Record UserWithToken := mkUserWithToken
  { uwt_user : UserView;
    uwt_refreshToken : option string }.

Definition select_without_password (u : User.t) : UserWithToken :=
  mkUserWithToken (select_public u) (User.refreshToken u).

(** The projection [{ username: 1, email: 1, fullName: 1 }] of the
    subscription pipelines. *)
Record AccountCard := mkAccountCard
  { ac_id : ObjectId;
    ac_username : string;
    ac_email : string;
    ac_fullName : string }.

Definition account_card (u : User.t) : AccountCard :=
  mkAccountCard (User._id u) (User.username u) (User.email u) (User.fullName u).

(** [{ count, subscribers }] and [{ count, channels }]. *)
Record Counted := mkCounted
  { count : N;
    accounts : list AccountCard }.

(** ** Document updates *)

Definition User_with_password (pw : string) (u : User.t) : User.t :=
  User.mk (User._id u) (User.username u) (User.email u) pw (User.fullName u)
          (User.avatar u) (User.coverImage u) (User.refreshToken u)
          (User.watchHistory u).

Definition User_with_avatar (a : string) (u : User.t) : User.t :=
  User.mk (User._id u) (User.username u) (User.email u) (User.password u)
          (User.fullName u) a (User.coverImage u) (User.refreshToken u)
          (User.watchHistory u).

Definition User_with_coverImage (c : option string) (u : User.t) : User.t :=
  User.mk (User._id u) (User.username u) (User.email u) (User.password u)
          (User.fullName u) (User.avatar u) c (User.refreshToken u)
          (User.watchHistory u).

(** The [updateFields] object of updateUserAccountDetails: a field is set
    when it is present. *)
Record AccountFields := mkAccountFields
  { af_email : option string;
    af_username : option string;
    af_fullName : option string }.

(** [{ $set: updateFields }] on one document. *)
Definition apply_fields (f : AccountFields) (u : User.t) : User.t :=
  User.mk (User._id u)
          (default_to (User.username u) (af_username f))
          (default_to (User.email u) (af_email f))
          (User.password u)
          (default_to (User.fullName u) (af_fullName f))
          (User.avatar u) (User.coverImage u) (User.refreshToken u)
          (User.watchHistory u).

Definition Video_with_text (t d : string) (v : Video.t) : Video.t :=
  Video.mk (Video._id v) t d (Video.duration v) (Video.thumbnail v)
           (Video.videoFile v) (Video.owner v) (Video.views v) (Video.isPublished v).

Definition Video_with_thumbnail (th : string) (v : Video.t) : Video.t :=
  Video.mk (Video._id v) (Video.title v) (Video.description v) (Video.duration v) th
           (Video.videoFile v) (Video.owner v) (Video.views v) (Video.isPublished v).

Definition Video_with_isPublished (b : bool) (v : Video.t) : Video.t :=
  Video.mk (Video._id v) (Video.title v) (Video.description v) (Video.duration v)
           (Video.thumbnail v) (Video.videoFile v) (Video.owner v) (Video.views v) b.

(** [User.findByIdAndUpdate(id, { $unset: { refreshToken: 1 } })]. *)
Definition User_findByIdAndUpdate_unset_refreshToken (id : ObjectId) : Handler unit :=
  db <- get ;;
  put (set_users (update_first (has_user_id id) (User.set_refreshToken None) (users db)) db).

(** [User.findByIdAndUpdate(id, { $set: f }, { new: true })]. *)
Definition User_findByIdAndUpdate_set (id : ObjectId) (f : User.t -> User.t)
  : Handler (option User.t) :=
  db <- get ;;
  match find (has_user_id id) (users db) with
  | None => ret None
  | Some u =>
      put (set_users (update_first (has_user_id id) f (users db)) db) ;;
      ret (Some (f u))
  end.

(** [User.findOne({ email })]. *)
Definition User_findOne_email (mail : option string) : Handler (option User.t) :=
  db <- get ;;
  ret (find (fun u => field_matches mail (User.email u)) (users db)).

(** [User.findOne({ username })]. *)
Definition User_findOne_username (uname : option string) : Handler (option User.t) :=
  db <- get ;;
  ret (find (fun u => field_matches uname (User.username u)) (users db)).

(** [Video.findById(id)]. *)
Definition Video_findById (id : ObjectId) : Handler (option Video.t) :=
  db <- get ;; ret (find (has_video_id id) (videos db)).

(** [video.save()] on a document that was loaded from the collection. *)
Definition Video_save (v : Video.t) : Handler unit :=
  db <- get ;;
  put (set_videos (update_first (has_video_id (Video._id v)) (fun _ => v) (videos db)) db).

(** [Video.findByIdAndDelete(id)]. *)
Definition Video_findByIdAndDelete (id : ObjectId) : Handler unit :=
  db <- get ;;
  put (set_videos (remove_first (has_video_id id) (videos db)) db).

(** What publishAVideo hands to [Video.create]. *)
Record VideoInput := mkVideoInput
  { vi_title : string;
    vi_description : string;
    vi_duration : N;
    vi_thumbnail : string;
    vi_videoFile : string;
    vi_owner : option ObjectId;
    vi_isPublished : option bool }.

(** [Video.create(doc)].  Modelled from the spec: the schema of
    video.model.js is not among the sources.  Section 3 gives the fields,
    a view counter that starts at 0 (section 8) and an owner that every
    video has; a document without an owner, or whose [isPublished] does not
    cast to a boolean, is rejected. *)
Definition Video_create (doc : VideoInput) : Handler Video.t :=
  db <- get ;;
  match vi_owner doc, vi_isPublished doc with
  | Some owner, Some published =>
      let v := Video.mk (next_id db) (vi_title doc) (vi_description doc)
                        (vi_duration doc) (vi_thumbnail doc) (vi_videoFile doc)
                        owner 0 published in
      put (mkDB (users db) (videos db ++ [v]) (subscriptions db) (next_id db + 1)) ;;
      ret v
  | _, _ => raise (MongooseError "Video validation failed")
  end.

(** ** The media host *)

(** The collections together with the deletions requested from the media
    host, oldest first. *)
Record World := mkWorld
  { w_db : DB;
    w_deleted : list (option string) }.

Definition MediaHandler (A : Type) : Type := World -> Outcome A * World.

Definition mret {A} (a : A) : MediaHandler A := fun w => (Returned a, w).

Definition mbind {A B} (m : MediaHandler A) (k : A -> MediaHandler B)
  : MediaHandler B :=
  fun w =>
    match m w with
    | (Returned a, w') => k a w'
    | (Thrown e, w') => (Thrown e, w')
    end.

Definition mthrow {A} (e : JsError) : MediaHandler A := fun w => (Thrown e, w).

Definition mcatch {A} (m : MediaHandler A) (h : JsError -> MediaHandler A)
  : MediaHandler A :=
  fun w =>
    match m w with
    | (Returned a, w') => (Returned a, w')
    | (Thrown e, w') => h e w'
    end.

#[global] Instance Monad_MediaHandler : Monad MediaHandler :=
  { ret := @mret; bind := @mbind }.

#[global] Instance MonadExc_MediaHandler : MonadExc JsError MediaHandler :=
  { raise := @mthrow; catch := @mcatch }.

(** A database operation inside a handler that also talks to the media
    host. *)
Definition on_db {A} (h : Handler A) : MediaHandler A :=
  fun w =>
    match h (w_db w) with
    | (o, db') => (o, mkWorld db' (w_deleted w))
    end.

(** Modelled from the spec: deleteFromCloudinary of utils/ is not among the
    sources.  Sections 4.2 and 7 have it delete by reference on the media
    host without ever blocking the handler; the request is recorded with
    the argument it was given. *)
Definition deleteFromCloudinary (publicId : option string) : MediaHandler unit :=
  fun w => (Returned tt, mkWorld (w_db w) (w_deleted w ++ [publicId])).


(** ** Requests of the remaining handlers *)

Record VideoFiles := mkVideoFiles
  { vf_thumbnail : option (list File);
    vf_videoFile : option (list File) }.

(** [req.files?.thumbnail[0]] and [req.files?.videoFile[0]]: the first file
    of a field, [undefined] without [req.files] or on an empty array, a
    TypeError when [req.files] lacks the field. *)
Definition first_file (field : VideoFiles -> option (list File))
           (fs : option VideoFiles) : Handler (option File) :=
  match fs with
  | None => ret None
  | Some fs =>
      match field fs with
      | None => raise (TypeError "Cannot read properties of undefined (reading '0')")
      | Some [] => ret None
      | Some (f :: _) => ret (Some f)
      end
  end.

(** [req.files?.thumbnail?.[0]]. *)
Definition optional_thumbnail (fs : option VideoFiles) : option File :=
  match fs with
  | Some fs =>
      match vf_thumbnail fs with
      | Some (f :: _) => Some f
      | _ => None
      end
  | None => None
  end.

Definition no_user : JsError :=
  TypeError "Cannot read properties of undefined (reading '_id')".

Definition no_upload : JsError :=
  TypeError "Cannot read properties of null (reading 'url')".

Section Accounts.

Variable isPasswordMatched : User.t -> string -> bool.
Variable hashPassword : string -> string.
Variable uploadOnCloudinary : string -> option UploadResult.
Variable castObjectId : string -> option ObjectId.
Variable production : bool.
(** Mongoose's cast of a body field to a boolean. *)
Variable castBoolean : string -> option bool.

(** *** User controller *)

Definition logout (requester : option ObjectId) : Handler (Reply NoData) :=
  match requester with
  | None => raise no_user
  | Some id =>
      User_findByIdAndUpdate_unset_refreshToken id ;;
      ret (mkReply 200
                   [("refreshToken", production); ("accessToken", production)]
                   (mkEnvelope 200 "Logged out successfully" None))
  end.

(** [User.findById(req.user?._id)]: without [req.user] the lookup is on
    [_id: null] and finds nothing. *)
Definition User_findById_optional (requester : option ObjectId)
  : Handler (option User.t) :=
  match requester with
  | Some id => User_findById id
  | None => ret None
  end.

(** Modelled from the spec: the pre-save hook of user.model.js, which is not
    among the sources, stores a changed password hashed (section 4.1). *)
Definition changeCurrentPassword (requester : option ObjectId)
           (oldPassword newPassword : option string) : Handler (Reply NoData) :=
  if negb (Js.truthy oldPassword) || negb (Js.truthy newPassword)
  then raise (ApiError 400 "All fields are required")
  else
    user <- User_findById_optional requester ;;
    match user with
    | None => raise (ApiError 404 "User not found")
    | Some user =>
        if negb (isPasswordMatched user (default_to "" oldPassword))
        then raise (ApiError 400 "Old password is incorrect")
        else if (default_to "" oldPassword =? default_to "" newPassword)%string
        then raise (ApiError 400 "New password cannot be the same as the current password")
        else
          User_save (User_with_password (hashPassword (default_to "" newPassword)) user) ;;
          ret (reply 200 "Password changed successfully" None)
    end.

Definition getCurrentUser (requester : option ObjectId) : Handler (Reply UserView) :=
  match requester with
  | None => raise no_user
  | Some id =>
      user <- User_findById id ;;
      match user with
      | None => raise (ApiError 404 "User not found")
      | Some user =>
          ret (reply 200 "User fetched successfully" (Some (select_public user)))
      end
  end.

(** One of the two uniqueness checks of updateUserAccountDetails: the field
    to set, if any. *)
Definition checked_field (value : option string) (current : string)
           (findOne : option string -> Handler (option User.t))
           (user : User.t) (taken : string) : Handler (option string) :=
  if Js.truthy value && strict_neq current value
  then
    existing <- findOne value ;;
    match existing with
    | Some existing =>
        if negb (User._id existing =? User._id user)
        then raise (ApiError 400 taken)
        else ret value
    | None => ret value
    end
  else ret None.

Definition updateUserAccountDetails (requester : option ObjectId)
           (email fullName username : option string) : Handler (Reply UserView) :=
  if negb (Js.truthy fullName) && negb (Js.truthy email) && negb (Js.truthy username)
  then raise (ApiError 400 "At least one field is required")
  else
    match requester with
    | None => raise no_user
    | Some id =>
        user <- User_findById id ;;
        match user with
        | None => raise (ApiError 404 "User not found")
        | Some user =>
            newEmail <- checked_field email (User.email user) User_findOne_email
                                      user "Email already in use" ;;
            newUsername <- checked_field username (User.username user)
                                         User_findOne_username
                                         user "Username already in use" ;;
            let updateFields :=
              mkAccountFields newEmail newUsername
                              (if Js.truthy fullName then fullName else None) in
            updatedUser <- User_findByIdAndUpdate_set id (apply_fields updateFields) ;;
            ret (reply 200 "User account details updated"
                       (option_map select_public updatedUser))
        end
    end.

(** [req.user] is the document that the authentication middleware loaded. *)
Definition updateUserAvatar (req_user : User.t) (file : option File)
  : MediaHandler (Reply UserWithToken) :=
  let avatarLocalPath := option_map path file in
  if negb (Js.truthy avatarLocalPath)
  then raise (ApiError 400 "Please provide an avatar")
  else
    deleteFromCloudinary (Some (public_id (User.avatar req_user))) ;;
    match uploadOnCloudinary (default_to "" avatarLocalPath) with
    | None => raise no_upload
    | Some avatar =>
        if (url avatar =? "")%string
        then raise (ApiError 400 "Error while uploading on avatar")
        else
          userUpdatedAvatar <-
            on_db (User_findByIdAndUpdate_set (User._id req_user)
                                              (User_with_avatar (url avatar))) ;;
          ret (reply 200 "Avatar updated successfully"
                     (option_map select_without_password userUpdatedAvatar))
    end.

Definition updateUserCoverImage (requester : option ObjectId) (file : option File)
  : MediaHandler (Reply User.t) :=
  let coverImageLocalPath := option_map path file in
  if negb (Js.truthy coverImageLocalPath)
  then raise (ApiError 400 "Please provide cover image")
  else
    user <- on_db (User_findById_optional requester) ;;
    match user with
    | None => raise (ApiError 400 "User not found")
    | Some user =>
        (if Js.truthy (User.coverImage user)
         then deleteFromCloudinary (option_map public_id (User.coverImage user))
         else ret tt) ;;
        match uploadOnCloudinary (default_to "" coverImageLocalPath) with
        | None => raise no_upload
        | Some coverImage =>
            if (url coverImage =? "")%string
            then raise (ApiError 400 "Error while uploading on cover image")
            else
              let user := User_with_coverImage (Some (url coverImage)) user in
              on_db (User_save user) ;;
              ret (reply 200 "user cover image updated successfully" (Some user))
        end
    end.

(** *** Video controller *)

Definition publishAVideo (requester : option ObjectId)
           (title description isPublished : option string)
           (files : option VideoFiles) : Handler (Reply Video.t) :=
  if negb (Js.truthy title) || negb (Js.truthy description)
  then raise (ApiError 400 "All fields are required")
  else
    thumbnailFile <- first_file vf_thumbnail files ;;
    videoFile <- first_file vf_videoFile files ;;
    match thumbnailFile, videoFile with
    | Some thumbnailFile, Some videoFile =>
        let thumbnail := uploadOnCloudinary (path thumbnailFile) in
        let videoFileUpload := uploadOnCloudinary (path videoFile) in
        match thumbnail with
        | None => raise no_upload
        | Some thumbnail =>
            if (url thumbnail =? "")%string
            then raise (ApiError 400 "Error while uploading on cloudinary")
            else
              match videoFileUpload with
              | None => raise no_upload
              | Some videoFileUpload =>
                  if (url videoFileUpload =? "")%string
                  then raise (ApiError 400 "Error while uploading on cloudinary")
                  else
                    video <- Video_create
                               (mkVideoInput
                                  (default_to "" title) (default_to "" description)
                                  (upload_duration videoFileUpload)
                                  (url thumbnail) (url videoFileUpload)
                                  requester
                                  (match isPublished with
                                   | Some s => castBoolean s
                                   | None => Some true
                                   end)) ;;
                    ret (reply 200 "Video published successfully" (Some video))
              end
        end
    | _, _ => raise (ApiError 400 "Please provide thumbnail and video")
    end.

Definition not_owner : JsError :=
  ApiError 403 "You are not authorized to update this video".

(** [video.owner.toString() !== req.user._id.toString()], after the video
    was found. *)
Definition check_owner (requester : option ObjectId) (video : Video.t) : Handler unit :=
  match requester with
  | None => raise no_user
  | Some id => if negb (Video.owner video =? id) then raise not_owner else ret tt
  end.

Definition updateVideo (requester : option ObjectId) (videoId : string)
           (title description : option string) (files : option VideoFiles)
  : MediaHandler (Reply Video.t) :=
  if negb (Js.truthy title) || negb (Js.truthy description)
  then raise (ApiError 400 "All fields are required")
  else
    match castObjectId videoId with
    | None => raise (ApiError 400 "Invalid video ID")
    | Some vid =>
        video <- on_db (Video_findById vid) ;;
        match video with
        | None => raise (ApiError 404 "Video not found")
        | Some video =>
            on_db (check_owner requester video) ;;
            video <-
              match optional_thumbnail files with
              | Some thumbnailLocalFilePath =>
                  deleteFromCloudinary (Some (public_id (Video.thumbnail video))) ;;
                  match uploadOnCloudinary (path thumbnailLocalFilePath) with
                  | None => raise no_upload
                  | Some thumbnail =>
                      if (url thumbnail =? "")%string
                      then raise (ApiError 400 "Error while uploading on cloudinary")
                      else ret (Video_with_thumbnail (url thumbnail) video)
                  end
              | None => ret video
              end ;;
            let video := Video_with_text (default_to "" title)
                                         (default_to "" description) video in
            on_db (Video_save video) ;;
            ret (reply 200 "Video updated successfully" (Some video))
        end
    end.

Definition deleteVideo (requester : option ObjectId) (videoId : string)
  : MediaHandler (Reply NoData) :=
  match castObjectId videoId with
  | None => raise (ApiError 400 "Invalid video id")
  | Some vid =>
      video <- on_db (Video_findById vid) ;;
      match video with
      | None => raise (ApiError 404 "Video not found")
      | Some video =>
          on_db (check_owner requester video) ;;
          let publicId := public_id (Video.thumbnail video) in
          let videoFilePublicId := public_id (Video.videoFile video) in
          deleteFromCloudinary (Some publicId) ;;
          deleteFromCloudinary (Some videoFilePublicId) ;;
          on_db (Video_findByIdAndDelete vid) ;;
          ret (reply 200 "Video deleted successfully" None)
      end
  end.

Definition togglePublishStatus (requester : option ObjectId) (videoId : string)
  : Handler (Reply Video.t) :=
  match castObjectId videoId with
  | None => raise (ApiError 400 "Invalid video id")
  | Some vid =>
      video <- Video_findById vid ;;
      match video with
      | None => raise (ApiError 404 "Video not found")
      | Some video =>
          check_owner requester video ;;
          let video := Video_with_isPublished (negb (Video.isPublished video)) video in
          Video_save video ;;
          ret (reply 200 "Video status updated successfully" (Some video))
      end
  end.

Definition unisPublishedVideos (requester : option ObjectId)
  : Handler (Reply (list Video.t)) :=
  match requester with
  | None => raise no_user
  | Some userId =>
      db <- get ;;
      let videos :=
        filter (fun v => (Video.owner v =? userId) && negb (Video.isPublished v))
               (videos db) in
      ret (reply 200 "Unpublished videos retrieved successfully" (Some videos))
  end.

(** *** Subscription controller *)

(** The [$match], [$group], [$lookup] and [$project] stages of the two
    listing pipelines: the edges that [matches] selects are counted, the
    accounts at their [other] end are looked up in the users collection. *)
Definition counted_accounts (matches : Subscription.t -> bool)
           (other : Subscription.t -> ObjectId) (db : DB) : list Counted :=
  match filter matches (subscriptions db) with
  | [] => []
  | edges =>
      let ids := map other edges in
      [mkCounted (N.of_nat (length edges))
                 (map account_card
                      (filter (fun u => existsb (N.eqb (User._id u)) ids) (users db)))]
  end.

Definition first_or_empty (aggregate : list Counted) : Counted :=
  match aggregate with
  | c :: _ => c
  | [] => mkCounted 0 []
  end.

Definition getUserChannelSubscribers (channelId : string) : Handler (Reply Counted) :=
  match castObjectId channelId with
  | None => raise (ApiError 400 "Invalid channel id")
  | Some channel =>
      db <- get ;;
      let subscribersAggregate :=
        counted_accounts (fun s => Subscription.channel s =? channel)
                         Subscription.subscriber db in
      ret (reply 200 "Subscribers fetched" (Some (first_or_empty subscribersAggregate)))
  end.

Definition getSubscribedChannels (subscriberId : string) : Handler (Reply Counted) :=
  match castObjectId subscriberId with
  | None => raise (ApiError 400 "Invalid subscriber id")
  | Some subscriber =>
      db <- get ;;
      let subscribedChannelsAggregate :=
        counted_accounts (fun s => Subscription.subscriber s =? subscriber)
                         Subscription.channel db in
      ret (reply 200 "Subscribed channels fetched"
                 (Some (first_or_empty subscribedChannelsAggregate)))
  end.

End Accounts.


(** ** Invariants of the store *)

(** No two stored accounts share an id, an email or a username. *)
Definition distinct_accounts (l : list User.t) : Prop :=
  NoDup (map User._id l) /\ NoDup (map User.email l) /\ NoDup (map User.username l).

(** The edge test of [has_edge]. *)
Definition edge_between (sub chan : ObjectId) (s : Subscription.t) : bool :=
  (Subscription.subscriber s =? sub) && (Subscription.channel s =? chan).

(** ** More of the sample deployment *)

Module Fixture.

(** The comparison of a candidate password with the stored hash. *)
Definition isPasswordMatched (u : User.t) (pw : string) : bool :=
  (User.password u =? Sample.hashPassword pw)%string.

Definition castBoolean (s : string) : option bool :=
  if (s =? "true")%string then Some true
  else if (s =? "false")%string then Some false
  else None.

(** A published video of alice. *)
Definition clip : Video.t :=
  Video.mk 17 "Clip" "a short clip" 30 "https://media.example/clips/c.png"
           "https://media.example/clips/c.mp4" 1 5 true.

Definition clip_id : string := "000000000000000000000011".
Definition alice_id : string := "000000000000000000000001".

(** alice follows bob; bob has a draft, alice a published clip. *)
Definition db : DB :=
  mkDB [Sample.alice; Sample.bob] [Sample.draft; clip] [Subscription.mk 32 1 2] 33.

Definition world : World := mkWorld db [].

Definition upload : option VideoFiles :=
  Some (mkVideoFiles (Some [mkFile "public/temp/t.png"])
                     (Some [mkFile "public/temp/v.mp4"])).

(** A second published video of alice, whose id has a letter among its
    hexadecimal digits, and the two spellings of that id. *)
Definition reel : Video.t :=
  Video.mk 26 "Reel" "a reel" 45 "https://media.example/reels/r.png"
           "https://media.example/reels/r.mp4" 1 0 true.

Definition reel_id : string := "00000000000000000000001a".
Definition reel_id_upper : string := "00000000000000000000001A".

Definition db_reel : DB :=
  mkDB [Sample.alice; Sample.bob] [Sample.draft; clip; reel] [Subscription.mk 32 1 2] 33.

(** bob after watching alice's clip. *)
Definition bob_viewer : User.t := User.set_watchHistory [17] Sample.bob.

Definition world_watched : World :=
  mkWorld (mkDB [Sample.alice; bob_viewer] [Sample.draft; clip]
                [Subscription.mk 32 1 2] 33) [].

(** A media host that returns no URL. *)
Definition failingUpload (p : string) : option UploadResult :=
  Some (mkUploadResult "" 0).

End Fixture.

Ltac runm :=
  cbv beta iota zeta delta
      [bind ret raise catch get put Monad_Handler MonadExc_Handler
       MonadState_Handler Monad_MediaHandler MonadExc_MediaHandler
       hbind hret throw try_catch mbind mret mthrow mcatch on_db
       deleteFromCloudinary send reply negb default_to
       set_users set_videos set_subscriptions];
  cbn [users videos subscriptions next_id fst snd w_db w_deleted].

Ltac runm_in H :=
  cbv beta iota zeta delta
      [bind ret raise catch get put Monad_Handler MonadExc_Handler
       MonadState_Handler Monad_MediaHandler MonadExc_MediaHandler
       hbind hret throw try_catch mbind mret mthrow mcatch on_db
       deleteFromCloudinary send reply negb default_to
       set_users set_videos set_subscriptions] in H;
  cbn [users videos subscriptions next_id fst snd w_db w_deleted] in H.


(** * Properties *)

Unset Implicit Arguments.

(** ** Strings *)

Lemma trimStart_allWhiteSpace (s : string) :
  Js.allWhiteSpace s = true -> Js.trimStart s = "".
Proof.
  induction s as [|c r IH]; simpl; intros H.
  - reflexivity.
  - apply andb_true_iff in H. destruct H as [Hc Hr].
    rewrite Hc. now apply IH.
Qed.

Lemma trimEnd_nonempty (c : ascii) (r : string) :
  Js.isWhiteSpace c = false -> Js.trimEnd (String c r) <> "".
Proof.
  intros Hc. simpl. destruct (Js.trimEnd r); [rewrite Hc|]; discriminate.
Qed.

Lemma trimStart_head (s : string) :
  match Js.trimStart s with
  | EmptyString => Js.allWhiteSpace s = true
  | String c _ => Js.isWhiteSpace c = false /\ Js.allWhiteSpace s = false
  end.
Proof.
  induction s as [|c r IH]; simpl.
  - reflexivity.
  - destruct (Js.isWhiteSpace c) eqn:Hc; simpl.
    + exact IH.
    + rewrite Hc. auto.
Qed.

(** [s.trim() === ""] holds exactly for the strings made of white space. *)
Lemma trim_empty_iff (s : string) :
  Js.trim s = "" <-> Js.allWhiteSpace s = true.
Proof.
  unfold Js.trim. split.
  - intros H. pose proof (trimStart_head s) as Hs.
    destruct (Js.trimStart s) as [|c r] eqn:E; [exact Hs|].
    destruct Hs as [Hc _]. exfalso. exact (trimEnd_nonempty c r Hc H).
  - intros H. rewrite (trimStart_allWhiteSpace s H). reflexivity.
Qed.

(** ** Collections *)

Lemma find_update_first_hit (A : Type) (p : A -> bool) (f : A -> A) (l : list A) (x : A) :
  find p l = Some x -> p (f x) = true ->
  find p (update_first p f l) = Some (f x).
Proof.
  induction l as [|y r IH]; simpl; intros Hf Hp; [discriminate|].
  destruct (p y) eqn:Hy.
  - injection Hf as ->. simpl. now rewrite Hp.
  - simpl. rewrite Hy. now apply IH.
Qed.

Lemma update_first_miss (A : Type) (p : A -> bool) (f : A -> A) (l : list A) :
  find p l = None -> update_first p f l = l.
Proof.
  induction l as [|y r IH]; simpl; intros Hf; [reflexivity|].
  destruct (p y); [discriminate|]. now rewrite IH.
Qed.

Lemma find_update_first_other (A : Type) (p q : A -> bool) (f : A -> A) (l : list A) :
  (forall x, q (f x) = q x) ->
  (forall x, p x = true -> q x = false) ->
  find q (update_first p f l) = find q l.
Proof.
  intros Hq Hpq. induction l as [|y r IH]; simpl; [reflexivity|].
  destruct (p y) eqn:Hy; simpl.
  - rewrite Hq. rewrite (Hpq y Hy). reflexivity.
  - rewrite IH. reflexivity.
Qed.

Lemma find_update_first_apart (A : Type) (p q : A -> bool) (f : A -> A) (l : list A) :
  (forall x, p x = true -> q x = false /\ q (f x) = false) ->
  find q (update_first p f l) = find q l.
Proof.
  intros Hpq. induction l as [|y r IH]; simpl; [reflexivity|].
  destruct (p y) eqn:Hy; simpl.
  - destruct (Hpq y Hy) as [-> ->]. reflexivity.
  - rewrite IH. reflexivity.
Qed.

Lemma User_save_keeps_others (uid j : ObjectId) (u' : User.t) (l : list User.t) :
  User._id u' = uid -> j <> uid ->
  find (has_user_id j) (update_first (has_user_id uid) (fun _ => u') l)
  = find (has_user_id j) l.
Proof.
  intros Hid Hj. apply find_update_first_apart.
  intros x Hx. unfold has_user_id in *. apply N.eqb_eq in Hx.
  rewrite Hid, Hx. split; apply N.eqb_neq; congruence.
Qed.

Lemma filter_head_find (A : Type) (p : A -> bool) (l : list A) :
  hd_error (filter p l) = find p l.
Proof.
  induction l as [|y r IH]; simpl; [reflexivity|].
  destruct (p y); simpl; auto.
Qed.

Lemma find_user_id (id : ObjectId) (l : list User.t) (u : User.t) :
  find (has_user_id id) l = Some u -> User._id u = id.
Proof.
  intros H. apply find_some in H. destruct H as [_ H].
  unfold has_user_id in H. now apply N.eqb_eq in H.
Qed.

Lemma find_video_id (id : ObjectId) (l : list Video.t) (v : Video.t) :
  find (has_video_id id) l = Some v -> Video._id v = id.
Proof.
  intros H. apply find_some in H. destruct H as [_ H].
  unfold has_video_id in H. now apply N.eqb_eq in H.
Qed.

Lemma truthy_Some (s : string) : s <> "" -> Js.truthy (Some s) = true.
Proof.
  intros H. simpl. destruct (String.eqb_spec s ""); [contradiction|reflexivity].
Qed.

(** ** Refresh of the token pair *)

(** C1.  A refresh token that passes [jwt.verify] but differs from the one
    stored on the decoded account (or whose account is gone) makes
    refreshAccessToken fail and leaves the store as it was, so no new pair
    is issued; the error that leaves the handler carries status 500, the 401
    raised inside the [try] block being rewrapped by its own [catch]. *)
Theorem refreshAccessToken_stale_token
        (jwt_verify : string -> string + ObjectId)
        (generateAccessToken generateRefreshToken : User.t -> string)
        (production : bool)
        (req : RefreshRequest) (tok : string) (uid : ObjectId) (db : DB) :
  js_or (cookies_refreshToken req) (body_refreshToken req) = Some tok ->
  tok <> "" ->
  jwt_verify tok = inr uid ->
  (forall u, find (has_user_id uid) (users db) = Some u ->
             User.refreshToken u <> Some tok) ->
  refreshAccessToken jwt_verify generateAccessToken generateRefreshToken
                     production req db
  = (Thrown (ApiError 500 "Invalid refresh token"), db).
Proof.
  intros Hin Hne Hv Hstale. unfold refreshAccessToken.
  rewrite Hin, (truthy_Some tok Hne). run.
  rewrite Hv. unfold User_findById. run.
  destruct (find (has_user_id uid) (users db)) as [u|] eqn:Hu; run.
  - assert (Hs : strict_neq tok (User.refreshToken u) = true).
    { specialize (Hstale u eq_refl). unfold strict_neq.
      destruct (User.refreshToken u) as [s|]; [|reflexivity].
      destruct (String.eqb_spec tok s); [subst; contradiction|reflexivity]. }
    rewrite Hs. run. reflexivity.
  - reflexivity.
Qed.

Lemma refreshAccessToken_stale_token_witness :
  refreshAccessToken Sample.jwt_verify Sample.generateAccessToken
                     Sample.generateRefreshToken true
                     (mkRefreshRequest (Some "refresh.alice.1") None) Sample.db
  = (Thrown (ApiError 500 "Invalid refresh token"), Sample.db).
Proof.
  apply (refreshAccessToken_stale_token Sample.jwt_verify Sample.generateAccessToken
           Sample.generateRefreshToken true
           (mkRefreshRequest (Some "refresh.alice.1") None)
           "refresh.alice.1" 1 Sample.db).
  - reflexivity.
  - discriminate.
  - reflexivity.
  - intros u Hu. vm_compute in Hu. injection Hu as <-. discriminate.
Defined.

(** The same handler on the token that is stored: the pair is rotated and
    the new refresh token replaces the stored one. *)
Example refreshAccessToken_current_token :
  refreshAccessToken Sample.jwt_verify Sample.generateAccessToken
                     Sample.generateRefreshToken true
                     (mkRefreshRequest (Some "refresh.alice.2") None) Sample.db
  = (Returned
       (mkResponse 200
          [mkCookie "accessToken" "access.alice" true;
           mkCookie "refreshToken" "refresh.alice.3" true]
          (mkApiResponse 200 "Access token refreshed"
             (Some (PTokens "access.alice" "refresh.alice.3")))),
     set_users [User.set_refreshToken (Some "refresh.alice.3") Sample.alice; Sample.bob]
               Sample.db).
Proof. reflexivity. Qed.

(** Presenting the same token once more, after that rotation, is the stale
    case: the second refresh is refused and the store keeps the pair of the
    first. *)
Example refreshAccessToken_reuse_after_rotation :
  let refresh :=
    refreshAccessToken Sample.jwt_verify Sample.generateAccessToken
                       Sample.generateRefreshToken true
                       (mkRefreshRequest (Some "refresh.alice.2") None) in
  let db1 := snd (refresh Sample.db) in
  refresh db1 = (Thrown (ApiError 500 "Invalid refresh token"), db1).
Proof. reflexivity. Qed.

(** A token that [jwt.verify] refuses is answered with 403 and the message
    of the library's error. *)
Example refreshAccessToken_bad_signature :
  refreshAccessToken Sample.jwt_verify Sample.generateAccessToken
                     Sample.generateRefreshToken true
                     (mkRefreshRequest None (Some "forged")) Sample.db
  = (Thrown (ApiError 403 "invalid signature"), Sample.db).
Proof. reflexivity. Qed.

(** ** Fetching a video *)

(** C5.  For a well-formed id that no stored video carries, getSingleVideo
    fails and writes nothing; the ApiError 404 it raises inside the [try]
    block is caught there, and the error that leaves the handler is
    ApiError 500 "Failed to fetch video". *)
Theorem getSingleVideo_missing_video
        (castObjectId : string -> option ObjectId)
        (requester : option ObjectId) (videoId : string) (vid : ObjectId) (db : DB) :
  castObjectId videoId = Some vid ->
  find (has_video_id vid) (videos db) = None ->
  getSingleVideo castObjectId requester videoId db
  = (Thrown (ApiError 500 "Failed to fetch video"), db).
Proof.
  intros Hcast Hfind. unfold getSingleVideo. rewrite Hcast.
  unfold Video_findByIdAndUpdate_inc_views. run. rewrite Hfind.
  destruct db; reflexivity.
Qed.

Lemma getSingleVideo_missing_video_witness :
  getSingleVideo Sample.castObjectId (Some 1) Sample.bob_id Sample.db
  = (Thrown (ApiError 500 "Failed to fetch video"), Sample.db).
Proof.
  apply (getSingleVideo_missing_video Sample.castObjectId (Some 1) Sample.bob_id 2 Sample.db).
  - reflexivity.
  - reflexivity.
Defined.

(** ** Listing videos *)

(** C6.  A list request that carries a non-empty [userId] (a well-formed
    object id in particular) and an accepted sort type does not succeed: the
    owner filter is built through the identifier [mongoose], which the video
    controller never imports, so the handler throws a ReferenceError before
    the collection is queried. *)
Theorem getAllTheVideos_userId_throws
        (castObjectId : string -> option ObjectId)
        (Video_paginate : DB -> SearchQuery -> PageOptions -> PageResult)
        (q : VideosQuery) (db : DB) :
  Js.truthy (q_userId q) = true ->
  Js.includes ["asc"; "desc"] (Js.toLowerCase (default_to "desc" (q_sortType q))) = true ->
  getAllTheVideos castObjectId Video_paginate q db
  = (Thrown (ReferenceError "mongoose is not defined"), db).
Proof.
  intros Hu Hs. unfold getAllTheVideos. rewrite Hs, Hu. reflexivity.
Qed.

Lemma getAllTheVideos_userId_throws_witness :
  Sample.castObjectId Sample.bob_id = Some 2 /\
  getAllTheVideos Sample.castObjectId Sample.Video_paginate
                  (mkVideosQuery None None None None None (Some Sample.bob_id)) Sample.db
  = (Thrown (ReferenceError "mongoose is not defined"), Sample.db).
Proof.
  split; [reflexivity|].
  apply (getAllTheVideos_userId_throws Sample.castObjectId Sample.Video_paginate
           (mkVideosQuery None None None None None (Some Sample.bob_id)) Sample.db).
  - reflexivity.
  - reflexivity.
Defined.

(** Without a [userId] the same request reaches the pagination plugin. *)
Lemma getAllTheVideos_without_userId
      (castObjectId : string -> option ObjectId)
      (Video_paginate : DB -> SearchQuery -> PageOptions -> PageResult)
      (db : DB) :
  exists r,
    getAllTheVideos castObjectId Video_paginate
                    (mkVideosQuery None None None None None None) db
    = (Returned r, db) /\ status r = 200.
Proof.
  unfold getAllTheVideos. cbn. run. eexists. split; reflexivity.
Qed.

(** ** Subscriptions *)

Lemma has_edge_find (sub chan : ObjectId) (db : DB) :
  has_edge sub chan db = false ->
  find (fun s => (Subscription.subscriber s =? sub) && (Subscription.channel s =? chan))
       (subscriptions db) = None.
Proof.
  unfold has_edge. intros H.
  induction (subscriptions db) as [|s r IH]; simpl in *; [reflexivity|].
  apply orb_false_iff in H. destruct H as [Hs Hr]. rewrite Hs. now apply IH.
Qed.

Lemma has_edge_find_some (sub chan : ObjectId) (db : DB) :
  has_edge sub chan db = true ->
  exists s,
    find (fun s => (Subscription.subscriber s =? sub) && (Subscription.channel s =? chan))
         (subscriptions db) = Some s
    /\ Subscription.subscriber s = sub /\ Subscription.channel s = chan.
Proof.
  unfold has_edge. intros H.
  induction (subscriptions db) as [|s r IH]; simpl in *; [discriminate|].
  destruct ((Subscription.subscriber s =? sub) && (Subscription.channel s =? chan)) eqn:E.
  - exists s. apply andb_true_iff in E. destruct E as [E1 E2].
    apply N.eqb_eq in E1, E2. auto.
  - simpl in H. now apply IH.
Qed.

(** C7.  An authenticated toggle on a well-formed channel id: when an edge
    is stored, the first such edge is deleted and the payload is the boolean
    false; when none is stored, one is created and the payload is the
    created subscription document, not the boolean true. *)
Theorem toggleSubscription_payload
        (castObjectId : string -> option ObjectId)
        (subscriber : ObjectId) (channelId : string) (channel : ObjectId) (db : DB) :
  castObjectId channelId = Some channel ->
  (has_edge subscriber channel db = true ->
   exists s,
     find (fun s => (Subscription.subscriber s =? subscriber)
                    && (Subscription.channel s =? channel)) (subscriptions db) = Some s
     /\ toggleSubscription castObjectId (Some subscriber) channelId db
        = (Returned (mkResponse 200 []
                       (mkApiResponse 200 "Unsubscribed successfully" (Some (PBool false)))),
           set_subscriptions
             (remove_first (has_subscription_id (Subscription._id s)) (subscriptions db)) db))
  /\
  (has_edge subscriber channel db = false ->
   let edge := Subscription.mk (next_id db) subscriber channel in
   toggleSubscription castObjectId (Some subscriber) channelId db
   = (Returned (mkResponse 200 []
                  (mkApiResponse 200 "Subscribed successfully" (Some (PSubscription edge)))),
      mkDB (users db) (videos db) (subscriptions db ++ [edge]) (next_id db + 1))).
Proof.
  intros Hcast. split; intros He.
  - destruct (has_edge_find_some subscriber channel db He) as (s & Hs & _ & _).
    exists s. split; [exact Hs|].
    unfold toggleSubscription. rewrite Hcast.
    unfold Subscription_findOne, Subscription_findByIdAndDelete. run.
    rewrite Hs. reflexivity.
  - intros edge. unfold toggleSubscription. rewrite Hcast.
    unfold Subscription_findOne, Subscription_create. run.
    rewrite (has_edge_find subscriber channel db He). reflexivity.
Qed.

Lemma toggleSubscription_payload_witness :
  has_edge 2 1 Sample.db = false /\
  toggleSubscription Sample.castObjectId (Some 2) "000000000000000000000001" Sample.db
  = (Returned (mkResponse 200 []
                 (mkApiResponse 200 "Subscribed successfully"
                                (Some (PSubscription (Subscription.mk 33 2 1))))),
     mkDB [Sample.alice; Sample.bob] [Sample.draft]
          [Subscription.mk 32 1 2; Subscription.mk 33 2 1] 34).
Proof.
  split; [reflexivity|].
  apply (proj2 (toggleSubscription_payload Sample.castObjectId 2
                  "000000000000000000000001" 1 Sample.db eq_refl)).
  reflexivity.
Defined.

(** The payload of the subscribing branch is never the boolean true. *)
Lemma toggleSubscription_never_reports_true
      (castObjectId : string -> option ObjectId)
      (requester : option ObjectId) (channelId : string) (db db' : DB) (r : Response) :
  toggleSubscription castObjectId requester channelId db = (Returned r, db') ->
  data (json r) <> Some (PBool true).
Proof.
  unfold toggleSubscription.
  destruct (castObjectId channelId) as [channel|]; [|discriminate].
  destruct requester as [subscriber|]; [|discriminate].
  unfold Subscription_findOne, Subscription_findByIdAndDelete, Subscription_create. run.
  destruct (find _ (subscriptions db)); intros H; injection H as <- _; discriminate.
Qed.

(** ** Watch history *)

Lemma filter_nil_find (A : Type) (p : A -> bool) (l : list A) :
  find p l = None -> filter p l = [].
Proof.
  induction l as [|y r IH]; simpl; [reflexivity|].
  destruct (p y); [discriminate|exact IH].
Qed.

Lemma filter_cons_find (A : Type) (p : A -> bool) (l : list A) (x : A) :
  find p l = Some x -> exists r, filter p l = x :: r.
Proof.
  induction l as [|y r IH]; simpl; [discriminate|].
  destruct (p y).
  - intros H. injection H as ->. eauto.
  - exact IH.
Qed.

Lemma resolve_history_empty (db : DB) (u : User.t) :
  User.watchHistory u = [] -> resolve_history db u = [].
Proof.
  intros H. unfold resolve_history. rewrite H. simpl.
  induction (videos db) as [|v r IH]; simpl; [reflexivity|exact IH].
Qed.

(** The claim C8 as stated fails: for a requester whose record is not
    stored, the response has status 404, which is not a success response. *)
Lemma getWatchHistory_user_missing_not_success :
  ~ (forall (requester : ObjectId) (db : DB),
        find (has_user_id requester) (users db) = None ->
        exists r db',
          getWatchHistory (Some requester) db = (Returned r, db')
          /\ is_success r = true).
Proof.
  intros H. destruct (H 7 Sample.db eq_refl) as (r & db' & Hr & Hs).
  vm_compute in Hr. injection Hr as <- _. discriminate.
Qed.

(** C8, amended.  getWatchHistory never throws and writes nothing.  When
    the requester's watch history is empty it answers 200 with the empty
    list; when the requester's record is not stored it answers, without
    throwing, 404 "Watch history not found" with no data. *)
Theorem getWatchHistory_empty_or_missing (requester : ObjectId) (db : DB) :
  (exists r, getWatchHistory (Some requester) db = (Returned r, db))
  /\ (forall u,
         find (has_user_id requester) (users db) = Some u ->
         User.watchHistory u = [] ->
         getWatchHistory (Some requester) db
         = (Returned (mkResponse 200 []
                        (mkApiResponse 200 "success" (Some (PHistory [])))), db))
  /\ (find (has_user_id requester) (users db) = None ->
      getWatchHistory (Some requester) db
      = (Returned (mkResponse 404 []
                     (mkApiResponse 404 "Watch history not found" None)), db)).
Proof.
  unfold getWatchHistory. run. repeat split.
  - destruct (map (resolve_history db) (filter (has_user_id requester) (users db)));
      eexists; reflexivity.
  - intros u Hu Hh. destruct (filter_cons_find _ _ _ _ Hu) as [r Hr].
    rewrite Hr. simpl. rewrite (resolve_history_empty db u Hh). reflexivity.
  - intros Hn. rewrite (filter_nil_find _ _ _ Hn). reflexivity.
Qed.

Lemma getWatchHistory_empty_or_missing_witness :
  getWatchHistory (Some 2) Sample.db
  = (Returned (mkResponse 200 [] (mkApiResponse 200 "success" (Some (PHistory [])))),
     Sample.db)
  /\ getWatchHistory (Some 7) Sample.db
     = (Returned (mkResponse 404 []
                    (mkApiResponse 404 "Watch history not found" None)), Sample.db).
Proof.
  destruct (getWatchHistory_empty_or_missing 2 Sample.db) as (_ & Hempty & _).
  destruct (getWatchHistory_empty_or_missing 7 Sample.db) as (_ & _ & Hmissing).
  split.
  - apply (Hempty Sample.bob); reflexivity.
  - apply Hmissing. reflexivity.
Defined.

(** ** Channel profile *)

Lemma bson_in_subscriptions (requester : option ObjectId) (l : list Subscription.t) :
  bson_in (bson_of_requester requester) (map BSubscription l) = false.
Proof.
  unfold bson_in. induction l as [|s r IH]; simpl; [reflexivity|].
  rewrite IH. destruct requester; reflexivity.
Qed.

(** C4.  Whatever the stored edges, the [isSubscribed] field of a channel
    profile is false: the pipeline looks the requester's id up among the
    subscription documents of [subscribedTo], and an object id never equals
    a document.  In particular it is false when the edge from the requester
    to the channel is stored. *)
Theorem getUserChannelProfile_isSubscribed_false
        (requester : option ObjectId) (username : option string)
        (db db' : DB) (r : Response) (c : ChannelProfile) :
  getUserChannelProfile requester username db = (Returned r, db') ->
  data (json r) = Some (PChannel c) ->
  isSubscribed c = false.
Proof.
  unfold getUserChannelProfile.
  destruct (negb (Js.truthy (option_map Js.trim username))); [discriminate|].
  run.
  destruct (filter (fun u => field_matches username (User.username u)) (users db))
    as [|u l]; simpl; [discriminate|].
  intros H Hd. injection H as <- _. simpl in Hd. injection Hd as <-.
  unfold channel_profile. simpl. rewrite bson_in_subscriptions. reflexivity.
Qed.

Lemma getUserChannelProfile_isSubscribed_false_witness :
  has_edge 1 2 Sample.db = true /\
  exists r c,
    getUserChannelProfile (Some 1) (Some "bob") Sample.db = (Returned r, Sample.db)
    /\ status r = 200
    /\ data (json r) = Some (PChannel c)
    /\ subscribersCount c = 1
    /\ isSubscribed c = false.
Proof.
  split; [reflexivity|].
  eexists. eexists.
  split; [vm_compute; reflexivity|].
  split; [reflexivity|]. split; [reflexivity|]. split; [reflexivity|].
  eapply (getUserChannelProfile_isSubscribed_false (Some 1) (Some "bob")
            Sample.db Sample.db); reflexivity.
Defined.

(** ** Views and watch history *)

(** One fetch of a stored video: the response and the store it leaves. *)
Lemma getSingleVideo_found
      (castObjectId : string -> option ObjectId)
      (requester : option ObjectId) (videoId : string) (vid : ObjectId)
      (db : DB) (v : Video.t) :
  castObjectId videoId = Some vid ->
  find (has_video_id vid) (videos db) = Some v ->
  getSingleVideo castObjectId requester videoId db
  = (Returned
       (mkResponse 200 []
          (mkApiResponse 200 "Video fetched successfully"
             (Some (PVideo (mkPopulatedVideo
                              (bump_views v)
                              (option_map owner_card
                                 (find (has_user_id (Video.owner v)) (users db)))))))),
     mkDB (users_after_view requester videoId vid (users db))
          (update_first (has_video_id vid) bump_views (videos db))
          (subscriptions db) (next_id db)).
Proof.
  intros Hcast Hfind. unfold getSingleVideo. rewrite Hcast.
  unfold Video_findByIdAndUpdate_inc_views, populate_owner, User_findById, User_save.
  run. rewrite Hfind. run.
  unfold users_after_view.
  destruct requester as [uid|]; run; [|reflexivity].
  destruct (find (has_user_id uid) (users db)) as [u|]; run; [|reflexivity].
  destruct (history_includes u videoId vid); reflexivity.
Qed.

Lemma history_includes_In (u : User.t) (videoId : string) (vid : ObjectId) :
  history_includes u videoId vid = true -> In vid (User.watchHistory u).
Proof.
  unfold history_includes. intros H. apply andb_true_iff in H. destruct H as [_ H].
  apply existsb_exists in H. destruct H as (x & Hx & E).
  apply N.eqb_eq in E. now subst.
Qed.

(** Under the spelling of the string form the test is membership of the
    id. *)
Lemma history_includes_canonical (u : User.t) (videoId : string) (vid : ObjectId) :
  canonical_id videoId = true ->
  history_includes u videoId vid = true <-> In vid (User.watchHistory u).
Proof.
  intros Hc. split; [apply history_includes_In|].
  intros H. unfold history_includes. rewrite Hc. simpl.
  apply existsb_exists. exists vid. split; [exact H|apply N.eqb_refl].
Qed.

(** The requester's record after a fetch: the video is in the history. *)
Lemma users_after_view_history (uid : ObjectId) (videoId : string) (vid : ObjectId)
      (l : list User.t) (u : User.t) :
  find (has_user_id uid) l = Some u ->
  exists u',
    find (has_user_id uid) (users_after_view (Some uid) videoId vid l) = Some u'
    /\ In vid (User.watchHistory u').
Proof.
  intros Hu. unfold users_after_view. rewrite Hu.
  destruct (history_includes u videoId vid) eqn:Hi.
  - exists u. split; [exact Hu|]. now apply (history_includes_In u videoId).
  - exists (User.set_watchHistory (User.watchHistory u ++ [vid]) u).
    rewrite (find_user_id uid l u Hu). split.
    + apply (find_update_first_hit User.t (has_user_id uid)
               (fun _ => User.set_watchHistory (User.watchHistory u ++ [vid]) u) l u Hu).
      unfold has_user_id. simpl. rewrite (find_user_id uid l u Hu). apply N.eqb_refl.
    + simpl. apply in_or_app. right. now left.
Qed.

(** The requester's record after a fetch under a spelling that the test of
    the history does not recognise: the id is appended once more. *)
Lemma users_after_view_appends (uid : ObjectId) (videoId : string) (vid : ObjectId)
      (l : list User.t) (u : User.t) :
  canonical_id videoId = false ->
  find (has_user_id uid) l = Some u ->
  find (has_user_id uid) (users_after_view (Some uid) videoId vid l)
  = Some (User.set_watchHistory (User.watchHistory u ++ [vid]) u).
Proof.
  intros Hc Hu. unfold users_after_view, history_includes. rewrite Hu, Hc. simpl.
  rewrite (find_user_id uid l u Hu).
  apply (find_update_first_hit User.t (has_user_id uid)
           (fun _ => User.set_watchHistory (User.watchHistory u ++ [vid]) u) l u Hu).
  unfold has_user_id. simpl. rewrite (find_user_id uid l u Hu). apply N.eqb_refl.
Qed.

(** The requester's record after a fetch under the spelling of the string
    form: a history without repetition stays so. *)
Lemma users_after_view_canonical (uid : ObjectId) (videoId : string) (vid : ObjectId)
      (l : list User.t) (u : User.t) :
  canonical_id videoId = true ->
  find (has_user_id uid) l = Some u ->
  NoDup (User.watchHistory u) ->
  exists u',
    find (has_user_id uid) (users_after_view (Some uid) videoId vid l) = Some u'
    /\ In vid (User.watchHistory u')
    /\ NoDup (User.watchHistory u').
Proof.
  intros Hc Hu Hnd. unfold users_after_view. rewrite Hu.
  destruct (history_includes u videoId vid) eqn:Hi.
  - exists u. split; [exact Hu|]. split; [|exact Hnd].
    now apply (history_includes_In u videoId).
  - exists (User.set_watchHistory (User.watchHistory u ++ [vid]) u).
    rewrite (find_user_id uid l u Hu). split.
    + apply (find_update_first_hit User.t (has_user_id uid)
               (fun _ => User.set_watchHistory (User.watchHistory u ++ [vid]) u) l u Hu).
      unfold has_user_id. simpl. rewrite (find_user_id uid l u Hu). apply N.eqb_refl.
    + simpl. split.
      * apply in_or_app. right. now left.
      * apply NoDup_app; [exact Hnd|repeat constructor; intros []|].
        intros x Hx [E|[]]. subst x.
        apply (history_includes_canonical u videoId vid Hc) in Hx. congruence.
Qed.

Lemma find_video_after_view (vid : ObjectId) (l : list Video.t) (v : Video.t) :
  find (has_video_id vid) l = Some v ->
  find (has_video_id vid) (update_first (has_video_id vid) bump_views l)
  = Some (bump_views v).
Proof.
  intros Hv. apply (find_update_first_hit Video.t _ _ l v Hv).
  unfold has_video_id. simpl. rewrite (find_video_id vid l v Hv). apply N.eqb_refl.
Qed.



(** [n] fetches in a row under the spelling of the string form, by a user
    whose history has no repetition: the guard on the history works, and the
    video ends up in the history exactly once. *)
Lemma getSingleVideo_times_canonical
      (castObjectId : string -> option ObjectId)
      (uid : ObjectId) (videoId : string) (vid : ObjectId) (n : nat) :
  castObjectId videoId = Some vid ->
  canonical_id videoId = true ->
  forall (db : DB) (v : Video.t) (u : User.t),
    find (has_video_id vid) (videos db) = Some v ->
    find (has_user_id uid) (users db) = Some u ->
    NoDup (User.watchHistory u) ->
    exists db' v' u',
      getSingleVideo_times castObjectId (Some uid) videoId n db = (Returned tt, db')
      /\ find (has_video_id vid) (videos db') = Some v'
      /\ Video.views v' = Video.views v + N.of_nat n
      /\ find (has_user_id uid) (users db') = Some u'
      /\ NoDup (User.watchHistory u')
      /\ (In vid (User.watchHistory u) \/ (1 <= n)%nat -> In vid (User.watchHistory u')).
Proof.
  intros Hcast Hc. induction n as [|k IH]; intros db v u Hv Hu Hnd.
  - exists db, v, u. simpl. rewrite N.add_0_r.
    repeat split; auto. intros [H|H]; [exact H|lia].
  - destruct (users_after_view_canonical uid videoId vid (users db) u Hc Hu Hnd)
      as (u1 & Hu1 & Hin1 & Hnd1).
    pose proof (find_video_after_view vid (videos db) v Hv) as Hv1.
    pose proof (getSingleVideo_found castObjectId (Some uid) videoId vid db v Hcast Hv) as Hstep.
    set (db1 := mkDB (users_after_view (Some uid) videoId vid (users db))
                     (update_first (has_video_id vid) bump_views (videos db))
                     (subscriptions db) (next_id db)) in *.
    destruct (IH db1 (bump_views v) u1 Hv1 Hu1 Hnd1)
      as (db' & v' & u' & Hrun & Hv' & Hviews & Hu' & Hnd' & Hin').
    exists db', v', u'. split.
    + cbn [getSingleVideo_times]. run. rewrite Hstep. exact Hrun.
    + repeat split; auto.
      rewrite Hviews. unfold bump_views. simpl. lia.
Qed.

(** C9.  [n] fetches in a row of the same stored video by the same
    authenticated user, under a spelling of the id that is not the string
    form of an object id (upper-case hexadecimal digits, for one): every
    fetch returns and the view counter ends [n] higher, but the guard on the
    history never finds the video, and each fetch appends its id once more;
    after [n] fetches the id occurs [n] more times than before, not once. *)
Theorem getSingleVideo_times_repeats_history
        (castObjectId : string -> option ObjectId)
        (uid : ObjectId) (videoId : string) (vid : ObjectId) (n : nat)
        (db : DB) (v : Video.t) (u : User.t) :
  castObjectId videoId = Some vid ->
  canonical_id videoId = false ->
  find (has_video_id vid) (videos db) = Some v ->
  find (has_user_id uid) (users db) = Some u ->
  exists db' v' u',
    getSingleVideo_times castObjectId (Some uid) videoId n db = (Returned tt, db')
    /\ find (has_video_id vid) (videos db') = Some v'
    /\ Video.views v' = Video.views v + N.of_nat n
    /\ find (has_user_id uid) (users db') = Some u'
    /\ User.watchHistory u' = (User.watchHistory u ++ repeat vid n)%list
    /\ occurrences vid (User.watchHistory u')
       = (occurrences vid (User.watchHistory u) + n)%nat.
Proof.
  intros Hcast Hc. revert db v u. induction n as [|k IH]; intros db v u Hv Hu.
  - exists db, v, u. simpl. rewrite N.add_0_r, app_nil_r.
    repeat split; auto.
  - pose proof (users_after_view_appends uid videoId vid (users db) u Hc Hu) as Hu1.
    pose proof (find_video_after_view vid (videos db) v Hv) as Hv1.
    pose proof (getSingleVideo_found castObjectId (Some uid) videoId vid db v Hcast Hv) as Hstep.
    set (db1 := mkDB (users_after_view (Some uid) videoId vid (users db))
                     (update_first (has_video_id vid) bump_views (videos db))
                     (subscriptions db) (next_id db)) in *.
    destruct (IH db1 (bump_views v) _ Hv1 Hu1)
      as (db' & v' & u' & Hrun & Hv' & Hviews & Hu' & Hhist & Hocc).
    exists db', v', u'. split.
    + cbn [getSingleVideo_times]. run. rewrite Hstep. exact Hrun.
    + simpl User.watchHistory in Hhist, Hocc. repeat split; auto.
      * rewrite Hviews. unfold bump_views. simpl. lia.
      * rewrite Hhist, <- app_assoc. reflexivity.
      * assert (Hone : count_occ N.eq_dec [vid] vid = 1%nat).
        { cbn [count_occ]. destruct (N.eq_dec vid vid); [reflexivity|contradiction]. }
        rewrite Hocc. unfold occurrences. rewrite count_occ_app.
        unfold ObjectId in *. rewrite Hone. lia.
Qed.

Lemma getSingleVideo_times_repeats_history_witness :
  Sample.castObjectId Fixture.reel_id_upper = Sample.castObjectId Fixture.reel_id
  /\ exists db' v' u',
       getSingleVideo_times Sample.castObjectId (Some 1) Fixture.reel_id_upper 2
                            Fixture.db_reel = (Returned tt, db')
       /\ find (has_video_id 26) (videos db') = Some v'
       /\ Video.views v' = Video.views Fixture.reel + N.of_nat 2
       /\ find (has_user_id 1) (users db') = Some u'
       /\ User.watchHistory u' = (User.watchHistory Sample.alice ++ repeat 26 2)%list
       /\ occurrences 26 (User.watchHistory u')
          = (occurrences 26%N (User.watchHistory Sample.alice) + 2)%nat.
Proof.
  split; [reflexivity|].
  apply (getSingleVideo_times_repeats_history Sample.castObjectId 1 Fixture.reel_id_upper
           26 2 Fixture.db_reel Fixture.reel Sample.alice); reflexivity.
Defined.

(** ** Registration *)

Lemma blank_field_iff (field : option string) :
  blank_field field = true <-> exists s, field = Some s /\ Js.allWhiteSpace s = true.
Proof.
  destruct field as [s|]; simpl.
  - rewrite String.eqb_eq, trim_empty_iff. split.
    + intros H. exists s. auto.
    + intros (s' & E & H). injection E as <-. exact H.
  - split; [discriminate|]. intros (s & E & _). discriminate.
Qed.

(** The part of C3 that the guard covers: a field that is present and blank
    after trimming is rejected before anything is read or written. *)
Lemma register_blank_field_rejected
      (hashPassword : string -> string)
      (uploadOnCloudinary : string -> option UploadResult)
      (req : RegisterRequest) (db : DB) :
  no_blank_field req = false ->
  register hashPassword uploadOnCloudinary req db
  = (Thrown ValidationError_all_fields, db).
Proof.
  unfold no_blank_field, register. intros H.
  apply negb_false_iff in H. rewrite H. reflexivity.
Qed.

(** C3.  A registration whose [username] is missing, with the other three
    fields filled in, an avatar uploaded and no stored user under its email,
    passes the guard on blank fields: register fails on
    [username.toLowerCase()] with a TypeError, not with the ApiError 400
    "All fields are required". *)
Theorem register_missing_username
        (hashPassword : string -> string)
        (uploadOnCloudinary : string -> option UploadResult)
        (req : RegisterRequest) (db : DB) (fs : Files) (f : File) (rest : list File) :
  body_username req = None ->
  no_blank_field req = true ->
  (forall u, In u (users db) -> field_matches (body_email req) (User.email u) = false) ->
  files req = Some fs ->
  f_avatar fs = Some (f :: rest) ->
  path f <> "" ->
  register hashPassword uploadOnCloudinary req db
  = (Thrown (TypeError "Cannot read properties of undefined (reading 'toLowerCase')"), db).
Proof.
  intros Hu Hb Hdup Hfs Hav Hp. unfold no_blank_field in Hb.
  apply negb_true_iff in Hb. unfold register. rewrite Hb, Hu.
  unfold User_findOne_username_or_email. run.
  assert (Hfind : find (fun u => field_matches None (User.username u)
                                 || field_matches (body_email req) (User.email u))
                       (users db) = None).
  { induction (users db) as [|x r IH]; simpl; [reflexivity|].
    rewrite (Hdup x (or_introl eq_refl)). apply IH.
    intros u Hin. apply Hdup. now right. }
  rewrite Hfind. rewrite Hfs. unfold avatar_path. rewrite Hav. run.
  rewrite (truthy_Some (path f) Hp). reflexivity.
Qed.

Lemma register_missing_username_witness :
  register Sample.hashPassword Sample.uploadOnCloudinary
           (Sample.signup None (Some "carol@example.org") (Some "pw-c") (Some "Carol C"))
           Sample.db
  = (Thrown (TypeError "Cannot read properties of undefined (reading 'toLowerCase')"),
     Sample.db).
Proof.
  apply (register_missing_username Sample.hashPassword Sample.uploadOnCloudinary
           (Sample.signup None (Some "carol@example.org") (Some "pw-c") (Some "Carol C"))
           Sample.db
           (mkFiles (Some [mkFile "public/temp/a.png"]) None)
           (mkFile "public/temp/a.png") []).
  - reflexivity.
  - reflexivity.
  - intros u [<-|[<-|[]]]; reflexivity.
  - reflexivity.
  - reflexivity.
  - discriminate.
Defined.

(** A request that repeats the username or the email of a stored user, and
    has no blank field, is refused with the conflict error. *)
Lemma register_conflict
      (hashPassword : string -> string)
      (uploadOnCloudinary : string -> option UploadResult)
      (req : RegisterRequest) (db : DB) (u : User.t) :
  no_blank_field req = true ->
  In u (users db) ->
  body_username req = Some (User.username u) \/ body_email req = Some (User.email u) ->
  register hashPassword uploadOnCloudinary req db
  = (Thrown ConflictError_user_exists, db).
Proof.
  intros Hb Hin Hsame. unfold no_blank_field in Hb.
  apply negb_true_iff in Hb. unfold register. rewrite Hb.
  unfold User_findOne_username_or_email. run.
  destruct (find (fun u0 => field_matches (body_username req) (User.username u0)
                            || field_matches (body_email req) (User.email u0))
                 (users db)) as [d|] eqn:Hfind.
  - reflexivity.
  - exfalso. pose proof (find_none _ _ Hfind u Hin) as Hn. simpl in Hn.
    apply orb_false_iff in Hn. destruct Hn as [Hn1 Hn2].
    destruct Hsame as [E|E]; rewrite E in *; simpl in *.
    + rewrite String.eqb_refl in Hn1. discriminate.
    + rewrite String.eqb_refl in Hn2. discriminate.
Qed.

Lemma required_Some (v : option string) (s : string) :
  required v = Some s -> v = Some s.
Proof.
  destruct v as [x|]; simpl; [|discriminate].
  destruct (x =? "")%string; [discriminate|]. intros H. now injection H as ->.
Qed.

(** What a successful [User.create] stores. *)
Lemma User_create_returned
      (hashPassword : string -> string) (doc : UserInput) (db db' : DB) (u : User.t) :
  User_create hashPassword doc db = (Returned u, db') ->
  users db' = (users db ++ [u])%list
  /\ User.username u = in_username doc
  /\ in_email doc = Some (User.email u)
  /\ User.watchHistory u = [].
Proof.
  unfold User_create. run.
  destruct (required (Some (in_username doc))) as [uname|] eqn:E1; [|discriminate].
  destruct (required (in_fullName doc)) as [fname|]; [|discriminate].
  destruct (required (in_email doc)) as [mail|] eqn:E3; [|discriminate].
  destruct (required (in_password doc)) as [pw|]; [|discriminate].
  destruct (required (in_avatar doc)) as [av|]; [|discriminate].
  destruct (existsb _ (users db)); [discriminate|].
  intros H. injection H as <- <-. simpl.
  apply required_Some in E1, E3. injection E1 as ->. auto.
Qed.

(** What a successful registration leaves in the store. *)
Lemma register_returned
      (hashPassword : string -> string)
      (uploadOnCloudinary : string -> option UploadResult)
      (req : RegisterRequest) (db db' : DB) (r : Response) :
  register hashPassword uploadOnCloudinary req db = (Returned r, db') ->
  exists s u,
    body_username req = Some s
    /\ users db' = (users db ++ [u])%list
    /\ User.username u = Js.toLowerCase s
    /\ body_email req = Some (User.email u)
    /\ User.watchHistory u = [].
Proof.
  unfold register.
  destruct (existsb blank_field _); [discriminate|].
  unfold User_findOne_username_or_email. run.
  destruct (find _ (users db)); [discriminate|].
  destruct (avatar_path (files req) db) as [[p|e] db0] eqn:Hav; [|discriminate].
  assert (db0 = db) as ->.
  { unfold avatar_path in Hav. destruct (files req) as [fs|]; run.
    - destruct (f_avatar fs) as [[|f l]|]; inversion Hav; reflexivity.
    - inversion Hav; reflexivity. }
  destruct (Js.truthy p); run; [|discriminate].
  destruct (body_username req) as [s|]; [|discriminate].
  match goal with
  | |- context [User_create hashPassword ?d db] =>
      destruct (User_create hashPassword d db) as [[u|e] db1] eqn:Hc; [|discriminate];
      apply User_create_returned in Hc; destruct Hc as (Hus & Hn & He & Hh)
  end.
  unfold User_findById. run.
  destruct (find (has_user_id (User._id u)) (users db1)); [|discriminate].
  intros H. injection H as _ <-.
  exists s, u. simpl in Hn, He. auto.
Qed.

(** The claim C2 as stated fails: the second request may repeat the username
    and still be turned away by the guard on blank fields, which runs before
    the duplicate lookup. *)
Lemma register_twice_blank_field_first :
  ~ (forall (hashPassword : string -> string)
            (uploadOnCloudinary : string -> option UploadResult)
            (req1 req2 : RegisterRequest) (db db1 : DB) (r1 : Response),
        register hashPassword uploadOnCloudinary req1 db = (Returned r1, db1) ->
        body_username req2 = body_username req1 \/ body_email req2 = body_email req1 ->
        register hashPassword uploadOnCloudinary req2 db1
        = (Thrown ConflictError_user_exists, db1)).
Proof.
  intros H.
  pose (req1 := Sample.signup (Some "carol") (Some "carol@example.org")
                              (Some "pw-c") (Some "Carol C")).
  pose (req2 := Sample.signup (Some "carol") (Some "carol@example.net")
                              (Some "  ") (Some "Carol D")).
  destruct (register Sample.hashPassword Sample.uploadOnCloudinary req1 Sample.db)
    as [[r1|e] db1] eqn:E1; [|vm_compute in E1; discriminate].
  specialize (H Sample.hashPassword Sample.uploadOnCloudinary req1 req2
                Sample.db db1 r1 E1 (or_introl eq_refl)).
  rewrite (register_blank_field_rejected Sample.hashPassword Sample.uploadOnCloudinary
             req2 db1 eq_refl) in H.
  discriminate.
Qed.

(** C2, amended.  After a registration that succeeded, a second request with
    no blank field that repeats its email, or repeats its username when that
    username is in lower case, fails with ApiError 400 "Username or email
    already exists" and leaves the store as it was. *)
Theorem register_twice_conflict
        (hashPassword : string -> string)
        (uploadOnCloudinary : string -> option UploadResult)
        (req1 req2 : RegisterRequest) (db db1 : DB) (r1 : Response) :
  register hashPassword uploadOnCloudinary req1 db = (Returned r1, db1) ->
  no_blank_field req2 = true ->
  (exists s, body_username req1 = Some s /\ body_username req2 = Some s
             /\ Js.toLowerCase s = s)
  \/ body_email req2 = body_email req1 ->
  register hashPassword uploadOnCloudinary req2 db1
  = (Thrown ConflictError_user_exists, db1).
Proof.
  intros H1 Hb Hsame.
  destruct (register_returned _ _ _ _ _ _ H1) as (s & u & Hs & Hus & Hn & He & _).
  apply (register_conflict hashPassword uploadOnCloudinary req2 db1 u Hb).
  - rewrite Hus. apply in_or_app. right. now left.
  - destruct Hsame as [(s' & E1 & E2 & El)|E].
    + left. rewrite E2, Hn. rewrite Hs in E1. injection E1 as ->. now rewrite El.
    + right. now rewrite E, He.
Qed.

Lemma register_twice_conflict_witness :
  exists r1 db1,
    register Sample.hashPassword Sample.uploadOnCloudinary
             (Sample.signup (Some "carol") (Some "carol@example.org")
                            (Some "pw-c") (Some "Carol C")) Sample.db
    = (Returned r1, db1)
    /\ status r1 = 201
    /\ register Sample.hashPassword Sample.uploadOnCloudinary
                (Sample.signup (Some "carol") (Some "carol@example.net")
                               (Some "pw-d") (Some "Carol D")) db1
       = (Thrown ConflictError_user_exists, db1).
Proof.
  eexists. eexists. split; [vm_compute; reflexivity|]. split; [reflexivity|].
  eapply (register_twice_conflict Sample.hashPassword Sample.uploadOnCloudinary
            (Sample.signup (Some "carol") (Some "carol@example.org")
                           (Some "pw-c") (Some "Carol C"))
            (Sample.signup (Some "carol") (Some "carol@example.net")
                           (Some "pw-d") (Some "Carol D"))
            Sample.db).
  - vm_compute. reflexivity.
  - reflexivity.
  - left. exists "carol". repeat split; reflexivity.
Defined.

(** ** Histories stay free of repetition *)

Lemma In_update_first (A : Type) (p : A -> bool) (f : A -> A) (l : list A) (x : A) :
  In x (update_first p f l) -> In x l \/ exists y, In y l /\ x = f y.
Proof.
  induction l as [|y r IH]; simpl; [tauto|].
  destruct (p y); simpl.
  - intros [<-|H]; [right; exists y; auto|auto].
  - intros [<-|H]; [auto|].
    destruct (IH H) as [H'|(z & Hz & ->)]; [auto|right; exists z; auto].
Qed.

Lemma users_after_view_NoDup (requester : option ObjectId) (videoId : string)
      (vid : ObjectId) (l : list User.t) :
  canonical_id videoId = true ->
  (forall u, In u l -> NoDup (User.watchHistory u)) ->
  forall u, In u (users_after_view requester videoId vid l) ->
            NoDup (User.watchHistory u).
Proof.
  intros Hc Hl u. unfold users_after_view.
  destruct requester as [uid|]; [|apply Hl].
  destruct (find (has_user_id uid) l) as [w|] eqn:Hw; [|apply Hl].
  destruct (history_includes w videoId vid) eqn:Hi; [apply Hl|].
  intros Hin. apply In_update_first in Hin.
  destruct Hin as [Hin|(y & _ & ->)]; [now apply Hl|].
  simpl. apply NoDup_app.
  - apply Hl. apply (find_some _ _ Hw).
  - repeat constructor. intros [].
  - intros x Hx [E|[]]. subst x.
    apply (history_includes_canonical w videoId vid Hc) in Hx. congruence.
Qed.

(** Whatever its outcome, a fetch under the spelling of the string form
    keeps every stored watch history free of repetition. *)
Lemma getSingleVideo_keeps_histories_NoDup
      (castObjectId : string -> option ObjectId)
      (requester : option ObjectId) (videoId : string)
      (db db' : DB) (o : Outcome Response) :
  canonical_id videoId = true ->
  getSingleVideo castObjectId requester videoId db = (o, db') ->
  (forall u, In u (users db) -> NoDup (User.watchHistory u)) ->
  forall u, In u (users db') -> NoDup (User.watchHistory u).
Proof.
  intros Hc Hrun Hdb.
  destruct (castObjectId videoId) as [vid|] eqn:Hcast.
  - destruct (find (has_video_id vid) (videos db)) as [v|] eqn:Hv.
    + rewrite (getSingleVideo_found castObjectId requester videoId vid db v Hcast Hv) in Hrun.
      injection Hrun as _ <-. cbn [users].
      now apply (users_after_view_NoDup requester videoId vid (users db) Hc).
    + unfold getSingleVideo, Video_findByIdAndUpdate_inc_views in Hrun.
      rewrite Hcast in Hrun. run_in Hrun. rewrite Hv in Hrun.
      injection Hrun as _ <-. exact Hdb.
  - unfold getSingleVideo in Hrun. rewrite Hcast in Hrun.
    injection Hrun as _ <-. exact Hdb.
Qed.

(** * Properties of the remaining handlers *)

(** ** Public ids *)

Lemma split_on_cons (c : ascii) (s : string) :
  exists h t, split_on c s = h :: t.
Proof.
  induction s as [|a r IH]; simpl; [eauto|].
  destruct (Ascii.eqb a c); [eauto|].
  destruct IH as (h & t & ->). eauto.
Qed.

Lemma split_on_absent (c : ascii) (s : string) :
  occurs c s = false -> split_on c s = [s].
Proof.
  induction s as [|a r IH]; simpl; [reflexivity|].
  destruct (Ascii.eqb a c); simpl; [discriminate|].
  intros H. now rewrite (IH H).
Qed.

(** Splitting at an occurrence of the separator splits the list of
    segments there. *)
Lemma split_on_app (c : ascii) (a t : string) :
  split_on c (a ++ String c t) = (split_on c a ++ split_on c t)%list.
Proof.
  induction a as [|x a' IH]; simpl.
  - now rewrite Ascii.eqb_refl.
  - destruct (Ascii.eqb x c); [now rewrite IH|].
    rewrite IH. destruct (split_on_cons c a') as (h & tl & ->). reflexivity.
Qed.

Lemma last_app_cons (A : Type) (l1 l2 : list A) (x d : A) :
  last (l1 ++ x :: l2) d = last (x :: l2) d.
Proof.
  induction l1 as [|y l1 IH]; [reflexivity|].
  assert (H : forall l' : list A, l' <> [] -> last (y :: l') d = last l' d).
  { intros [|z l'] Hl; [contradiction|reflexivity]. }
  change ((y :: l1) ++ x :: l2)%list with (y :: (l1 ++ x :: l2))%list.
  rewrite H; [exact IH|destruct l1; discriminate].
Qed.

(** No segment of a split contains the separator. *)
Lemma split_on_segments (c : ascii) (s : string) :
  Forall (fun seg => occurs c seg = false) (split_on c s).
Proof.
  induction s as [|a r IH]; simpl.
  - repeat constructor.
  - destruct (Ascii.eqb a c) eqn:E.
    + constructor; [reflexivity|exact IH].
    + destruct (split_on_cons c r) as (h & t & Hs). rewrite Hs in *.
      inversion IH as [|? ? Hh Ht]; subst. constructor; [|exact Ht].
      simpl. now rewrite E.
Qed.

(** A code unit absent from a string is absent from every segment of its
    splits. *)
Lemma split_on_keeps_absent (c d : ascii) (s : string) :
  occurs d s = false ->
  Forall (fun seg => occurs d seg = false) (split_on c s).
Proof.
  induction s as [|a r IH]; simpl.
  - intros _. repeat constructor.
  - intros H. apply orb_false_iff in H. destruct H as [Ha Hr].
    specialize (IH Hr).
    destruct (Ascii.eqb a c).
    + constructor; [reflexivity|exact IH].
    + destruct (split_on_cons c r) as (h & t & Hs). rewrite Hs in *.
      inversion IH as [|? ? Hh Ht]; subst. constructor; [|exact Ht].
      simpl. now rewrite Ha.
Qed.

Lemma Forall_last (A : Type) (P : A -> Prop) (l : list A) (d : A) :
  P d -> Forall P l -> P (last l d).
Proof.
  intros Hd H. induction H as [|x l Hx Hl IH]; [exact Hd|].
  destruct l; [exact Hx|exact IH].
Qed.

Lemma Forall_hd (A : Type) (P : A -> Prop) (l : list A) (d : A) :
  P d -> Forall P l -> P (hd d l).
Proof.
  intros Hd H. destruct H; [exact Hd|assumption].
Qed.

(** X1.  The public id taken from a media URL is the file name without its
    extension: for [base/name.ext], where [name] has neither a slash nor a
    dot and [ext] has no slash, it is [name]. *)
Theorem public_id_of_url (base name ext : string) :
  occurs "/" name = false ->
  occurs "." name = false ->
  occurs "/" ext = false ->
  public_id (base ++ String "/" (name ++ String "." ext)) = name.
Proof.
  intros Hn1 Hn2 He. unfold public_id.
  rewrite split_on_app.
  assert (Hfile : occurs "/" (name ++ String "." ext) = false).
  { clear Hn2. induction name as [|a r IH]; simpl in *.
    - exact He.
    - apply orb_false_iff in Hn1. destruct Hn1 as [Ha Hr].
      rewrite Ha. now apply IH. }
  rewrite (split_on_absent "/" _ Hfile).
  rewrite last_app_cons. simpl last.
  rewrite split_on_app, (split_on_absent "." name Hn2). reflexivity.
Qed.

Lemma public_id_of_url_witness :
  public_id "https://media.example/clips/c.png" = "c".
Proof.
  apply (public_id_of_url "https://media.example/clips" "c" "png"); reflexivity.
Defined.

(** X2.  Whatever the stored URL, the public id handed to the media host
    contains neither a slash nor a dot. *)
Theorem public_id_no_separator (url : string) :
  occurs "/" (public_id url) = false /\ occurs "." (public_id url) = false.
Proof.
  unfold public_id. split.
  - apply (Forall_hd string (fun seg => occurs "/" seg = false)); [reflexivity|].
    apply split_on_keeps_absent.
    apply (Forall_last string (fun seg => occurs "/" seg = false)); [reflexivity|].
    apply split_on_segments.
  - apply (Forall_hd string (fun seg => occurs "." seg = false)); [reflexivity|].
    apply split_on_segments.
Qed.


(** ** Sessions *)

Lemma find_update_first_key (A : Type) (p : A -> bool) (f : A -> A) (l : list A) :
  (forall x, p (f x) = p x) ->
  find p (update_first p f l) = option_map f (find p l).
Proof.
  intros Hp. induction l as [|y r IH]; simpl; [reflexivity|].
  destruct (p y) eqn:Hy; simpl.
  - now rewrite Hp, Hy.
  - now rewrite Hy.
Qed.

(** The token pair of an account and the store it leaves. *)
Lemma generateAccessAndRefreshTokens_run
      (generateAccessToken generateRefreshToken : User.t -> string)
      (id : ObjectId) (db : DB) :
  generateAccessAndRefreshTokens generateAccessToken generateRefreshToken id db
  = match find (has_user_id id) (users db) with
    | Some w =>
        (Returned (generateAccessToken w, generateRefreshToken w),
         set_users (update_first (has_user_id id)
                      (fun _ => User.set_refreshToken (Some (generateRefreshToken w)) w)
                      (users db)) db)
    | None =>
        (Thrown (ApiError 500
                   "Something went wrong while generating refresh and access token"), db)
    end.
Proof.
  unfold generateAccessAndRefreshTokens, User_findById, User_save. run.
  destruct (find (has_user_id id) (users db)) as [w|] eqn:Hw; run; [|reflexivity].
  simpl User._id. rewrite (find_user_id id (users db) w Hw). reflexivity.
Qed.

Lemma find_after_token (id : ObjectId) (l : list User.t) (w w' : User.t) :
  find (has_user_id id) l = Some w ->
  User._id w' = id ->
  find (has_user_id id) (update_first (has_user_id id) (fun _ => w') l) = Some w'.
Proof.
  intros Hw Hid.
  apply (find_update_first_hit User.t (has_user_id id) (fun _ => w') l w Hw).
  unfold has_user_id. rewrite Hid. apply N.eqb_refl.
Qed.

(** X3.  Whenever login succeeds, the account was found under the
    identifier as username or as email, the password matched, and the
    refresh token of the response, the one of the cookie and the one now
    stored on the account are the same token. *)
Theorem login_success
        (generateAccessToken generateRefreshToken : User.t -> string)
        (isPasswordMatched : User.t -> string -> bool) (production : bool)
        (identifier password : option string) (db db' : DB) (r : Response) :
  login generateAccessToken generateRefreshToken isPasswordMatched production
        identifier password db = (Returned r, db') ->
  exists u w view pw accessToken refreshToken,
    find (fun u => field_matches identifier (User.username u)
                   || field_matches identifier (User.email u)) (users db) = Some u
    /\ password = Some pw /\ isPasswordMatched u pw = true
    /\ find (has_user_id (User._id u)) (users db') = Some w
    /\ User.refreshToken w = Some refreshToken
    /\ status r = 200
    /\ cookies r = [mkCookie "refreshToken" refreshToken production;
                    mkCookie "accessToken" accessToken production]
    /\ data (json r) = Some (PLogin view accessToken refreshToken).
Proof.
  unfold login.
  destruct (negb (Js.truthy identifier) || negb (Js.truthy password)) eqn:Hreq;
    [discriminate|].
  unfold User_findOne_username_or_email. run.
  destruct (find _ (users db)) as [u|] eqn:Hu; [|discriminate].
  destruct password as [pw|];
    [|simpl in Hreq; rewrite orb_true_r in Hreq; discriminate].
  run.
  destruct (isPasswordMatched u pw) eqn:Hpw; [|discriminate].
  rewrite generateAccessAndRefreshTokens_run.
  destruct (find (has_user_id (User._id u)) (users db)) as [w|] eqn:Hw; [|discriminate].
  unfold User_findById. run.
  pose (w' := User.set_refreshToken (Some (generateRefreshToken w)) w).
  assert (Hw' : find (has_user_id (User._id u))
                     (update_first (has_user_id (User._id u)) (fun _ => w') (users db))
                = Some w').
  { apply (find_after_token (User._id u) (users db) w w' Hw).
    exact (find_user_id _ _ _ Hw). }
  fold w'. rewrite Hw'.
  intros H. injection H as <- <-. cbn [users].
  exists u, w'. eexists. exists pw. eexists. eexists.
  rewrite Hw'. repeat split; first [reflexivity|assumption].
Qed.

Lemma login_success_witness :
  exists u w view pw accessToken refreshToken,
    find (fun u => field_matches (Some "alice") (User.username u)
                   || field_matches (Some "alice") (User.email u)) (users Sample.db)
    = Some u
    /\ Some "pw-a" = Some pw /\ Fixture.isPasswordMatched u pw = true
    /\ find (has_user_id (User._id u))
            (users (snd (login Sample.generateAccessToken Sample.generateRefreshToken
                               Fixture.isPasswordMatched true
                               (Some "alice") (Some "pw-a") Sample.db))) = Some w
    /\ User.refreshToken w = Some refreshToken
    /\ status (mkResponse 200
                 [mkCookie "refreshToken" "refresh.alice.3" true;
                  mkCookie "accessToken" "access.alice" true]
                 (mkApiResponse 200 "User Login Successfully"
                    (Some (PLogin (Some (select_public Sample.alice))
                                  "access.alice" "refresh.alice.3")))) = 200
    /\ [mkCookie "refreshToken" "refresh.alice.3" true;
        mkCookie "accessToken" "access.alice" true]
       = [mkCookie "refreshToken" refreshToken true;
          mkCookie "accessToken" accessToken true]
    /\ Some (PLogin (Some (select_public Sample.alice)) "access.alice" "refresh.alice.3")
       = Some (PLogin view accessToken refreshToken).
Proof.
  apply (login_success Sample.generateAccessToken Sample.generateRefreshToken
           Fixture.isPasswordMatched true (Some "alice") (Some "pw-a") Sample.db).
  reflexivity.
Defined.

(** X4.  A login that fails writes nothing, and fails with one of four
    errors: 400 for a missing field or a wrong password, 404 for an unknown
    identifier, 500 from the token generator. *)
Theorem login_failure
        (generateAccessToken generateRefreshToken : User.t -> string)
        (isPasswordMatched : User.t -> string -> bool) (production : bool)
        (identifier password : option string) (db db' : DB) (e : JsError) :
  login generateAccessToken generateRefreshToken isPasswordMatched production
        identifier password db = (Thrown e, db') ->
  db' = db
  /\ (e = ApiError 400 "All fields are required"
      \/ e = ApiError 404 "User not found register first"
      \/ e = ApiError 400 "Invalid credentials"
      \/ e = ApiError 500 "Something went wrong while generating refresh and access token").
Proof.
  unfold login.
  destruct (negb (Js.truthy identifier) || negb (Js.truthy password)).
  { intros H. injection H as <- <-. auto. }
  unfold User_findOne_username_or_email. run.
  destruct (find _ (users db)) as [u|].
  2:{ intros H. injection H as <- <-. auto. }
  destruct (isPasswordMatched u _).
  2:{ intros H. injection H as <- <-. auto 6. }
  rewrite generateAccessAndRefreshTokens_run.
  destruct (find (has_user_id (User._id u)) (users db)) as [w|].
  - unfold User_findById. run. discriminate.
  - intros H. injection H as <- <-. auto 6.
Qed.

Lemma login_failure_witness :
  login Sample.generateAccessToken Sample.generateRefreshToken
        Fixture.isPasswordMatched true (Some "alice") (Some "guess") Sample.db
  = (Thrown (ApiError 400 "Invalid credentials"), Sample.db)
  /\ Sample.db = Sample.db.
Proof.
  split; [reflexivity|].
  apply (login_failure Sample.generateAccessToken Sample.generateRefreshToken
           Fixture.isPasswordMatched true (Some "alice") (Some "guess")
           Sample.db Sample.db (ApiError 400 "Invalid credentials")).
  reflexivity.
Defined.

(** What refreshAccessToken does once a token is presented: the three
    outcomes of the [try] block. *)
Lemma refreshAccessToken_run
      (jwt_verify : string -> string + ObjectId)
      (generateAccessToken generateRefreshToken : User.t -> string)
      (production : bool) (req : RefreshRequest) (tok : string) (db : DB) :
  js_or (cookies_refreshToken req) (body_refreshToken req) = Some tok ->
  tok <> "" ->
  refreshAccessToken jwt_verify generateAccessToken generateRefreshToken
                     production req db
  = match jwt_verify tok with
    | inl msg => (Thrown (ApiError 403 (default_to "Invalid refresh token"
                                          (js_or (Some msg) None))), db)
    | inr uid =>
        match find (has_user_id uid) (users db) with
        | Some u =>
            if strict_neq tok (User.refreshToken u)
            then (Thrown (ApiError 500 "Invalid refresh token"), db)
            else
              (Returned
                 (mkResponse 200
                    [mkCookie "accessToken" (generateAccessToken u) production;
                     mkCookie "refreshToken" (generateRefreshToken u) production]
                    (mkApiResponse 200 "Access token refreshed"
                       (Some (PTokens (generateAccessToken u) (generateRefreshToken u))))),
               set_users (update_first (has_user_id uid)
                            (fun _ => User.set_refreshToken
                                        (Some (generateRefreshToken u)) u)
                            (users db)) db)
        | None => (Thrown (ApiError 500 "Invalid refresh token"), db)
        end
    end.
Proof.
  intros Hin Hne. unfold refreshAccessToken.
  rewrite Hin, (truthy_Some tok Hne). run.
  destruct (jwt_verify tok) as [msg|uid]; [reflexivity|].
  unfold User_findById. run.
  destruct (find (has_user_id uid) (users db)) as [u|] eqn:Hu; [|reflexivity].
  destruct (strict_neq tok (User.refreshToken u)); [reflexivity|].
  rewrite generateAccessAndRefreshTokens_run.
  rewrite (find_user_id uid (users db) u Hu), Hu. reflexivity.
Qed.

Lemma js_or_truthy (a b : option string) (tok : string) :
  Js.truthy (js_or a b) = true -> exists tok, js_or a b = Some tok /\ tok <> "".
Proof.
  destruct (js_or a b) as [s|]; simpl; [|discriminate].
  destruct (String.eqb_spec s ""); [discriminate|]. eauto.
Qed.

(** X5.  Whenever refreshAccessToken succeeds, the token presented passed
    [jwt.verify], the account it names is stored, and the token is the very
    one stored on that account; the refresh token of the response is the
    one stored afterwards. *)
Theorem refreshAccessToken_success
        (jwt_verify : string -> string + ObjectId)
        (generateAccessToken generateRefreshToken : User.t -> string)
        (production : bool) (req : RefreshRequest) (db db' : DB) (r : Response) :
  refreshAccessToken jwt_verify generateAccessToken generateRefreshToken
                     production req db = (Returned r, db') ->
  exists tok uid u u',
    js_or (cookies_refreshToken req) (body_refreshToken req) = Some tok
    /\ jwt_verify tok = inr uid
    /\ find (has_user_id uid) (users db) = Some u
    /\ User.refreshToken u = Some tok
    /\ data (json r) = Some (PTokens (generateAccessToken u) (generateRefreshToken u))
    /\ find (has_user_id uid) (users db') = Some u'
    /\ User.refreshToken u' = Some (generateRefreshToken u).
Proof.
  intros H.
  destruct (Js.truthy (js_or (cookies_refreshToken req) (body_refreshToken req))) eqn:Ht.
  2:{ unfold refreshAccessToken in H. rewrite Ht in H. discriminate. }
  destruct (js_or_truthy _ _ "" Ht) as (tok & Hin & Hne).
  rewrite (refreshAccessToken_run jwt_verify generateAccessToken generateRefreshToken
             production req tok db Hin Hne) in H.
  destruct (jwt_verify tok) as [msg|uid] eqn:Hv; [discriminate|].
  destruct (find (has_user_id uid) (users db)) as [u|] eqn:Hu; [|discriminate].
  destruct (strict_neq tok (User.refreshToken u)) eqn:Hs; [discriminate|].
  injection H as <- <-.
  exists tok, uid, u, (User.set_refreshToken (Some (generateRefreshToken u)) u).
  repeat split; try assumption; try reflexivity.
  - unfold strict_neq in Hs. destruct (User.refreshToken u) as [s|]; [|discriminate].
    apply negb_false_iff, String.eqb_eq in Hs. now subst.
  - cbn [users set_users].
    apply (find_after_token uid (users db) u _ Hu). exact (find_user_id _ _ _ Hu).
Qed.

Lemma refreshAccessToken_success_witness :
  exists tok uid u u',
    js_or (Some "refresh.alice.2") None = Some tok
    /\ Sample.jwt_verify tok = inr uid
    /\ find (has_user_id uid) (users Sample.db) = Some u
    /\ User.refreshToken u = Some tok
    /\ Some (PTokens "access.alice" "refresh.alice.3")
       = Some (PTokens (Sample.generateAccessToken u) (Sample.generateRefreshToken u))
    /\ find (has_user_id uid)
            [User.set_refreshToken (Some "refresh.alice.3") Sample.alice; Sample.bob]
       = Some u'
    /\ User.refreshToken u' = Some (Sample.generateRefreshToken u).
Proof.
  apply (refreshAccessToken_success Sample.jwt_verify Sample.generateAccessToken
           Sample.generateRefreshToken true
           (mkRefreshRequest (Some "refresh.alice.2") None) Sample.db
           (set_users [User.set_refreshToken (Some "refresh.alice.3") Sample.alice;
                       Sample.bob] Sample.db)
           (mkResponse 200
              [mkCookie "accessToken" "access.alice" true;
               mkCookie "refreshToken" "refresh.alice.3" true]
              (mkApiResponse 200 "Access token refreshed"
                 (Some (PTokens "access.alice" "refresh.alice.3"))))).
  reflexivity.
Defined.

(** X6.  A refresh that fails writes nothing and throws an ApiError: 401
    only when no token was presented, 403 for a token that [jwt.verify]
    refuses, 500 for anything else. *)
Theorem refreshAccessToken_failure
        (jwt_verify : string -> string + ObjectId)
        (generateAccessToken generateRefreshToken : User.t -> string)
        (production : bool) (req : RefreshRequest) (db db' : DB) (e : JsError) :
  refreshAccessToken jwt_verify generateAccessToken generateRefreshToken
                     production req db = (Thrown e, db') ->
  db' = db
  /\ ((Js.truthy (js_or (cookies_refreshToken req) (body_refreshToken req)) = false
       /\ e = ApiError 401 "unauthorized request")
      \/ (exists tok msg,
             js_or (cookies_refreshToken req) (body_refreshToken req) = Some tok
             /\ jwt_verify tok = inl msg
             /\ e = ApiError 403 (default_to "Invalid refresh token" (js_or (Some msg) None)))
      \/ (exists tok uid,
             js_or (cookies_refreshToken req) (body_refreshToken req) = Some tok
             /\ jwt_verify tok = inr uid
             /\ e = ApiError 500 "Invalid refresh token")).
Proof.
  intros H.
  destruct (Js.truthy (js_or (cookies_refreshToken req) (body_refreshToken req))) eqn:Ht.
  2:{ unfold refreshAccessToken in H. rewrite Ht in H. injection H as <- <-. auto. }
  destruct (js_or_truthy _ _ "" Ht) as (tok & Hin & Hne).
  rewrite (refreshAccessToken_run jwt_verify generateAccessToken generateRefreshToken
             production req tok db Hin Hne) in H.
  destruct (jwt_verify tok) as [msg|uid] eqn:Hv.
  { injection H as <- <-. split; [reflexivity|]. right. left. eauto. }
  destruct (find (has_user_id uid) (users db)) as [u|] eqn:Hu.
  - destruct (strict_neq tok (User.refreshToken u)); [|discriminate].
    injection H as <- <-. split; [reflexivity|]. right. right. eauto.
  - injection H as <- <-. split; [reflexivity|]. right. right. eauto.
Qed.

Lemma refreshAccessToken_failure_witness :
  Sample.db = Sample.db
  /\ ((Js.truthy (js_or None (Some "forged")) = false
       /\ ApiError 403 "invalid signature" = ApiError 401 "unauthorized request")
      \/ (exists tok msg,
             js_or None (Some "forged") = Some tok
             /\ Sample.jwt_verify tok = inl msg
             /\ ApiError 403 "invalid signature"
                = ApiError 403 (default_to "Invalid refresh token" (js_or (Some msg) None)))
      \/ (exists tok uid,
             js_or None (Some "forged") = Some tok
             /\ Sample.jwt_verify tok = inr uid
             /\ ApiError 403 "invalid signature" = ApiError 500 "Invalid refresh token")).
Proof.
  apply (refreshAccessToken_failure Sample.jwt_verify Sample.generateAccessToken
           Sample.generateRefreshToken true (mkRefreshRequest None (Some "forged"))
           Sample.db Sample.db (ApiError 403 "invalid signature")).
  reflexivity.
Defined.

(** X7.  After a logout no refresh token is accepted for the account: a
    refresh with any token that names it fails and issues nothing. *)
Theorem logout_revokes_refresh
        (jwt_verify : string -> string + ObjectId)
        (generateAccessToken generateRefreshToken : User.t -> string)
        (production : bool) (uid : ObjectId) (req : RefreshRequest)
        (tok : string) (db : DB) :
  js_or (cookies_refreshToken req) (body_refreshToken req) = Some tok ->
  tok <> "" ->
  jwt_verify tok = inr uid ->
  exists r db1,
    logout production (Some uid) db = (Returned r, db1)
    /\ r_status r = 200
    /\ map fst (r_cleared r) = ["refreshToken"; "accessToken"]
    /\ refreshAccessToken jwt_verify generateAccessToken generateRefreshToken
                          production req db1
       = (Thrown (ApiError 500 "Invalid refresh token"), db1).
Proof.
  intros Hin Hne Hv. eexists. eexists. split; [reflexivity|].
  split; [reflexivity|]. split; [reflexivity|].
  rewrite (refreshAccessToken_run jwt_verify generateAccessToken generateRefreshToken
             production req tok _ Hin Hne).
  rewrite Hv. cbn [users set_users].
  rewrite (find_update_first_key User.t (has_user_id uid) (User.set_refreshToken None));
    [|reflexivity].
  destruct (find (has_user_id uid) (users db)); reflexivity.
Qed.

Lemma logout_revokes_refresh_witness :
  exists r db1,
    logout true (Some 1) Sample.db = (Returned r, db1)
    /\ r_status r = 200
    /\ map fst (r_cleared r) = ["refreshToken"; "accessToken"]
    /\ refreshAccessToken Sample.jwt_verify Sample.generateAccessToken
                          Sample.generateRefreshToken true
                          (mkRefreshRequest (Some "refresh.alice.2") None) db1
       = (Thrown (ApiError 500 "Invalid refresh token"), db1).
Proof.
  apply (logout_revokes_refresh Sample.jwt_verify Sample.generateAccessToken
           Sample.generateRefreshToken true 1
           (mkRefreshRequest (Some "refresh.alice.2") None) "refresh.alice.2" Sample.db).
  - reflexivity.
  - discriminate.
  - reflexivity.
Defined.


(** ** Account maintenance *)

(** X8.  changeCurrentPassword either throws and writes nothing, or stores
    the hash of the new password on the requester's record and nothing
    else: the users collection is the old one with that one record
    replaced, every other account is found as before, the videos, the
    subscriptions and the next free id are untouched, and the refresh token
    of the requester stays, so the sessions opened before the change remain
    valid. *)
Theorem changeCurrentPassword_outcome
        (isPasswordMatched : User.t -> string -> bool)
        (hashPassword : string -> string)
        (requester : option ObjectId) (oldPassword newPassword : option string)
        (db db' : DB) (o : Outcome (Reply NoData)) :
  changeCurrentPassword isPasswordMatched hashPassword requester
                        oldPassword newPassword db = (o, db') ->
  match o with
  | Thrown _ => db' = db
  | Returned r =>
      exists uid u old new,
        requester = Some uid /\ oldPassword = Some old /\ newPassword = Some new
        /\ old <> new
        /\ find (has_user_id uid) (users db) = Some u
        /\ isPasswordMatched u old = true
        /\ users db'
           = update_first (has_user_id uid)
                          (fun _ => User_with_password (hashPassword new) u) (users db)
        /\ find (has_user_id uid) (users db')
           = Some (User_with_password (hashPassword new) u)
        /\ (forall j, j <> uid ->
            find (has_user_id j) (users db') = find (has_user_id j) (users db))
        /\ User.refreshToken (User_with_password (hashPassword new) u)
           = User.refreshToken u
        /\ videos db' = videos db /\ subscriptions db' = subscriptions db
        /\ next_id db' = next_id db
        /\ r_status r = 200
  end.
Proof.
  unfold changeCurrentPassword.
  destruct (negb (Js.truthy oldPassword) || negb (Js.truthy newPassword)) eqn:Hreq.
  { intros H. injection H as <- <-. reflexivity. }
  apply orb_false_iff in Hreq. destruct Hreq as [Ho Hn].
  destruct oldPassword as [old|]; [|discriminate].
  destruct newPassword as [new|]; [|discriminate].
  destruct requester as [uid|]; unfold User_findById_optional, User_findById; run.
  2:{ intros H. injection H as <- <-. reflexivity. }
  destruct (find (has_user_id uid) (users db)) as [u|] eqn:Hu.
  2:{ intros H. injection H as <- <-. reflexivity. }
  destruct (isPasswordMatched u old) eqn:Hpw.
  2:{ intros H. injection H as <- <-. reflexivity. }
  destruct (String.eqb_spec old new) as [E|E].
  { intros H. injection H as <- <-. reflexivity. }
  unfold User_save. run. intros H. injection H as <- <-.
  cbn [users videos subscriptions next_id].
  pose proof (find_user_id uid (users db) u Hu) as Hid.
  simpl User._id. rewrite Hid.
  exists uid, u, old, new.
  split; [reflexivity|]. split; [reflexivity|]. split; [reflexivity|].
  split; [exact E|]. split; [exact Hu|]. split; [exact Hpw|].
  split; [reflexivity|].
  split; [apply (find_after_token uid (users db) u _ Hu); exact Hid|].
  split; [intros j Hj; apply User_save_keeps_others; [exact Hid|exact Hj]|].
  repeat split.
Qed.

Lemma changeCurrentPassword_outcome_witness :
  exists uid u old new,
    Some 1 = Some uid /\ Some "pw-a" = Some old /\ Some "pw-z" = Some new
    /\ old <> new
    /\ find (has_user_id uid) (users Sample.db) = Some u
    /\ Fixture.isPasswordMatched u old = true
    /\ [User_with_password "bcrypt:pw-z" Sample.alice; Sample.bob]
       = update_first (has_user_id uid)
                      (fun _ => User_with_password (Sample.hashPassword new) u)
                      (users Sample.db)
    /\ find (has_user_id uid)
            [User_with_password "bcrypt:pw-z" Sample.alice; Sample.bob]
       = Some (User_with_password (Sample.hashPassword new) u)
    /\ (forall j, j <> uid ->
        find (has_user_id j)
             [User_with_password "bcrypt:pw-z" Sample.alice; Sample.bob]
        = find (has_user_id j) (users Sample.db))
    /\ User.refreshToken (User_with_password (Sample.hashPassword new) u)
       = User.refreshToken u
    /\ videos Sample.db = videos Sample.db
    /\ subscriptions Sample.db = subscriptions Sample.db
    /\ next_id Sample.db = next_id Sample.db
    /\ 200 = 200.
Proof.
  apply (changeCurrentPassword_outcome Fixture.isPasswordMatched Sample.hashPassword
           (Some 1) (Some "pw-a") (Some "pw-z") Sample.db
           (set_users [User_with_password "bcrypt:pw-z" Sample.alice; Sample.bob] Sample.db)
           (Returned (reply 200 "Password changed successfully" None))).
  reflexivity.
Defined.

Lemma In_update_first_hit (A : Type) (p : A -> bool) (f : A -> A) (l : list A) (x : A) :
  In x (update_first p f l) ->
  In x l \/ exists y, In y l /\ p y = true /\ x = f y.
Proof.
  induction l as [|y r IH]; simpl; [tauto|].
  destruct (p y) eqn:Hy; simpl.
  - intros [<-|H]; [right; exists y; auto|auto].
  - intros [<-|H]; [auto|].
    destruct (IH H) as [H'|(z & Hz & Hp & ->)]; [auto|right; exists z; auto].
Qed.

(** Rewriting the first match keeps a projection free of repetition when
    the new value is the old one or is carried by no element. *)
Lemma NoDup_map_update_first (A B : Type) (proj : A -> B) (p : A -> bool)
      (g : A -> A) (l : list A) :
  NoDup (map proj l) ->
  (forall y, In y l -> p y = true ->
             proj (g y) = proj y \/ forall x, In x l -> proj x <> proj (g y)) ->
  NoDup (map proj (update_first p g l)).
Proof.
  induction l as [|y r IH]; simpl; intros Hnd Hg; [constructor|].
  inversion Hnd as [|? ? Hy Hr]; subst.
  destruct (p y) eqn:Hp; simpl.
  - constructor; [|exact Hr].
    destruct (Hg y (or_introl eq_refl) Hp) as [E|Hno].
    + now rewrite E.
    + intros Hin. apply in_map_iff in Hin. destruct Hin as (x & Ex & Hx).
      exact (Hno x (or_intror Hx) Ex).
  - constructor.
    + intros Hin. apply in_map_iff in Hin. destruct Hin as (z & Ez & Hz).
      apply In_update_first_hit in Hz. destruct Hz as [Hz|(w & Hw & Hpw & ->)].
      * apply Hy. rewrite <- Ez. now apply in_map.
      * destruct (Hg w (or_intror Hw) Hpw) as [E|Hno].
        -- apply Hy. rewrite <- Ez, E. now apply in_map.
        -- exact (Hno y (or_introl eq_refl) (eq_sym Ez)).
    + apply IH; [exact Hr|].
      intros w Hw Hpw. destruct (Hg w (or_intror Hw) Hpw) as [E|Hno]; [now left|].
      right. intros x Hx. apply Hno. now right.
Qed.

Lemma NoDup_map_injective (A B : Type) (proj : A -> B) (l : list A) (x y : A) :
  NoDup (map proj l) -> In x l -> In y l -> proj x = proj y -> x = y.
Proof.
  induction l as [|z r IH]; simpl; intros Hnd Hx Hy E; [contradiction|].
  inversion Hnd as [|? ? Hz Hr]; subst.
  destruct Hx as [<-|Hx], Hy as [<-|Hy]; auto.
  - exfalso. apply Hz. rewrite E. now apply in_map.
  - exfalso. apply Hz. rewrite <- E. now apply in_map.
Qed.

(** One uniqueness check: it writes nothing, throws only the conflict
    error, and lets a new value through only when no stored account
    carries it, or the first account that does has the requester's id. *)
Lemma checked_field_run
      (value : option string) (current : string) (proj : User.t -> string)
      (findOne : option string -> Handler (option User.t))
      (user : User.t) (taken : string) (db db' : DB) (o : Outcome (option string)) :
  (forall q d, findOne q d
               = (Returned (find (fun u => field_matches q (proj u)) (users d)), d)) ->
  checked_field value current findOne user taken db = (o, db') ->
  db' = db
  /\ match o with
     | Thrown e => e = ApiError 400 taken
     | Returned None => True
     | Returned (Some v) =>
         value = Some v /\ v <> current
         /\ (find (fun u => field_matches (Some v) (proj u)) (users db) = None
             \/ exists x, find (fun u => field_matches (Some v) (proj u)) (users db) = Some x
                          /\ User._id x = User._id user)
     end.
Proof.
  intros Hfind. unfold checked_field.
  destruct (Js.truthy value && strict_neq current value) eqn:Hc.
  2:{ intros H. injection H as <- <-. auto. }
  apply andb_true_iff in Hc. destruct Hc as [Ht Hs].
  destruct value as [v|]; [|discriminate].
  unfold strict_neq in Hs. apply negb_true_iff in Hs.
  assert (Hne : v <> current).
  { intros ->. rewrite String.eqb_refl in Hs. discriminate. }
  run. rewrite Hfind.
  destruct (find (fun u => field_matches (Some v) (proj u)) (users db)) as [x|] eqn:Hx.
  - destruct (User._id x =? User._id user) eqn:Hid; simpl.
    + intros H. injection H as <- <-. split; [reflexivity|].
      split; [reflexivity|]. split; [exact Hne|].
      right. exists x. split; [exact Hx|]. now apply N.eqb_eq.
    + intros H. injection H as <- <-. auto.
  - intros H. injection H as <- <-. split; [reflexivity|].
    split; [reflexivity|]. split; [exact Hne|]. left. exact Hx.
Qed.

(** The value that a passed check lets through is carried by no stored
    account, provided ids and the checked field are free of repetition. *)
Lemma checked_value_is_free
      (proj : User.t -> string) (l : list User.t) (user : User.t) (v : string) :
  NoDup (map User._id l) ->
  NoDup (map proj l) ->
  In user l ->
  v <> proj user ->
  (find (fun u => field_matches (Some v) (proj u)) l = None
   \/ exists x, find (fun u => field_matches (Some v) (proj u)) l = Some x
                /\ User._id x = User._id user) ->
  forall x, In x l -> proj x <> v.
Proof.
  intros Hid Hproj Hin Hne [Hnone|(x0 & Hx0 & Hsame)] x Hx E.
  - pose proof (find_none _ _ Hnone x Hx) as Hf. simpl in Hf.
    rewrite E, String.eqb_refl in Hf. discriminate.
  - apply find_some in Hx0. destruct Hx0 as [Hin0 Hm]. simpl in Hm.
    apply String.eqb_eq in Hm.
    assert (x0 = user) by (apply (NoDup_map_injective _ _ User._id l); auto).
    subst x0. now apply Hne.
Qed.

(** The store after updateUserAccountDetails, whatever the outcome. *)
Lemma updateUserAccountDetails_run
      (requester : option ObjectId) (email fullName username : option string)
      (db db' : DB) (o : Outcome (Reply UserView)) :
  updateUserAccountDetails requester email fullName username db = (o, db') ->
  db' = db
  \/ exists uid user f,
       requester = Some uid
       /\ find (has_user_id uid) (users db) = Some user
       /\ db' = set_users (update_first (has_user_id uid) (apply_fields f) (users db)) db
       /\ (forall v, af_email f = Some v ->
                     v <> User.email user
                     /\ (find (fun u => field_matches (Some v) (User.email u)) (users db)
                         = None
                         \/ exists x,
                             find (fun u => field_matches (Some v) (User.email u))
                                  (users db) = Some x
                             /\ User._id x = User._id user))
       /\ (forall v, af_username f = Some v ->
                     v <> User.username user
                     /\ (find (fun u => field_matches (Some v) (User.username u)) (users db)
                         = None
                         \/ exists x,
                             find (fun u => field_matches (Some v) (User.username u))
                                  (users db) = Some x
                             /\ User._id x = User._id user)).
Proof.
  unfold updateUserAccountDetails.
  destruct (negb (Js.truthy fullName) && negb (Js.truthy email) && negb (Js.truthy username)).
  { intros H. injection H as _ <-. now left. }
  destruct requester as [uid|].
  2:{ intros H. injection H as _ <-. now left. }
  unfold User_findById. run.
  destruct (find (has_user_id uid) (users db)) as [user|] eqn:Hu.
  2:{ intros H. injection H as _ <-. now left. }
  destruct (checked_field email (User.email user) User_findOne_email user
                          "Email already in use" db) as [oe dbe] eqn:He.
  apply (checked_field_run email (User.email user) User.email) in He; [|reflexivity].
  destruct He as [-> He].
  destruct oe as [newEmail|e].
  2:{ intros H. injection H as _ <-. now left. }
  destruct (checked_field username (User.username user) User_findOne_username user
                          "Username already in use" db) as [ou dbu] eqn:Hn.
  apply (checked_field_run username (User.username user) User.username) in Hn;
    [|reflexivity].
  destruct Hn as [-> Hn].
  destruct ou as [newUsername|e].
  2:{ intros H. injection H as _ <-. now left. }
  unfold User_findByIdAndUpdate_set. run. rewrite Hu. run.
  intros H. injection H as _ <-. right.
  exists uid, user. eexists. split; [reflexivity|]. split; [exact Hu|].
  split; [reflexivity|]. cbn [af_email af_username]. split.
  - intros v ->. destruct He as (_ & Hne & Hfree). auto.
  - intros v ->. destruct Hn as (_ & Hne & Hfree). auto.
Qed.

(** X9.  updateUserAccountDetails keeps the accounts distinct: if no two
    stored accounts share an id, an email or a username before the call,
    none do after it, whatever the request and whatever the outcome. *)
Theorem updateUserAccountDetails_keeps_accounts_distinct
        (requester : option ObjectId) (email fullName username : option string)
        (db db' : DB) (o : Outcome (Reply UserView)) :
  distinct_accounts (users db) ->
  updateUserAccountDetails requester email fullName username db = (o, db') ->
  distinct_accounts (users db').
Proof.
  intros (Hid & Hmail & Hname) Hrun.
  apply updateUserAccountDetails_run in Hrun.
  destruct Hrun as [->|(uid & user & f & _ & Hu & -> & Hfe & Hfn)];
    [repeat split; assumption|].
  cbn [users set_users].
  assert (Hin : In user (users db)) by (apply (find_some _ _ Hu)).
  assert (Hsame : forall y, In y (users db) -> has_user_id uid y = true -> y = user).
  { intros y Hy Hp. apply (NoDup_map_injective _ _ User._id (users db)); auto.
    unfold has_user_id in Hp. apply N.eqb_eq in Hp.
    now rewrite Hp, (find_user_id uid (users db) user Hu). }
  repeat split.
  - apply NoDup_map_update_first; [exact Hid|]. intros y _ _. now left.
  - apply NoDup_map_update_first; [exact Hmail|]. intros y Hy Hp.
    rewrite (Hsame y Hy Hp). simpl.
    destruct (af_email f) as [v|] eqn:Ev; [|now left]. right. simpl.
    destruct (Hfe v eq_refl) as [Hne Hfree].
    apply (checked_value_is_free User.email (users db) user v); auto.
  - apply NoDup_map_update_first; [exact Hname|]. intros y Hy Hp.
    rewrite (Hsame y Hy Hp). simpl.
    destruct (af_username f) as [v|] eqn:Ev; [|now left]. right. simpl.
    destruct (Hfn v eq_refl) as [Hne Hfree].
    apply (checked_value_is_free User.username (users db) user v); auto.
Qed.

Lemma updateUserAccountDetails_keeps_accounts_distinct_witness :
  distinct_accounts (users Sample.db)
  /\ distinct_accounts
       (users (snd (updateUserAccountDetails (Some 1) (Some "alice@example.net") None
                                             (Some "Alice") Sample.db))).
Proof.
  assert (H : distinct_accounts (users Sample.db)).
  { repeat split; simpl; repeat constructor; simpl; intuition discriminate. }
  split; [exact H|].
  apply (updateUserAccountDetails_keeps_accounts_distinct
           (Some 1) (Some "alice@example.net") None (Some "Alice") Sample.db _
           (fst (updateUserAccountDetails (Some 1) (Some "alice@example.net") None
                                          (Some "Alice") Sample.db)) H).
  reflexivity.
Defined.


(** X10.  Whatever the request and the outcome, updateUserAccountDetails
    leaves the videos and the subscriptions alone, leaves every account but
    the requester's as it was, and on the requester's account keeps the id,
    the password hash, the refresh token, the avatar, the cover image and
    the watch history. *)
Theorem updateUserAccountDetails_touches_only_profile
        (requester : option ObjectId) (email fullName username : option string)
        (db db' : DB) (o : Outcome (Reply UserView)) :
  updateUserAccountDetails requester email fullName username db = (o, db') ->
  videos db' = videos db
  /\ subscriptions db' = subscriptions db
  /\ forall j u,
       find (has_user_id j) (users db) = Some u ->
       exists u',
         find (has_user_id j) (users db') = Some u'
         /\ User._id u' = User._id u
         /\ User.password u' = User.password u
         /\ User.refreshToken u' = User.refreshToken u
         /\ User.avatar u' = User.avatar u
         /\ User.coverImage u' = User.coverImage u
         /\ User.watchHistory u' = User.watchHistory u
         /\ (requester <> Some j -> u' = u).
Proof.
  intros Hrun. apply updateUserAccountDetails_run in Hrun.
  destruct Hrun as [->|(uid & user & f & -> & Hu & -> & _)].
  { repeat split. intros j u Hj. exists u. repeat split; auto. }
  cbn [users videos subscriptions set_users]. repeat split.
  intros j u Hj. destruct (N.eq_dec j uid) as [->|Hne].
  - exists (apply_fields f u).
    rewrite (find_update_first_key User.t (has_user_id uid) (apply_fields f));
      [|reflexivity].
    rewrite Hj. repeat split. intros H. now contradiction H.
  - exists u. rewrite find_update_first_other; [|reflexivity|].
    + repeat split; auto.
    + unfold has_user_id. intros x Hx. apply N.eqb_eq in Hx. rewrite Hx.
      apply N.eqb_neq. auto.
Qed.

Lemma updateUserAccountDetails_touches_only_profile_witness :
  videos (snd (updateUserAccountDetails (Some 1) (Some "alice@example.net") None
                                        (Some "Alice") Sample.db))
  = videos Sample.db
  /\ find (has_user_id 2)
          (users (snd (updateUserAccountDetails (Some 1) (Some "alice@example.net") None
                                                (Some "Alice") Sample.db)))
     = Some Sample.bob.
Proof.
  destruct (updateUserAccountDetails_touches_only_profile
              (Some 1) (Some "alice@example.net") None (Some "Alice") Sample.db
              (snd (updateUserAccountDetails (Some 1) (Some "alice@example.net") None
                                             (Some "Alice") Sample.db))
              (fst (updateUserAccountDetails (Some 1) (Some "alice@example.net") None
                                             (Some "Alice") Sample.db))
              eq_refl) as (Hv & _ & Hu).
  split; [exact Hv|].
  destruct (Hu 2 Sample.bob eq_refl) as (u' & Hf & _ & _ & _ & _ & _ & _ & Hsame).
  rewrite Hf. f_equal. apply Hsame. discriminate.
Defined.

(** ** Images of an account *)

(** X11.  updateUserAvatar asks the media host to delete the old avatar
    before it knows that the replacement exists: when the upload yields no
    URL the handler throws, the store still holds the old avatar URL, and
    the deletion of that avatar has been requested. *)
Theorem updateUserAvatar_failed_upload
        (uploadOnCloudinary : string -> option UploadResult)
        (req_user : User.t) (f : File) (w : World) :
  path f <> "" ->
  (uploadOnCloudinary (path f) = None
   \/ exists r, uploadOnCloudinary (path f) = Some r /\ url r = "") ->
  exists e,
    updateUserAvatar uploadOnCloudinary req_user (Some f) w
    = (Thrown e,
       mkWorld (w_db w)
               (w_deleted w ++ [Some (public_id (User.avatar req_user))])).
Proof.
  intros Hp Hup. unfold updateUserAvatar. cbv zeta. cbn [option_map].
  rewrite (truthy_Some (path f) Hp). runm.
  destruct Hup as [->|(r & -> & Hr)].
  - eexists. reflexivity.
  - rewrite Hr. eexists. reflexivity.
Qed.

Lemma updateUserAvatar_failed_upload_witness :
  exists e,
    updateUserAvatar Fixture.failingUpload Sample.alice
                     (Some (mkFile "public/temp/new.png")) Fixture.world
    = (Thrown e, mkWorld Fixture.db [Some "a"]).
Proof.
  apply (updateUserAvatar_failed_upload Fixture.failingUpload Sample.alice
           (mkFile "public/temp/new.png") Fixture.world).
  - discriminate.
  - right. eexists. split; reflexivity.
Defined.

(** X12.  Whenever updateUserCoverImage succeeds, a file was sent, the media
    host returned a non-empty URL for its path, and the requester's record
    with that URL as cover image is what is stored in place of the old
    record and what the reply carries: the whole stored document, with the
    password hash and the refresh token of the account.  The old cover
    image, when there was one, is the one deletion requested from the media
    host. *)
Theorem updateUserCoverImage_reply_is_stored_document
        (uploadOnCloudinary : string -> option UploadResult)
        (requester : option ObjectId) (file : option File)
        (w w' : World) (r : Reply User.t) :
  updateUserCoverImage uploadOnCloudinary requester file w = (Returned r, w') ->
  exists uid u u' f up,
    requester = Some uid
    /\ find (has_user_id uid) (users (w_db w)) = Some u
    /\ file = Some f
    /\ uploadOnCloudinary (path f) = Some up
    /\ url up <> ""
    /\ u' = User_with_coverImage (Some (url up)) u
    /\ e_data (r_json r) = Some u'
    /\ users (w_db w')
       = update_first (has_user_id uid) (fun _ => u') (users (w_db w))
    /\ find (has_user_id uid) (users (w_db w')) = Some u'
    /\ User.password u' = User.password u
    /\ User.refreshToken u' = User.refreshToken u
    /\ User.coverImage u' = Some (url up)
    /\ w_deleted w'
       = (if Js.truthy (User.coverImage u)
          then w_deleted w ++ [option_map public_id (User.coverImage u)]
          else w_deleted w)%list.
Proof.
  unfold updateUserCoverImage. cbv zeta.
  destruct (negb (Js.truthy (option_map path file))) eqn:Hfile; [discriminate|].
  destruct file as [f|]; [|discriminate]. cbn [option_map default_to].
  destruct requester as [uid|]; unfold User_findById_optional, User_findById; runm;
    [|discriminate].
  destruct (find (has_user_id uid) (users (w_db w))) as [u|] eqn:Hu; [|discriminate].
  pose proof (find_user_id uid _ u Hu) as Hid.
  assert (Hstored : forall c,
             find (has_user_id uid)
                  (update_first
                     (has_user_id uid)
                     (fun _ => User_with_coverImage (Some (url c)) u)
                     (users (w_db w)))
             = Some (User_with_coverImage (Some (url c)) u)).
  { intros c. apply (find_after_token uid _ u _ Hu). exact Hid. }
  destruct (Js.truthy (User.coverImage u)) eqn:Hcov; runm;
    (destruct (uploadOnCloudinary (path f)) as [c|] eqn:Hup; [|discriminate]);
    (destruct (String.eqb_spec (url c) "") as [|Hc]; [discriminate|]);
    unfold User_save; runm; intros H; injection H as <- <-;
    exists uid, u, (User_with_coverImage (Some (url c)) u), f, c;
    cbn [e_data r_json w_db w_deleted users];
    simpl User._id; rewrite Hid, Hstored, ?Hcov; repeat split; auto.
Qed.

Lemma updateUserCoverImage_reply_is_stored_document_witness :
  exists uid u u' f up,
    Some 1 = Some uid
    /\ find (has_user_id uid) (users Fixture.db) = Some u
    /\ Some (mkFile "public/temp/c.png") = Some f
    /\ Sample.uploadOnCloudinary (path f) = Some up
    /\ url up <> ""
    /\ u' = User_with_coverImage (Some (url up)) u
    /\ Some (User_with_coverImage (Some "https://media.example/public/temp/c.png")
                                  Sample.alice) = Some u'
    /\ [User_with_coverImage (Some "https://media.example/public/temp/c.png")
                             Sample.alice; Sample.bob]
       = update_first (has_user_id uid) (fun _ => u') (users Fixture.db)
    /\ find (has_user_id uid)
            [User_with_coverImage (Some "https://media.example/public/temp/c.png")
                                  Sample.alice; Sample.bob] = Some u'
    /\ User.password u' = User.password u
    /\ User.refreshToken u' = User.refreshToken u
    /\ User.coverImage u' = Some (url up)
    /\ @nil (option string)
       = (if Js.truthy (User.coverImage u)
          then [] ++ [option_map public_id (User.coverImage u)]
          else [])%list.
Proof.
  apply (updateUserCoverImage_reply_is_stored_document Sample.uploadOnCloudinary
           (Some 1) (Some (mkFile "public/temp/c.png")) Fixture.world
           (mkWorld (set_users
                       [User_with_coverImage
                          (Some "https://media.example/public/temp/c.png") Sample.alice;
                        Sample.bob] Fixture.db) [])
           (reply 200 "user cover image updated successfully"
                  (Some (User_with_coverImage
                           (Some "https://media.example/public/temp/c.png")
                           Sample.alice)))).
  reflexivity.
Defined.


(** ** Publishing and maintaining videos *)

Lemma find_app_new (A : Type) (p : A -> bool) (l : list A) (x : A) :
  find p l = None -> p x = true -> find p (l ++ [x]) = Some x.
Proof.
  intros Hl Hx. induction l as [|y r IH]; simpl in *.
  - now rewrite Hx.
  - destruct (p y); [discriminate|]. now apply IH.
Qed.

Lemma find_fresh_video (id : ObjectId) (l : list Video.t) :
  (forall v, In v l -> Video._id v <> id) -> find (has_video_id id) l = None.
Proof.
  intros H. induction l as [|y r IH]; simpl; [reflexivity|].
  unfold has_video_id at 1. destruct (N.eqb_spec (Video._id y) id) as [E|_].
  - exfalso. exact (H y (or_introl eq_refl) E).
  - apply IH. intros v Hv. apply H. now right.
Qed.

(** What a successful publishAVideo returns and stores. *)
Lemma publishAVideo_returned
        (uploadOnCloudinary : string -> option UploadResult)
        (castBoolean : string -> option bool)
        (requester : option ObjectId) (title description isPublished : option string)
        (files : option VideoFiles) (db db' : DB) (r : Reply Video.t) :
  publishAVideo uploadOnCloudinary castBoolean requester title description
                isPublished files db = (Returned r, db') ->
  exists v,
    e_data (r_json r) = Some v
    /\ videos db' = (videos db ++ [v])%list
    /\ users db' = users db /\ subscriptions db' = subscriptions db
    /\ Video._id v = next_id db
    /\ requester = Some (Video.owner v)
    /\ Video.views v = 0
    /\ title = Some (Video.title v) /\ description = Some (Video.description v)
    /\ Video.thumbnail v <> "" /\ Video.videoFile v <> ""
    /\ (isPublished = None -> Video.isPublished v = true).
Proof.
  unfold publishAVideo.
  destruct (negb (Js.truthy title) || negb (Js.truthy description)) eqn:Hreq;
    [discriminate|].
  apply orb_false_iff in Hreq. destruct Hreq as [Ht Hd].
  destruct title as [t|]; [|discriminate].
  destruct description as [d|]; [|discriminate].
  unfold first_file.
  destruct files as [fs|]; run; [|discriminate].
  destruct (vf_thumbnail fs) as [[|tf ?]|]; run; try discriminate;
    destruct (vf_videoFile fs) as [[|vf ?]|]; run; try discriminate.
  destruct (uploadOnCloudinary (path tf)) as [th|]; [|discriminate].
  destruct (String.eqb_spec (url th) "") as [|Hth]; [discriminate|].
  destruct (uploadOnCloudinary (path vf)) as [vu|]; [|discriminate].
  destruct (String.eqb_spec (url vu) "") as [|Hvu]; [discriminate|].
  unfold Video_create. run. cbn [vi_owner vi_isPublished].
  destruct requester as [owner|]; [|destruct isPublished as [s|];
                                    [destruct (castBoolean s)|]; discriminate].
  destruct isPublished as [s|].
  - destruct (castBoolean s) as [b|]; [|discriminate].
    intros H. injection H as <- <-. eexists. cbn.
    repeat split; auto. discriminate.
  - intros H. injection H as <- <-. eexists. cbn.
    repeat split; auto.
Qed.

(** X13.  Whenever publishAVideo succeeds, exactly one video was appended
    to the collection: it has the next free id, belongs to the requester,
    has no views and the title and description of the request.  Its
    thumbnail is the URL the media host returned for the first thumbnail
    file, its video file the URL returned for the first video file, its
    duration the one reported for that upload, and neither URL is empty.
    It is published unless the request said otherwise, in which case it has
    the boolean the field casts to. *)
Theorem publishAVideo_success
        (uploadOnCloudinary : string -> option UploadResult)
        (castBoolean : string -> option bool)
        (requester : option ObjectId) (title description isPublished : option string)
        (files : option VideoFiles) (db db' : DB) (r : Reply Video.t) :
  publishAVideo uploadOnCloudinary castBoolean requester title description
                isPublished files db = (Returned r, db') ->
  exists v fs tf tl vf vl th vu,
    e_data (r_json r) = Some v
    /\ videos db' = (videos db ++ [v])%list
    /\ users db' = users db /\ subscriptions db' = subscriptions db
    /\ next_id db' = next_id db + 1
    /\ Video._id v = next_id db
    /\ requester = Some (Video.owner v)
    /\ Video.views v = 0
    /\ title = Some (Video.title v) /\ description = Some (Video.description v)
    /\ files = Some fs
    /\ vf_thumbnail fs = Some (tf :: tl) /\ vf_videoFile fs = Some (vf :: vl)
    /\ uploadOnCloudinary (path tf) = Some th
    /\ uploadOnCloudinary (path vf) = Some vu
    /\ Video.thumbnail v = url th /\ Video.videoFile v = url vu
    /\ Video.duration v = upload_duration vu
    /\ Video.thumbnail v <> "" /\ Video.videoFile v <> ""
    /\ match isPublished with
       | None => Video.isPublished v = true
       | Some s => castBoolean s = Some (Video.isPublished v)
       end.
Proof.
  unfold publishAVideo.
  destruct (negb (Js.truthy title) || negb (Js.truthy description)) eqn:Hreq;
    [discriminate|].
  apply orb_false_iff in Hreq. destruct Hreq as [Ht Hd].
  destruct title as [t|]; [|discriminate].
  destruct description as [d|]; [|discriminate].
  unfold first_file.
  destruct files as [fs|]; run; [|discriminate].
  destruct (vf_thumbnail fs) as [[|tf tl]|] eqn:Htf; run; try discriminate;
    destruct (vf_videoFile fs) as [[|vf vl]|] eqn:Hvf; run; try discriminate.
  destruct (uploadOnCloudinary (path tf)) as [th|] eqn:Hup1; [|discriminate].
  destruct (String.eqb_spec (url th) "") as [|Hth]; [discriminate|].
  destruct (uploadOnCloudinary (path vf)) as [vu|] eqn:Hup2; [|discriminate].
  destruct (String.eqb_spec (url vu) "") as [|Hvu]; [discriminate|].
  unfold Video_create. run. cbn [vi_owner vi_isPublished].
  destruct requester as [owner|]; [|destruct isPublished as [s|];
                                    [destruct (castBoolean s)|]; discriminate].
  destruct isPublished as [s|].
  - destruct (castBoolean s) as [b|] eqn:Hb; [|discriminate].
    intros H. injection H as <- <-.
    eexists; exists fs, tf, tl, vf, vl, th, vu. cbn.
    repeat split; auto.
  - intros H. injection H as <- <-.
    eexists; exists fs, tf, tl, vf, vl, th, vu. cbn.
    repeat split; auto.
Qed.

Lemma publishAVideo_success_witness :
  exists v fs tf tl vf vl th vu,
    Some (Video.mk 33 "Trip" "a trip" 0 "https://media.example/public/temp/t.png"
                   "https://media.example/public/temp/v.mp4" 1 0 true) = Some v
    /\ [Sample.draft; Fixture.clip;
        Video.mk 33 "Trip" "a trip" 0 "https://media.example/public/temp/t.png"
                 "https://media.example/public/temp/v.mp4" 1 0 true]
       = (videos Fixture.db ++ [v])%list
    /\ users Fixture.db = users Fixture.db
    /\ subscriptions Fixture.db = subscriptions Fixture.db
    /\ 34 = next_id Fixture.db + 1
    /\ Video._id v = next_id Fixture.db
    /\ Some 1 = Some (Video.owner v)
    /\ Video.views v = 0
    /\ Some "Trip" = Some (Video.title v) /\ Some "a trip" = Some (Video.description v)
    /\ Fixture.upload = Some fs
    /\ vf_thumbnail fs = Some (tf :: tl) /\ vf_videoFile fs = Some (vf :: vl)
    /\ Sample.uploadOnCloudinary (path tf) = Some th
    /\ Sample.uploadOnCloudinary (path vf) = Some vu
    /\ Video.thumbnail v = url th /\ Video.videoFile v = url vu
    /\ Video.duration v = upload_duration vu
    /\ Video.thumbnail v <> "" /\ Video.videoFile v <> ""
    /\ Video.isPublished v = true.
Proof.
  apply (publishAVideo_success Sample.uploadOnCloudinary Fixture.castBoolean
           (Some 1) (Some "Trip") (Some "a trip") None Fixture.upload Fixture.db
           (mkDB (users Fixture.db)
                 [Sample.draft; Fixture.clip;
                  Video.mk 33 "Trip" "a trip" 0 "https://media.example/public/temp/t.png"
                           "https://media.example/public/temp/v.mp4" 1 0 true]
                 (subscriptions Fixture.db) 34)
           (reply 200 "Video published successfully"
                  (Some (Video.mk 33 "Trip" "a trip" 0
                                  "https://media.example/public/temp/t.png"
                                  "https://media.example/public/temp/v.mp4" 1 0 true)))).
  reflexivity.
Defined.

(** X14.  A video that was just published can be fetched by anyone, and
    the first fetch shows one view: publish, then get under the id the
    video received, returns 200 with a view counter of 1. *)
Theorem publishAVideo_then_getSingleVideo
        (uploadOnCloudinary : string -> option UploadResult)
        (castBoolean : string -> option bool)
        (castObjectId : string -> option ObjectId)
        (requester viewer : option ObjectId)
        (title description isPublished : option string)
        (files : option VideoFiles) (videoId : string)
        (db db1 : DB) (r : Reply Video.t) :
  publishAVideo uploadOnCloudinary castBoolean requester title description
                isPublished files db = (Returned r, db1) ->
  castObjectId videoId = Some (next_id db) ->
  (forall v, In v (videos db) -> Video._id v <> next_id db) ->
  exists r2 db2 pv,
    getSingleVideo castObjectId viewer videoId db1 = (Returned r2, db2)
    /\ status r2 = 200
    /\ data (json r2) = Some (PVideo pv)
    /\ e_data (r_json r) = Some (Video.set_views 0 (pv_video pv))
    /\ Video.views (pv_video pv) = 1.
Proof.
  intros Hpub Hcast Hfresh.
  destruct (publishAVideo_returned uploadOnCloudinary castBoolean requester title
              description isPublished files db db1 r Hpub)
    as (v & Hdata & Hvideos & _ & _ & Hid & _ & Hviews & _).
  assert (Hfind : find (has_video_id (next_id db)) (videos db1) = Some v).
  { rewrite Hvideos. apply find_app_new.
    - now apply find_fresh_video.
    - unfold has_video_id. rewrite Hid. apply N.eqb_refl. }
  rewrite (getSingleVideo_found castObjectId viewer videoId (next_id db) db1 v Hcast Hfind).
  eexists. eexists. eexists. split; [reflexivity|].
  split; [reflexivity|]. split; [reflexivity|].
  cbn [pv_video]. unfold bump_views. split.
  - rewrite Hdata. f_equal. destruct v. simpl in *. now subst.
  - simpl. now rewrite Hviews.
Qed.

Lemma publishAVideo_then_getSingleVideo_witness :
  exists r2 db2 pv,
    getSingleVideo Sample.castObjectId None "000000000000000000000021"
                   (snd (publishAVideo Sample.uploadOnCloudinary Fixture.castBoolean
                                       (Some 1) (Some "Trip") (Some "a trip") None
                                       Fixture.upload Fixture.db))
    = (Returned r2, db2)
    /\ status r2 = 200
    /\ data (json r2) = Some (PVideo pv)
    /\ Some (Video.mk 33 "Trip" "a trip" 0 "https://media.example/public/temp/t.png"
                      "https://media.example/public/temp/v.mp4" 1 0 true)
       = Some (Video.set_views 0 (pv_video pv))
    /\ Video.views (pv_video pv) = 1.
Proof.
  apply (publishAVideo_then_getSingleVideo
           Sample.uploadOnCloudinary Fixture.castBoolean Sample.castObjectId
           (Some 1) None (Some "Trip") (Some "a trip") None Fixture.upload
           "000000000000000000000021" Fixture.db _
           (reply 200 "Video published successfully"
                  (Some (Video.mk 33 "Trip" "a trip" 0
                                  "https://media.example/public/temp/t.png"
                                  "https://media.example/public/temp/v.mp4" 1 0 true)))).
  - reflexivity.
  - reflexivity.
  - intros v [<-|[<-|[]]]; discriminate.
Defined.

Lemma update_first_undo (A : Type) (p : A -> bool) (l : list A) (x y : A) :
  find p l = Some x -> p y = true ->
  update_first p (fun _ => x) (update_first p (fun _ => y) l) = l.
Proof.
  intros Hx Hy. induction l as [|z r IH]; simpl in *; [discriminate|].
  destruct (p z) eqn:Hz; simpl.
  - rewrite Hy. now injection Hx as ->.
  - rewrite Hz. now rewrite IH.
Qed.

Lemma In_update_first_found (A : Type) (p : A -> bool) (f : A -> A) (l : list A) (x : A) :
  find p l = Some x -> In (f x) (update_first p f l).
Proof.
  induction l as [|z r IH]; simpl; [discriminate|].
  destruct (p z).
  - intros H. injection H as ->. now left.
  - intros H. right. now apply IH.
Qed.

(** One toggle of the publish flag by the owner. *)
Lemma togglePublishStatus_by_owner
      (castObjectId : string -> option ObjectId)
      (videoId : string) (vid : ObjectId) (db : DB) (v : Video.t) :
  castObjectId videoId = Some vid ->
  find (has_video_id vid) (videos db) = Some v ->
  let v' := Video_with_isPublished (negb (Video.isPublished v)) v in
  togglePublishStatus castObjectId (Some (Video.owner v)) videoId db
  = (Returned (reply 200 "Video status updated successfully" (Some v')),
     set_videos (update_first (has_video_id vid) (fun _ => v') (videos db)) db).
Proof.
  intros Hcast Hv v'. unfold togglePublishStatus, Video_findById, check_owner, Video_save.
  rewrite Hcast. run. rewrite Hv. run. rewrite N.eqb_refl. run.
  simpl Video._id. rewrite (find_video_id vid (videos db) v Hv). reflexivity.
Qed.

(** X15.  The owner's publish toggle is an involution: the first call flips
    the flag of the stored video, the second restores the video and with it
    the whole store. *)
Theorem togglePublishStatus_twice
        (castObjectId : string -> option ObjectId)
        (videoId : string) (vid : ObjectId) (db : DB) (v : Video.t) :
  castObjectId videoId = Some vid ->
  find (has_video_id vid) (videos db) = Some v ->
  exists r1 db1 v1 r2,
    togglePublishStatus castObjectId (Some (Video.owner v)) videoId db = (Returned r1, db1)
    /\ find (has_video_id vid) (videos db1) = Some v1
    /\ Video.isPublished v1 = negb (Video.isPublished v)
    /\ togglePublishStatus castObjectId (Some (Video.owner v)) videoId db1
       = (Returned r2, db)
    /\ e_data (r_json r2) = Some v.
Proof.
  intros Hcast Hv.
  pose (v1 := Video_with_isPublished (negb (Video.isPublished v)) v).
  assert (Hid : has_video_id vid v1 = true).
  { unfold has_video_id. simpl. rewrite (find_video_id vid (videos db) v Hv).
    apply N.eqb_refl. }
  assert (Hv1 : find (has_video_id vid)
                     (update_first (has_video_id vid) (fun _ => v1) (videos db)) = Some v1).
  { exact (find_update_first_hit Video.t (has_video_id vid) (fun _ => v1)
             (videos db) v Hv Hid). }
  assert (Hback : Video_with_isPublished (negb (Video.isPublished v1)) v1 = v).
  { destruct v. unfold v1. simpl. now rewrite negb_involutive. }
  eexists. eexists. exists v1. eexists.
  split; [apply (togglePublishStatus_by_owner castObjectId videoId vid db v Hcast Hv)|].
  cbn [videos set_videos]. split; [exact Hv1|]. split; [reflexivity|].
  pose proof (togglePublishStatus_by_owner castObjectId videoId vid
                (set_videos (update_first (has_video_id vid) (fun _ => v1) (videos db)) db)
                v1 Hcast Hv1) as H2.
  cbv zeta in H2. rewrite Hback in H2. cbn [videos set_videos] in H2.
  rewrite (update_first_undo Video.t (has_video_id vid) (videos db) v v1 Hv Hid) in H2.
  change (Video.owner v1) with (Video.owner v) in H2.
  split; [eapply eq_trans; [exact H2|];
          apply f_equal2; [reflexivity|destruct db; reflexivity]|].
  reflexivity.
Qed.

Lemma togglePublishStatus_twice_witness :
  exists r1 db1 v1 r2,
    togglePublishStatus Sample.castObjectId (Some (Video.owner Fixture.clip))
                        Fixture.clip_id Fixture.db = (Returned r1, db1)
    /\ find (has_video_id 17) (videos db1) = Some v1
    /\ Video.isPublished v1 = negb (Video.isPublished Fixture.clip)
    /\ togglePublishStatus Sample.castObjectId (Some (Video.owner Fixture.clip))
                           Fixture.clip_id db1 = (Returned r2, Fixture.db)
    /\ e_data (r_json r2) = Some Fixture.clip.
Proof.
  apply (togglePublishStatus_twice Sample.castObjectId Fixture.clip_id 17
           Fixture.db Fixture.clip); reflexivity.
Defined.

(** X16.  A requester who is not the owner of a stored video is refused by
    updateVideo, deleteVideo and togglePublishStatus alike, whatever the
    request carries, and nothing is written: the collections are as before
    and no deletion is requested from the media host.  deleteVideo and
    togglePublishStatus answer 403.  updateVideo looks at the body first:
    it answers 400 when the title or the description is missing or empty,
    and 403 otherwise. *)
Theorem non_owner_is_refused
        (uploadOnCloudinary : string -> option UploadResult)
        (castObjectId : string -> option ObjectId)
        (uid : ObjectId) (videoId : string) (vid : ObjectId)
        (title description : option string) (files : option VideoFiles)
        (w : World) (v : Video.t) :
  castObjectId videoId = Some vid ->
  find (has_video_id vid) (videos (w_db w)) = Some v ->
  Video.owner v <> uid ->
  updateVideo uploadOnCloudinary castObjectId (Some uid) videoId
              title description files w
  = (Thrown (if negb (Js.truthy title) || negb (Js.truthy description)
             then ApiError 400 "All fields are required"
             else ApiError 403 "You are not authorized to update this video"), w)
  /\ deleteVideo castObjectId (Some uid) videoId w
     = (Thrown (ApiError 403 "You are not authorized to update this video"), w)
  /\ togglePublishStatus castObjectId (Some uid) videoId (w_db w)
     = (Thrown (ApiError 403 "You are not authorized to update this video"), w_db w).
Proof.
  intros Hcast Hv Hown.
  apply N.eqb_neq in Hown.
  unfold updateVideo, deleteVideo, togglePublishStatus, Video_findById, check_owner.
  rewrite Hcast.
  split.
  - destruct (negb (Js.truthy title) || negb (Js.truthy description));
      [reflexivity|].
    runm. rewrite Hv. runm. rewrite Hown. runm. destruct w; reflexivity.
  - split; runm; rewrite Hv; runm; rewrite Hown; runm;
      try (destruct w); reflexivity.
Qed.

Lemma non_owner_is_refused_witness :
  (updateVideo Sample.uploadOnCloudinary Sample.castObjectId (Some 1) Sample.draft_id
               (Some "Mine now") (Some "taken over") Fixture.upload Fixture.world
   = (Thrown (ApiError 403 "You are not authorized to update this video"), Fixture.world)
   /\ deleteVideo Sample.castObjectId (Some 1) Sample.draft_id Fixture.world
      = (Thrown (ApiError 403 "You are not authorized to update this video"), Fixture.world)
   /\ togglePublishStatus Sample.castObjectId (Some 1) Sample.draft_id Fixture.db
      = (Thrown (ApiError 403 "You are not authorized to update this video"), Fixture.db))
  /\ (updateVideo Sample.uploadOnCloudinary Sample.castObjectId (Some 1) Sample.draft_id
                  (Some "Mine now") None Fixture.upload Fixture.world
      = (Thrown (ApiError 400 "All fields are required"), Fixture.world)
      /\ deleteVideo Sample.castObjectId (Some 1) Sample.draft_id Fixture.world
         = (Thrown (ApiError 403 "You are not authorized to update this video"),
            Fixture.world)
      /\ togglePublishStatus Sample.castObjectId (Some 1) Sample.draft_id Fixture.db
         = (Thrown (ApiError 403 "You are not authorized to update this video"),
            Fixture.db)).
Proof.
  split.
  - apply (non_owner_is_refused Sample.uploadOnCloudinary Sample.castObjectId 1
             Sample.draft_id 16 (Some "Mine now") (Some "taken over") Fixture.upload
             Fixture.world Sample.draft).
    + reflexivity.
    + reflexivity.
    + discriminate.
  - apply (non_owner_is_refused Sample.uploadOnCloudinary Sample.castObjectId 1
             Sample.draft_id 16 (Some "Mine now") None Fixture.upload
             Fixture.world Sample.draft).
    + reflexivity.
    + reflexivity.
    + discriminate.
Defined.


Lemma find_remove_first_same (A : Type) (B : Type) (key : A -> B) (p : A -> bool)
      (l : list A) :
  NoDup (map key l) ->
  (forall x y, p x = true -> p y = true -> key x = key y) ->
  find p (remove_first p l) = None.
Proof.
  intros Hnd Hp. induction l as [|z r IH]; simpl; [reflexivity|].
  inversion Hnd as [|? ? Hz Hr]; subst.
  destruct (p z) eqn:Ez.
  - destruct (find p r) as [y|] eqn:Hy; [|reflexivity].
    exfalso. apply find_some in Hy. destruct Hy as [Hin Hy].
    apply Hz. rewrite (Hp z y Ez Hy). now apply in_map.
  - simpl. rewrite Ez. now apply IH.
Qed.

Lemma find_remove_first_other (A : Type) (p q : A -> bool) (l : list A) :
  (forall x, p x = true -> q x = false) ->
  find q (remove_first p l) = find q l.
Proof.
  intros Hpq. induction l as [|z r IH]; simpl; [reflexivity|].
  destruct (p z) eqn:Ez; simpl.
  - now rewrite (Hpq z Ez).
  - now rewrite IH.
Qed.

(** What deleteVideo does for the owner of a stored video. *)
Lemma deleteVideo_by_owner
      (castObjectId : string -> option ObjectId)
      (videoId : string) (vid : ObjectId) (w : World) (v : Video.t) :
  castObjectId videoId = Some vid ->
  find (has_video_id vid) (videos (w_db w)) = Some v ->
  deleteVideo castObjectId (Some (Video.owner v)) videoId w
  = (Returned (reply 200 "Video deleted successfully" None),
     mkWorld (set_videos (remove_first (has_video_id vid) (videos (w_db w))) (w_db w))
             ((w_deleted w ++ [Some (public_id (Video.thumbnail v))])
                ++ [Some (public_id (Video.videoFile v))])).
Proof.
  intros Hcast Hv.
  unfold deleteVideo, Video_findById, check_owner, Video_findByIdAndDelete.
  rewrite Hcast. runm. rewrite Hv. runm. rewrite N.eqb_refl. runm. reflexivity.
Qed.

(** X17.  When the owner deletes a video of a collection without repeated
    ids, the media host is asked to delete the thumbnail and then the video
    file, the record is gone, every other video is where it was, and the
    accounts are untouched, their watch histories included. *)
Theorem deleteVideo_removes_record_and_media
        (castObjectId : string -> option ObjectId)
        (videoId : string) (vid : ObjectId) (w : World) (v : Video.t) :
  castObjectId videoId = Some vid ->
  find (has_video_id vid) (videos (w_db w)) = Some v ->
  NoDup (map Video._id (videos (w_db w))) ->
  exists r w',
    deleteVideo castObjectId (Some (Video.owner v)) videoId w = (Returned r, w')
    /\ r_status r = 200
    /\ w_deleted w' = (w_deleted w ++ [Some (public_id (Video.thumbnail v));
                                       Some (public_id (Video.videoFile v))])%list
    /\ find (has_video_id vid) (videos (w_db w')) = None
    /\ (forall j, j <> vid ->
                  find (has_video_id j) (videos (w_db w'))
                  = find (has_video_id j) (videos (w_db w)))
    /\ users (w_db w') = users (w_db w).
Proof.
  intros Hcast Hv Hnd. eexists. eexists.
  split; [apply (deleteVideo_by_owner castObjectId videoId vid w v Hcast Hv)|].
  cbn [r_status reply w_deleted w_db videos users set_videos].
  split; [reflexivity|]. split; [now rewrite <- app_assoc|]. split; [|split].
  - apply (find_remove_first_same Video.t ObjectId Video._id); [exact Hnd|].
    unfold has_video_id. intros x y Hx Hy.
    apply N.eqb_eq in Hx, Hy. congruence.
  - intros j Hj. apply find_remove_first_other.
    unfold has_video_id. intros x Hx. apply N.eqb_eq in Hx. rewrite Hx.
    apply N.eqb_neq. auto.
  - reflexivity.
Qed.

Lemma deleteVideo_removes_record_and_media_witness :
  exists r w',
    deleteVideo Sample.castObjectId (Some (Video.owner Fixture.clip)) Fixture.clip_id
                Fixture.world = (Returned r, w')
    /\ r_status r = 200
    /\ w_deleted w' = (w_deleted Fixture.world ++ [Some "c"; Some "c"])%list
    /\ find (has_video_id 17) (videos (w_db w')) = None
    /\ (forall j, j <> 17 ->
                  find (has_video_id j) (videos (w_db w'))
                  = find (has_video_id j) (videos (w_db Fixture.world)))
    /\ users (w_db w') = users (w_db Fixture.world).
Proof.
  apply (deleteVideo_removes_record_and_media Sample.castObjectId Fixture.clip_id 17
           Fixture.world Fixture.clip).
  - reflexivity.
  - reflexivity.
  - simpl. repeat constructor; simpl; intuition discriminate.
Defined.

(** X18.  Once the owner's publish toggle has hidden a published video,
    the owner's list of unpublished videos contains it. *)
Theorem togglePublishStatus_then_unisPublishedVideos
        (castObjectId : string -> option ObjectId)
        (videoId : string) (vid : ObjectId) (db : DB) (v : Video.t) :
  castObjectId videoId = Some vid ->
  find (has_video_id vid) (videos db) = Some v ->
  Video.isPublished v = true ->
  exists r1 db1 r2 listed,
    togglePublishStatus castObjectId (Some (Video.owner v)) videoId db = (Returned r1, db1)
    /\ unisPublishedVideos (Some (Video.owner v)) db1 = (Returned r2, db1)
    /\ e_data (r_json r2) = Some listed
    /\ In (Video_with_isPublished false v) listed
    /\ (forall x, In x listed ->
                  Video.owner x = Video.owner v /\ Video.isPublished x = false).
Proof.
  intros Hcast Hv Hpub. eexists. eexists. eexists. eexists.
  split; [apply (togglePublishStatus_by_owner castObjectId videoId vid db v Hcast Hv)|].
  unfold unisPublishedVideos. run. split; [reflexivity|].
  split; [reflexivity|]. rewrite Hpub. cbn [negb]. split.
  - apply filter_In. split.
    + exact (In_update_first_found Video.t (has_video_id vid)
               (fun _ => Video_with_isPublished false v) (videos db) v Hv).
    + simpl. now rewrite N.eqb_refl.
  - intros x Hx. apply filter_In in Hx. destruct Hx as [_ Hx].
    apply andb_true_iff in Hx. destruct Hx as [Ho Hp].
    apply N.eqb_eq in Ho. apply negb_true_iff in Hp. auto.
Qed.

Lemma togglePublishStatus_then_unisPublishedVideos_witness :
  exists r1 db1 r2 listed,
    togglePublishStatus Sample.castObjectId (Some (Video.owner Fixture.clip))
                        Fixture.clip_id Fixture.db = (Returned r1, db1)
    /\ unisPublishedVideos (Some (Video.owner Fixture.clip)) db1 = (Returned r2, db1)
    /\ e_data (r_json r2) = Some listed
    /\ In (Video_with_isPublished false Fixture.clip) listed
    /\ (forall x, In x listed ->
                  Video.owner x = Video.owner Fixture.clip /\ Video.isPublished x = false).
Proof.
  apply (togglePublishStatus_then_unisPublishedVideos Sample.castObjectId
           Fixture.clip_id 17 Fixture.db Fixture.clip); reflexivity.
Defined.

(** X19.  Whenever updateVideo succeeds the requester owns the video, and
    the stored video differs from the one before in its title, its
    description and, when a thumbnail was uploaded, its thumbnail: id,
    owner, view counter, publish flag, duration and video file are kept.
    The media host is asked to delete the old thumbnail exactly when a new
    one was uploaded. *)
Theorem updateVideo_success
        (uploadOnCloudinary : string -> option UploadResult)
        (castObjectId : string -> option ObjectId)
        (requester : option ObjectId) (videoId : string)
        (title description : option string) (files : option VideoFiles)
        (w w' : World) (r : Reply Video.t) :
  updateVideo uploadOnCloudinary castObjectId requester videoId
              title description files w = (Returned r, w') ->
  exists vid v v',
    castObjectId videoId = Some vid
    /\ find (has_video_id vid) (videos (w_db w)) = Some v
    /\ requester = Some (Video.owner v)
    /\ e_data (r_json r) = Some v'
    /\ find (has_video_id vid) (videos (w_db w')) = Some v'
    /\ title = Some (Video.title v') /\ description = Some (Video.description v')
    /\ Video._id v' = Video._id v /\ Video.owner v' = Video.owner v
    /\ Video.views v' = Video.views v /\ Video.isPublished v' = Video.isPublished v
    /\ Video.duration v' = Video.duration v /\ Video.videoFile v' = Video.videoFile v
    /\ users (w_db w') = users (w_db w)
    /\ match optional_thumbnail files with
       | None => Video.thumbnail v' = Video.thumbnail v /\ w_deleted w' = w_deleted w
       | Some _ =>
           w_deleted w' = (w_deleted w ++ [Some (public_id (Video.thumbnail v))])%list
       end.
Proof.
  unfold updateVideo.
  destruct (negb (Js.truthy title) || negb (Js.truthy description)) eqn:Hreq;
    [discriminate|].
  apply orb_false_iff in Hreq. destruct Hreq as [Ht Hd].
  destruct title as [t|]; [|discriminate].
  destruct description as [d|]; [|discriminate].
  destruct (castObjectId videoId) as [vid|]; [|discriminate].
  unfold Video_findById, check_owner, Video_save. runm.
  destruct (find (has_video_id vid) (videos (w_db w))) as [v|] eqn:Hv; [|discriminate].
  destruct requester as [uid|]; runm; [|discriminate].
  destruct (N.eqb_spec (Video.owner v) uid) as [<-|]; runm; [|discriminate].
  assert (Hstored : forall v',
             Video._id v' = Video._id v ->
             find (has_video_id vid)
                  (update_first (has_video_id (Video._id v)) (fun _ => v')
                                (videos (w_db w))) = Some v').
  { intros v' Hid. rewrite (find_video_id vid _ v Hv).
    apply (find_update_first_hit Video.t (has_video_id vid) (fun _ => v') _ v Hv).
    unfold has_video_id. rewrite Hid, (find_video_id vid _ v Hv). apply N.eqb_refl. }
  destruct (optional_thumbnail files) as [f|]; runm.
  - destruct (uploadOnCloudinary (path f)) as [th|]; [|discriminate].
    destruct (url th =? "")%string; [discriminate|]. runm.
    intros H. injection H as <- <-. exists vid, v. eexists.
    cbn [e_data r_json w_db w_deleted videos users].
    rewrite Hstored; [|reflexivity]. repeat split; first [reflexivity|exact Hv].
  - intros H. injection H as <- <-. exists vid, v. eexists.
    cbn [e_data r_json w_db w_deleted videos users].
    rewrite Hstored; [|reflexivity]. repeat split; first [reflexivity|exact Hv].
Qed.

Lemma updateVideo_success_witness :
  exists vid v v',
    Sample.castObjectId Fixture.clip_id = Some vid
    /\ find (has_video_id vid) (videos (w_db Fixture.world)) = Some v
    /\ Some 1 = Some (Video.owner v)
    /\ Some (Video_with_text "Clip 2" "recut" Fixture.clip) = Some v'
    /\ find (has_video_id vid)
            [Sample.draft; Video_with_text "Clip 2" "recut" Fixture.clip] = Some v'
    /\ Some "Clip 2" = Some (Video.title v') /\ Some "recut" = Some (Video.description v')
    /\ Video._id v' = Video._id v /\ Video.owner v' = Video.owner v
    /\ Video.views v' = Video.views v /\ Video.isPublished v' = Video.isPublished v
    /\ Video.duration v' = Video.duration v /\ Video.videoFile v' = Video.videoFile v
    /\ users Fixture.db = users (w_db Fixture.world)
    /\ (Video.thumbnail v' = Video.thumbnail v /\ @nil (option string) = w_deleted Fixture.world).
Proof.
  apply (updateVideo_success Sample.uploadOnCloudinary Sample.castObjectId (Some 1)
           Fixture.clip_id (Some "Clip 2") (Some "recut") None Fixture.world
           (mkWorld (set_videos [Sample.draft; Video_with_text "Clip 2" "recut" Fixture.clip]
                                Fixture.db) [])
           (reply 200 "Video updated successfully"
                  (Some (Video_with_text "Clip 2" "recut" Fixture.clip)))).
  reflexivity.
Defined.

(** X20.  getAllTheVideos accepts a sort type whatever its letter case and
    refuses every other one first: a [sortType] that does not lower-case to
    asc or desc fails with 400 "Invalid sort type" whatever the other query
    parameters, and nothing is read or written. *)
Theorem getAllTheVideos_invalid_sortType
        (castObjectId : string -> option ObjectId)
        (Video_paginate : DB -> SearchQuery -> PageOptions -> PageResult)
        (q : VideosQuery) (sortType : string) (db : DB) :
  q_sortType q = Some sortType ->
  Js.toLowerCase sortType <> "asc" ->
  Js.toLowerCase sortType <> "desc" ->
  getAllTheVideos castObjectId Video_paginate q db
  = (Thrown (ApiError 400 "Invalid sort type"), db).
Proof.
  intros Hq Ha Hd. unfold getAllTheVideos. rewrite Hq. cbn [default_to].
  unfold Js.includes. cbn [existsb].
  destruct (String.eqb_spec (Js.toLowerCase sortType) "asc"); [contradiction|].
  destruct (String.eqb_spec (Js.toLowerCase sortType) "desc"); [contradiction|].
  reflexivity.
Qed.

Lemma getAllTheVideos_invalid_sortType_witness :
  getAllTheVideos Sample.castObjectId Sample.Video_paginate
                  (mkVideosQuery (Some "2") None None (Some "up") None (Some Sample.bob_id))
                  Sample.db
  = (Thrown (ApiError 400 "Invalid sort type"), Sample.db).
Proof.
  apply (getAllTheVideos_invalid_sortType Sample.castObjectId Sample.Video_paginate
           (mkVideosQuery (Some "2") None None (Some "up") None (Some Sample.bob_id))
           "up" Sample.db).
  - reflexivity.
  - discriminate.
  - discriminate.
Defined.


(** ** The subscription graph *)

Lemma remove_first_app_new (A : Type) (p : A -> bool) (l : list A) (x : A) :
  (forall y, In y l -> p y = false) -> p x = true ->
  remove_first p (l ++ [x]) = l.
Proof.
  intros Hl Hx. induction l as [|z r IH]; simpl.
  - now rewrite Hx.
  - rewrite (Hl z (or_introl eq_refl)). f_equal. apply IH.
    intros y Hy. apply Hl. now right.
Qed.

Lemma existsb_app_new (A : Type) (p : A -> bool) (l : list A) (x : A) :
  existsb p (l ++ [x]) = existsb p l || p x.
Proof.
  rewrite existsb_app. simpl. now rewrite orb_false_r.
Qed.

(** X21.  Two toggles in a row by a subscriber who did not follow the
    channel, on a store whose subscription ids are below the next free id:
    the first creates the edge, the second deletes that very edge and
    reports false, and the set of subscriptions is what it was. *)
Theorem toggleSubscription_twice
        (castObjectId : string -> option ObjectId)
        (sub : ObjectId) (channelId : string) (chan : ObjectId) (db : DB) :
  castObjectId channelId = Some chan ->
  has_edge sub chan db = false ->
  (forall s, In s (subscriptions db) -> Subscription._id s < next_id db) ->
  exists r1 db1 r2 db2,
    toggleSubscription castObjectId (Some sub) channelId db = (Returned r1, db1)
    /\ has_edge sub chan db1 = true
    /\ toggleSubscription castObjectId (Some sub) channelId db1 = (Returned r2, db2)
    /\ data (json r2) = Some (PBool false)
    /\ subscriptions db2 = subscriptions db
    /\ users db2 = users db /\ videos db2 = videos db.
Proof.
  intros Hcast He Hfresh.
  assert (Hnone := has_edge_find sub chan db He).
  assert (Hsome :
            find (fun s => (Subscription.subscriber s =? sub)
                           && (Subscription.channel s =? chan))
                 (subscriptions db ++ [Subscription.mk (next_id db) sub chan])
            = Some (Subscription.mk (next_id db) sub chan)).
  { apply find_app_new; [exact Hnone|]. simpl. now rewrite !N.eqb_refl. }
  eexists. eexists. eexists. eexists. split.
  { unfold toggleSubscription, Subscription_findOne, Subscription_create.
    rewrite Hcast. run. rewrite Hnone. reflexivity. }
  split.
  { unfold has_edge. cbn [subscriptions].
    rewrite existsb_app_new. simpl. rewrite !N.eqb_refl. apply orb_true_r. }
  split.
  { unfold toggleSubscription, Subscription_findOne, Subscription_findByIdAndDelete.
    rewrite Hcast. run. rewrite Hsome. reflexivity. }
  split; [reflexivity|]. cbn [subscriptions users videos]. split; [|split; reflexivity].
  apply remove_first_app_new.
  - intros y Hy. unfold has_subscription_id. simpl. apply N.eqb_neq.
    specialize (Hfresh y Hy). lia.
  - unfold has_subscription_id. simpl. apply N.eqb_refl.
Qed.

Lemma toggleSubscription_twice_witness :
  exists r1 db1 r2 db2,
    toggleSubscription Sample.castObjectId (Some 2) Fixture.alice_id Sample.db
    = (Returned r1, db1)
    /\ has_edge 2 1 db1 = true
    /\ toggleSubscription Sample.castObjectId (Some 2) Fixture.alice_id db1
       = (Returned r2, db2)
    /\ data (json r2) = Some (PBool false)
    /\ subscriptions db2 = subscriptions Sample.db
    /\ users db2 = users Sample.db /\ videos db2 = videos Sample.db.
Proof.
  apply (toggleSubscription_twice Sample.castObjectId 2 Fixture.alice_id 1 Sample.db).
  - reflexivity.
  - reflexivity.
  - intros s [<-|[]]. reflexivity.
Defined.

Lemma filter_none (A : Type) (l : list A) : filter (fun _ => false) l = [].
Proof. induction l; simpl; auto. Qed.

(** The reply of the two listing pipelines, without the case distinction on
    an empty aggregate. *)
Lemma first_or_empty_counted (matches : Subscription.t -> bool)
      (other : Subscription.t -> ObjectId) (db : DB) :
  first_or_empty (counted_accounts matches other db)
  = mkCounted (N.of_nat (length (filter matches (subscriptions db))))
              (map account_card
                   (filter (fun u => existsb (N.eqb (User._id u))
                                             (map other (filter matches (subscriptions db))))
                           (users db))).
Proof.
  unfold counted_accounts.
  destruct (filter matches (subscriptions db)) as [|s r]; [|reflexivity].
  simpl. now rewrite filter_none.
Qed.

Lemma subscriber_among_edges (i chan : ObjectId) (l : list Subscription.t) :
  existsb (N.eqb i)
          (map Subscription.subscriber (filter (fun s => Subscription.channel s =? chan) l))
  = existsb (edge_between i chan) l.
Proof.
  induction l as [|s r IH]; simpl; [reflexivity|].
  unfold edge_between at 1.
  destruct (Subscription.channel s =? chan); simpl.
  - now rewrite IH, (N.eqb_sym i), andb_true_r.
  - now rewrite IH, andb_false_r.
Qed.

Lemma channel_among_edges (i sub : ObjectId) (l : list Subscription.t) :
  existsb (N.eqb i)
          (map Subscription.channel (filter (fun s => Subscription.subscriber s =? sub) l))
  = existsb (edge_between sub i) l.
Proof.
  induction l as [|s r IH]; simpl; [reflexivity|].
  unfold edge_between at 1.
  destruct (Subscription.subscriber s =? sub); simpl.
  - now rewrite IH, (N.eqb_sym i).
  - now rewrite IH.
Qed.

(** X22.  getUserChannelSubscribers writes nothing; its count is the number
    of stored edges into the channel, and the accounts it lists are exactly
    the stored users with an edge to the channel, each once per record. *)
Theorem getUserChannelSubscribers_lists_subscribers
        (castObjectId : string -> option ObjectId)
        (channelId : string) (db db' : DB) (r : Reply Counted) :
  getUserChannelSubscribers castObjectId channelId db = (Returned r, db') ->
  exists chan c,
    castObjectId channelId = Some chan
    /\ db' = db
    /\ e_data (r_json r) = Some c
    /\ count c
       = N.of_nat (length (filter (fun s => Subscription.channel s =? chan)
                                  (subscriptions db)))
    /\ accounts c
       = map account_card
             (filter (fun u => has_edge (User._id u) chan db) (users db)).
Proof.
  unfold getUserChannelSubscribers.
  destruct (castObjectId channelId) as [chan|]; [|discriminate].
  run. intros H. injection H as <- <-.
  exists chan. eexists. split; [reflexivity|]. split; [reflexivity|].
  cbn [e_data r_json]. split; [reflexivity|].
  rewrite first_or_empty_counted. cbn [count accounts]. split; [reflexivity|].
  f_equal. apply filter_ext. intros u. apply subscriber_among_edges.
Qed.

Lemma getUserChannelSubscribers_lists_subscribers_witness :
  exists chan c,
    Sample.castObjectId Sample.bob_id = Some chan
    /\ Sample.db = Sample.db
    /\ Some (mkCounted 1 [account_card Sample.alice]) = Some c
    /\ count c
       = N.of_nat (length (filter (fun s => Subscription.channel s =? chan)
                                  (subscriptions Sample.db)))
    /\ accounts c
       = map account_card
             (filter (fun u => has_edge (User._id u) chan Sample.db) (users Sample.db)).
Proof.
  apply (getUserChannelSubscribers_lists_subscribers Sample.castObjectId Sample.bob_id
           Sample.db Sample.db
           (reply 200 "Subscribers fetched" (Some (mkCounted 1 [account_card Sample.alice])))).
  reflexivity.
Defined.

(** X23.  getSubscribedChannels is the mirror image: its count is the
    number of stored edges out of the subscriber, and it lists exactly the
    stored users that the subscriber has an edge to. *)
Theorem getSubscribedChannels_lists_channels
        (castObjectId : string -> option ObjectId)
        (subscriberId : string) (db db' : DB) (r : Reply Counted) :
  getSubscribedChannels castObjectId subscriberId db = (Returned r, db') ->
  exists sub c,
    castObjectId subscriberId = Some sub
    /\ db' = db
    /\ e_data (r_json r) = Some c
    /\ count c
       = N.of_nat (length (filter (fun s => Subscription.subscriber s =? sub)
                                  (subscriptions db)))
    /\ accounts c
       = map account_card
             (filter (fun u => has_edge sub (User._id u) db) (users db)).
Proof.
  unfold getSubscribedChannels.
  destruct (castObjectId subscriberId) as [sub|]; [|discriminate].
  run. intros H. injection H as <- <-.
  exists sub. eexists. split; [reflexivity|]. split; [reflexivity|].
  cbn [e_data r_json]. split; [reflexivity|].
  rewrite first_or_empty_counted. cbn [count accounts]. split; [reflexivity|].
  f_equal. apply filter_ext. intros u. apply channel_among_edges.
Qed.

Lemma getSubscribedChannels_lists_channels_witness :
  exists sub c,
    Sample.castObjectId Fixture.alice_id = Some sub
    /\ Sample.db = Sample.db
    /\ Some (mkCounted 1 [account_card Sample.bob]) = Some c
    /\ count c
       = N.of_nat (length (filter (fun s => Subscription.subscriber s =? sub)
                                  (subscriptions Sample.db)))
    /\ accounts c
       = map account_card
             (filter (fun u => has_edge sub (User._id u) Sample.db) (users Sample.db)).
Proof.
  apply (getSubscribedChannels_lists_channels Sample.castObjectId Fixture.alice_id
           Sample.db Sample.db
           (reply 200 "Subscribed channels fetched"
                  (Some (mkCounted 1 [account_card Sample.bob])))).
  reflexivity.
Defined.


(** X24.  Subscribing shows in the subscriber list of the channel: after a
    toggle by a subscriber who had no edge to the channel, the count of
    getUserChannelSubscribers is one higher than before, and the subscriber
    is listed if their record is stored. *)
Theorem toggleSubscription_then_getUserChannelSubscribers
        (castObjectId : string -> option ObjectId)
        (sub : ObjectId) (channelId : string) (chan : ObjectId) (db : DB) :
  castObjectId channelId = Some chan ->
  has_edge sub chan db = false ->
  exists r1 db1 c0 c1,
    toggleSubscription castObjectId (Some sub) channelId db = (Returned r1, db1)
    /\ getUserChannelSubscribers castObjectId channelId db
       = (Returned (reply 200 "Subscribers fetched" (Some c0)), db)
    /\ getUserChannelSubscribers castObjectId channelId db1
       = (Returned (reply 200 "Subscribers fetched" (Some c1)), db1)
    /\ count c1 = count c0 + 1
    /\ (forall u, In u (users db) -> User._id u = sub ->
                  In (account_card u) (accounts c1)).
Proof.
  intros Hcast He.
  assert (Hnone := has_edge_find sub chan db He).
  eexists. eexists. eexists. eexists. split.
  { unfold toggleSubscription, Subscription_findOne, Subscription_create.
    rewrite Hcast. run. rewrite Hnone. reflexivity. }
  unfold getUserChannelSubscribers. rewrite Hcast. run.
  split; [reflexivity|]. split; [reflexivity|].
  rewrite !first_or_empty_counted. cbn [count accounts subscriptions users]. split.
  - rewrite filter_app, length_app. simpl. rewrite N.eqb_refl. simpl. lia.
  - intros u Hu Hid. apply in_map. apply filter_In. split; [exact Hu|].
    rewrite subscriber_among_edges, existsb_app_new.
    unfold edge_between at 2. simpl. rewrite Hid, !N.eqb_refl. apply orb_true_r.
Qed.

Lemma toggleSubscription_then_getUserChannelSubscribers_witness :
  exists r1 db1 c0 c1,
    toggleSubscription Sample.castObjectId (Some 2) Fixture.alice_id Sample.db
    = (Returned r1, db1)
    /\ getUserChannelSubscribers Sample.castObjectId Fixture.alice_id Sample.db
       = (Returned (reply 200 "Subscribers fetched" (Some c0)), Sample.db)
    /\ getUserChannelSubscribers Sample.castObjectId Fixture.alice_id db1
       = (Returned (reply 200 "Subscribers fetched" (Some c1)), db1)
    /\ count c1 = count c0 + 1
    /\ (forall u, In u (users Sample.db) -> User._id u = 2 ->
                  In (account_card u) (accounts c1)).
Proof.
  apply (toggleSubscription_then_getUserChannelSubscribers Sample.castObjectId 2
           Fixture.alice_id 1 Sample.db); reflexivity.
Defined.

(** X25.  The two counts of a channel profile agree with the two listing
    endpoints: for the channel that getUserChannelProfile returns,
    [subscribersCount] is the count of getUserChannelSubscribers and
    [subscribedToCount] the count of getSubscribedChannels on its id. *)
Theorem channel_profile_counts_agree
        (castObjectId : string -> option ObjectId)
        (requester : option ObjectId) (username : option string) (channelId : string)
        (db db' : DB) (r : Response) (c : ChannelProfile) :
  getUserChannelProfile requester username db = (Returned r, db') ->
  data (json r) = Some (PChannel c) ->
  castObjectId channelId = Some (uv_id (cp_user c)) ->
  exists c1 c2,
    getUserChannelSubscribers castObjectId channelId db
    = (Returned (reply 200 "Subscribers fetched" (Some c1)), db)
    /\ count c1 = subscribersCount c
    /\ getSubscribedChannels castObjectId channelId db
       = (Returned (reply 200 "Subscribed channels fetched" (Some c2)), db)
    /\ count c2 = subscribedToCount c.
Proof.
  unfold getUserChannelProfile.
  destruct (negb (Js.truthy (option_map Js.trim username))); [discriminate|].
  run.
  destruct (filter (fun u => field_matches username (User.username u)) (users db))
    as [|u l]; simpl; [discriminate|].
  intros H Hd Hcast. injection H as <- _. simpl in Hd. injection Hd as <-.
  simpl in Hcast.
  unfold getUserChannelSubscribers, getSubscribedChannels. rewrite Hcast. run.
  eexists. eexists. split; [reflexivity|].
  rewrite !first_or_empty_counted. cbn [count]. split; [reflexivity|].
  split; reflexivity.
Qed.

Lemma channel_profile_counts_agree_witness :
  exists c1 c2,
    getUserChannelSubscribers Sample.castObjectId Sample.bob_id Sample.db
    = (Returned (reply 200 "Subscribers fetched" (Some c1)), Sample.db)
    /\ count c1 = subscribersCount (channel_profile (Some 1) Sample.db Sample.bob)
    /\ getSubscribedChannels Sample.castObjectId Sample.bob_id Sample.db
       = (Returned (reply 200 "Subscribed channels fetched" (Some c2)), Sample.db)
    /\ count c2 = subscribedToCount (channel_profile (Some 1) Sample.db Sample.bob).
Proof.
  apply (channel_profile_counts_agree Sample.castObjectId (Some 1) (Some "bob")
           Sample.bob_id Sample.db Sample.db
           (mkResponse 200 []
              (mkApiResponse 200 "success"
                 (Some (PChannel (channel_profile (Some 1) Sample.db Sample.bob)))))
           (channel_profile (Some 1) Sample.db Sample.bob)); reflexivity.
Defined.

(** ** Watch history across requests *)

(** X26.  A video that a signed-in user has just fetched is in the watch
    history that getWatchHistory returns to that user, with the view
    counter the fetch left. *)
Theorem getSingleVideo_then_getWatchHistory
        (castObjectId : string -> option ObjectId)
        (uid : ObjectId) (videoId : string) (vid : ObjectId)
        (db : DB) (v : Video.t) (u : User.t) :
  castObjectId videoId = Some vid ->
  find (has_video_id vid) (videos db) = Some v ->
  find (has_user_id uid) (users db) = Some u ->
  exists r1 db1 r2 entries e,
    getSingleVideo castObjectId (Some uid) videoId db = (Returned r1, db1)
    /\ getWatchHistory (Some uid) db1 = (Returned r2, db1)
    /\ status r2 = 200
    /\ data (json r2) = Some (PHistory entries)
    /\ In e entries
    /\ he_video e = Video.set_views (Video.views v + 1) v.
Proof.
  intros Hcast Hv Hu.
  destruct (users_after_view_history uid videoId vid (users db) u Hu) as (u' & Hu' & Hin).
  destruct (filter_cons_find User.t (has_user_id uid) _ u' Hu') as (rest & Hrest).
  eexists. eexists. eexists. eexists. eexists.
  split; [apply (getSingleVideo_found castObjectId (Some uid) videoId vid db v Hcast Hv)|].
  unfold getWatchHistory. run. rewrite Hrest. cbn [map].
  split; [reflexivity|]. split; [reflexivity|]. split; [reflexivity|].
  unfold resolve_history. cbn [videos]. split.
  - apply in_map. apply filter_In. split.
    + exact (In_update_first_found Video.t (has_video_id vid) bump_views (videos db) v Hv).
    + unfold bump_views. simpl Video._id. rewrite (find_video_id vid (videos db) v Hv).
      apply existsb_exists. exists vid. split; [exact Hin|apply N.eqb_refl].
  - reflexivity.
Qed.

Lemma getSingleVideo_then_getWatchHistory_witness :
  exists r1 db1 r2 entries e,
    getSingleVideo Sample.castObjectId (Some 1) Sample.draft_id Sample.db
    = (Returned r1, db1)
    /\ getWatchHistory (Some 1) db1 = (Returned r2, db1)
    /\ status r2 = 200
    /\ data (json r2) = Some (PHistory entries)
    /\ In e entries
    /\ he_video e = Video.set_views (Video.views Sample.draft + 1) Sample.draft.
Proof.
  apply (getSingleVideo_then_getWatchHistory Sample.castObjectId 1 Sample.draft_id 16
           Sample.db Sample.draft Sample.alice); reflexivity.
Defined.

(** X27.  Deleting a video does not clean the watch histories, and
    getWatchHistory copes with that: after the owner's delete, on a
    collection without repeated video ids, every account is stored as before
    (a history that named the video still names it), while the history
    returned to any stored user has no entry for the deleted video. *)
Theorem deleteVideo_then_getWatchHistory
        (castObjectId : string -> option ObjectId)
        (videoId : string) (vid uid : ObjectId) (w : World) (v : Video.t) (u : User.t) :
  castObjectId videoId = Some vid ->
  find (has_video_id vid) (videos (w_db w)) = Some v ->
  NoDup (map Video._id (videos (w_db w))) ->
  find (has_user_id uid) (users (w_db w)) = Some u ->
  exists r1 w' r2 entries,
    deleteVideo castObjectId (Some (Video.owner v)) videoId w = (Returned r1, w')
    /\ find (has_user_id uid) (users (w_db w')) = Some u
    /\ getWatchHistory (Some uid) (w_db w') = (Returned r2, w_db w')
    /\ data (json r2) = Some (PHistory entries)
    /\ (forall e, In e entries -> Video._id (he_video e) <> vid).
Proof.
  intros Hcast Hv Hnd Hu.
  destruct (filter_cons_find User.t (has_user_id uid) _ u Hu) as (rest & Hrest).
  eexists. eexists. eexists. eexists.
  split; [apply (deleteVideo_by_owner castObjectId videoId vid w v Hcast Hv)|].
  cbn [w_db users set_videos]. split; [exact Hu|].
  unfold getWatchHistory. run. rewrite Hrest. cbn [map].
  split; [reflexivity|]. split; [reflexivity|].
  intros e He. unfold resolve_history in He. cbn [videos] in He.
  apply in_map_iff in He. destruct He as (x & <- & Hx).
  apply filter_In in Hx. destruct Hx as [Hx _]. simpl he_video.
  assert (Hgone : find (has_video_id vid)
                       (remove_first (has_video_id vid) (videos (w_db w))) = None).
  { apply (find_remove_first_same Video.t ObjectId Video._id); [exact Hnd|].
    unfold has_video_id. intros a b Ha Hb. apply N.eqb_eq in Ha, Hb. congruence. }
  pose proof (find_none _ _ Hgone x Hx) as Hno.
  unfold has_video_id in Hno. now apply N.eqb_neq.
Qed.

Lemma deleteVideo_then_getWatchHistory_witness :
  In 17 (User.watchHistory Fixture.bob_viewer)
  /\ exists r1 w' r2 entries,
       deleteVideo Sample.castObjectId (Some (Video.owner Fixture.clip)) Fixture.clip_id
                   Fixture.world_watched = (Returned r1, w')
       /\ find (has_user_id 2) (users (w_db w')) = Some Fixture.bob_viewer
       /\ getWatchHistory (Some 2) (w_db w') = (Returned r2, w_db w')
       /\ data (json r2) = Some (PHistory entries)
       /\ (forall e, In e entries -> Video._id (he_video e) <> 17).
Proof.
  split; [left; reflexivity|].
  apply (deleteVideo_then_getWatchHistory Sample.castObjectId Fixture.clip_id 17 2
           Fixture.world_watched Fixture.clip Fixture.bob_viewer).
  - reflexivity.
  - reflexivity.
  - simpl. repeat constructor; simpl; intuition discriminate.
  - reflexivity.
Defined.


(** ** From registration to a session *)

Lemma required_nonempty (v : option string) (s : string) :
  required v = Some s -> v = Some s /\ s <> "".
Proof.
  destruct v as [x|]; simpl; [|discriminate].
  destruct (String.eqb_spec x ""); [discriminate|].
  intros H. injection H as <-. auto.
Qed.

(** The account that a successful registration stores. *)
Lemma register_stored
      (hashPassword : string -> string)
      (uploadOnCloudinary : string -> option UploadResult)
      (req : RegisterRequest) (db db' : DB) (r : Response) :
  register hashPassword uploadOnCloudinary req db = (Returned r, db') ->
  exists s pw u,
    body_username req = Some s
    /\ body_email req = Some (User.email u)
    /\ body_password req = Some pw
    /\ pw <> "" /\ User.email u <> "" /\ User.username u <> ""
    /\ users db' = (users db ++ [u])%list
    /\ User._id u = next_id db
    /\ User.username u = Js.toLowerCase s
    /\ User.password u = hashPassword pw.
Proof.
  unfold register.
  destruct (existsb blank_field _); [discriminate|].
  unfold User_findOne_username_or_email. run.
  destruct (find _ (users db)); [discriminate|].
  unfold avatar_path.
  destruct (files req) as [fs|]; run; [|discriminate].
  destruct (f_avatar fs) as [[|f l]|]; run; try discriminate.
  destruct (Js.truthy (Some (path f))); run; [|discriminate].
  destruct (body_username req) as [s|]; [|discriminate].
  unfold User_create. run.
  cbn [in_username in_fullName in_email in_password in_avatar in_coverImage].
  destruct (required (Some (Js.toLowerCase s))) as [uname|] eqn:E1; [|discriminate].
  destruct (required (body_fullName req)) as [fname|]; [|discriminate].
  destruct (required (body_email req)) as [mail|] eqn:E3; [|discriminate].
  destruct (required (body_password req)) as [pw|] eqn:E4; [|discriminate].
  destruct (required (option_map url _)) as [av|]; [|discriminate].
  destruct (existsb _ (users db)); [discriminate|].
  unfold User_findById. run.
  destruct (find _ (users db ++ _)); [|discriminate].
  intros H. injection H as _ <-.
  apply required_nonempty in E1, E3, E4.
  destruct E1 as [E1 N1], E3 as [E3 N3], E4 as [E4 N4]. injection E1 as <-.
  exists s, pw. eexists. cbn. repeat split; eauto.
Qed.

(** X28.  A registered account can open a session: after a successful
    registration, on a store where the new id was free and no older account
    goes by the identifier, a login with the registered password and either
    the email or the lower-cased username succeeds and leaves a refresh
    token on the new account. *)
Theorem register_then_login
        (hashPassword : string -> string)
        (uploadOnCloudinary : string -> option UploadResult)
        (generateAccessToken generateRefreshToken : User.t -> string)
        (isPasswordMatched : User.t -> string -> bool) (production : bool)
        (req : RegisterRequest) (identifier : string)
        (db db1 : DB) (r : Response) :
  register hashPassword uploadOnCloudinary req db = (Returned r, db1) ->
  (forall u pw, User.password u = hashPassword pw -> isPasswordMatched u pw = true) ->
  (forall x, In x (users db) -> User._id x <> next_id db) ->
  (forall x, In x (users db) ->
             User.username x <> identifier /\ User.email x <> identifier) ->
  body_email req = Some identifier
  \/ option_map Js.toLowerCase (body_username req) = Some identifier ->
  exists r2 db2 u2 token,
    login generateAccessToken generateRefreshToken isPasswordMatched production
          (Some identifier) (body_password req) db1 = (Returned r2, db2)
    /\ status r2 = 200
    /\ find (has_user_id (next_id db)) (users db2) = Some u2
    /\ User.refreshToken u2 = Some token
    /\ User.password u2 = hashPassword (default_to "" (body_password req)).
Proof.
  intros Hreg Hbcrypt Hfresh Hnew Hident.
  destruct (register_stored hashPassword uploadOnCloudinary req db db1 r Hreg)
    as (s & pw & u & Hs & Hmail & Hpw & Npw & Nmail & Nname & Husers & Hid & Hname & Hhash).
  assert (Hnonempty : identifier <> "").
  { destruct Hident as [E|E].
    - rewrite Hmail in E. injection E as <-. exact Nmail.
    - rewrite Hs in E. simpl in E. injection E as <-. now rewrite <- Hname. }
  assert (Hfound :
            find (fun x => field_matches (Some identifier) (User.username x)
                           || field_matches (Some identifier) (User.email x))
                 (users db1) = Some u).
  { rewrite Husers. apply find_app_new.
    - destruct (find _ (users db)) as [x|] eqn:Hx; [|reflexivity]. exfalso.
      apply find_some in Hx. destruct Hx as [Hin Hx]. simpl in Hx.
      destruct (Hnew x Hin) as [H1 H2].
      apply orb_true_iff in Hx. destruct Hx as [Hx|Hx]; apply String.eqb_eq in Hx; auto.
    - simpl. destruct Hident as [E|E].
      + rewrite Hmail in E. injection E as <-. rewrite String.eqb_refl. apply orb_true_r.
      + rewrite Hs in E. simpl in E. injection E as <-.
        rewrite Hname, String.eqb_refl. reflexivity. }
  assert (Hbyid : find (has_user_id (User._id u)) (users db1) = Some u).
  { rewrite Husers. apply find_app_new.
    - destruct (find _ (users db)) as [x|] eqn:Hx; [|reflexivity]. exfalso.
      apply find_some in Hx. destruct Hx as [Hin Hx].
      unfold has_user_id in Hx. apply N.eqb_eq in Hx.
      apply (Hfresh x Hin). now rewrite Hx.
    - unfold has_user_id. apply N.eqb_refl. }
  unfold login. rewrite Hpw, (truthy_Some identifier Hnonempty), (truthy_Some pw Npw).
  cbn [negb orb]. unfold User_findOne_username_or_email. run. rewrite Hfound.
  rewrite (Hbcrypt u pw Hhash). rewrite generateAccessAndRefreshTokens_run, Hbyid.
  unfold User_findById. run.
  pose (u2 := User.set_refreshToken (Some (generateRefreshToken u)) u).
  assert (Hu2 : find (has_user_id (User._id u))
                     (update_first (has_user_id (User._id u)) (fun _ => u2) (users db1))
                = Some u2).
  { apply (find_after_token (User._id u) (users db1) u u2 Hbyid). reflexivity. }
  fold u2. rewrite Hu2. rewrite <- Hid.
  eexists. eexists. exists u2. eexists. split; [reflexivity|].
  cbn [users status]. rewrite Hu2. repeat split. exact Hhash.
Qed.

Lemma register_then_login_witness :
  exists r2 db2 u2 token,
    login Sample.generateAccessToken Sample.generateRefreshToken
          Fixture.isPasswordMatched true (Some "carol") (Some "pw-c")
          (snd (register Sample.hashPassword Sample.uploadOnCloudinary
                         (Sample.signup (Some "Carol") (Some "carol@example.org")
                                        (Some "pw-c") (Some "Carol C")) Sample.db))
    = (Returned r2, db2)
    /\ status r2 = 200
    /\ find (has_user_id (next_id Sample.db)) (users db2) = Some u2
    /\ User.refreshToken u2 = Some token
    /\ User.password u2 = Sample.hashPassword "pw-c".
Proof.
  apply (register_then_login Sample.hashPassword Sample.uploadOnCloudinary
           Sample.generateAccessToken Sample.generateRefreshToken
           Fixture.isPasswordMatched true
           (Sample.signup (Some "Carol") (Some "carol@example.org")
                          (Some "pw-c") (Some "Carol C"))
           "carol" Sample.db _
           (fst (match register Sample.hashPassword Sample.uploadOnCloudinary
                         (Sample.signup (Some "Carol") (Some "carol@example.org")
                                        (Some "pw-c") (Some "Carol C")) Sample.db with
                 | (Returned r, d) => (r, d)
                 | (Thrown _, d) => (mkResponse 0 [] (mkApiResponse 0 "" None), d)
                 end))).
  - reflexivity.
  - intros u pw H. unfold Fixture.isPasswordMatched. rewrite H. apply String.eqb_refl.
  - intros x [<-|[<-|[]]]; discriminate.
  - intros x [<-|[<-|[]]]; split; discriminate.
  - right. reflexivity.
Defined.
